(** * us-soil-geo-app: the soil analysis pipeline of [src/workers/soil.js]
      and the geometry fingerprint of the map component.

    The numbers of the input (coordinates, table cells) and the areas
    that [turf.area] returns are finite doubles, modelled by the rationals
    they denote ([Q]); the acreages the pipeline computes from them are
    IEEE 754 doubles ([Double.t]) with the rounding of each operation;
    progress percentages are exact ratios.  Strings are sequences of code
    units below 256 ([string]); console output is not modelled.  The
    geometry libraries (turf, polygon-clipping, wellknown) and the remote
    Soil Data Access endpoint are interfaces of the model. *)

From Stdlib Require Import ZArith QArith Qround Ascii String Lia Lqa Sorted SpecFloat.
From stdpp Require Import base option list strings pretty gmap.

Set Warnings "-register-all".
Local Open Scope Z_scope.

(** ** JavaScript values

    The fields of an object are listed in property enumeration order, each
    key once. *)

Inductive value :=
| VUndef
| VNull
| VBool (b : bool)
| VNum (q : Q)
| VStr (s : string)
| VArr (l : list value)
| VObj (fields : list (string * value)).

(** Thrown values.  [new Error(msg)] has name "Error". *)
Record Error := mkError { name : string; message : string }.

Inductive exn :=
| ThrownUndefined
| ThrownError (e : Error).

Inductive exc (A : Type) :=
| Ok (a : A)
| Throw (e : exn).
Arguments Ok {A} a.
Arguments Throw {A} e.

Definition newError (msg : string) : exn := ThrownError (mkError "Error" msg).
Definition typeError (msg : string) : exn := ThrownError (mkError "TypeError" msg).

#[global] Instance exc_ret : MRet exc := fun A a => Ok a.
#[global] Instance exc_bind : MBind exc := fun A B f c =>
  match c with
  | Ok a => f a
  | Throw e => Throw e
  end.

(** [try { body } catch (error) { handler }] *)
Definition tryCatch {A} (body : exc A) (handler : exn -> exc A) : exc A :=
  match body with
  | Ok a => Ok a
  | Throw e => handler e
  end.

(** [error.message] inside a catch block. *)
Definition messageOf (e : exn) : exc string :=
  match e with
  | ThrownError err => Ok (message err)
  | ThrownUndefined =>
      Throw (typeError "Cannot read properties of undefined (reading 'message')")
  end.

(** Member lookup in the enumeration-ordered field list of an object. *)
Fixpoint assoc (k : string) (fields : list (string * value)) : value :=
  match fields with
  | [] => VUndef
  | (k', v) :: rest => if String.eqb k k' then v else assoc k rest
  end.

(** [v.k]: reading a member of [undefined] or [null] throws. *)
Definition member (v : value) (k : string) : exc value :=
  match v with
  | VUndef =>
      Throw (typeError ("Cannot read properties of undefined (reading '" +:+ k +:+ "')"))
  | VNull =>
      Throw (typeError ("Cannot read properties of null (reading '" +:+ k +:+ "')"))
  | VObj fields => Ok (assoc k fields)
  | _ => Ok VUndef
  end.

(** [v[i]] for an array index. *)
Definition index (v : value) (i : nat) : exc value :=
  match v with
  | VUndef =>
      Throw (typeError ("Cannot read properties of undefined (reading '"
                        +:+ pretty i +:+ "')"))
  | VNull =>
      Throw (typeError ("Cannot read properties of null (reading '" +:+ pretty i +:+ "')"))
  | VArr l => Ok (nth i l VUndef)
  | VStr s =>
      Ok (match String.get i s with
          | Some c => VStr (String c EmptyString)
          | None => VUndef
          end)
  | VObj fields => Ok (assoc (pretty i) fields)
  | _ => Ok VUndef
  end.

(** Truthiness ([!v] is its negation). *)
Definition truthy (v : value) : bool :=
  match v with
  | VUndef | VNull => false
  | VBool b => b
  | VNum q => negb (Qeq_bool q 0)
  | VStr s => negb (String.eqb s "")
  | VArr _ | VObj _ => true
  end.

Definition isStr (v : value) (s : string) : bool :=
  match v with
  | VStr s' => String.eqb s' s
  | _ => false
  end.

(** The elements that [v?.length] and [v[i]] give: those of an array, and
    the code units of a string.  An object that imitates an array through
    a [length] member is read as having no elements. *)
Definition arrayOf (v : value) : option (list value) :=
  match v with
  | VArr l => Some l
  | VStr s => Some (map (fun c => VStr (String c EmptyString)) (list_ascii_of_string s))
  | _ => None
  end.

(** ** Numbers *)

Definition Qgeb (a b : Q) : bool := Qle_bool b a.
Definition Qgtb (a b : Q) : bool := negb (Qle_bool a b).

(** [Math.round] of an exact ratio: nearest integer, ties towards
    +infinity. *)
Definition Math_round (x : Q) : Z := Qfloor (x + (1 # 2)).

(** *** Doubles

    IEEE 754 binary64 numbers with the operations of the Standard
    Library's [SpecFloat]: every result is the exact result rounded to the
    nearest double, ties to even. *)

Module Double.
Definition prec : Z := 53.
Definition emax : Z := 1024.

Definition t : Type := spec_float.

Definition zero : t := S754_zero false.
Definition infinity : t := S754_infinity false.

Definition add : t -> t -> t := SFadd prec emax.
Definition mul : t -> t -> t := SFmul prec emax.
Definition div : t -> t -> t := SFdiv prec emax.
Definition sub : t -> t -> t := SFsub prec emax.

(** [a < b], [a > b], [a <= b] and [a == b]; all false when an operand is
    NaN. *)
Definition ltb : t -> t -> bool := SFltb.
Definition gtb (a b : t) : bool := SFltb b a.
Definition leb : t -> t -> bool := SFleb.
Definition eqb : t -> t -> bool := SFeqb.

(** A whole number as a double. *)
Definition ofZ (z : Z) : t := binary_normalize prec emax z 0 false.

(** A whole number as an unrounded operand of a division. *)
Definition operand (z : Z) : t :=
  match z with
  | Z0 => S754_zero false
  | Zpos p => S754_finite false p 0
  | Zneg p => S754_finite true p 0
  end.

(** The double nearest to a ratio: the value of a decimal literal of the
    source, and the double that a rational of the model stands for. *)
Definition ofQ (q : Q) : t := div (operand (Qnum q)) (operand (Zpos (Qden q))).

(** Truthiness of a number: [0], [-0] and [NaN] are falsy. *)
Definition truthy (x : t) : bool :=
  match x with
  | S754_zero _ | S754_nan => false
  | _ => true
  end.

(** [x || 0] *)
Definition orZero (x : t) : t := if truthy x then x else zero.

(** [Math.round(x)]: the integer nearest to [x], ties towards +infinity;
    a result of zero keeps the sign of [x].  A double whose exponent is
    not negative is a whole number already. *)
Definition Math_round (x : t) : t :=
  match x with
  | S754_finite s m e =>
      if 0 <=? e then x else
      let n := Z.shiftr (2 * (if s then Z.neg m else Z.pos m) + 2 ^ (- e)) (1 - e) in
      if n =? 0 then S754_zero s else ofZ n
  | _ => x
  end.




(** The sum of a list, added up from the left, starting at [0]. *)
Definition sum (l : list t) : t := fold_left add l zero.

(** The number that a finite double denotes (0 for the others). *)
Definition value (x : t) : Q :=
  match x with
  | S754_finite s m e =>
      let n := if s then Z.neg m else Z.pos m in
      if 0 <=? e then inject_Z (n * 2 ^ e) else Qmake n (Z.to_pos (2 ^ (- e)))
  | _ => 0%Q
  end.
End Double.

Module SDA_CONFIG.
Definition MAX_RETRIES : nat := 3.
Definition REQUEST_TIMEOUT : Z := 120000.
(** The literal [0.000247105381]. *)
Definition ACRES_PER_SQM : Double.t := Double.ofQ (247105381 # 1000000000000).
End SDA_CONFIG.

(** Convert square metres to acres:
    [Math.round(areaSqm * SDA_CONFIG.ACRES_PER_SQM * 1e6) / 1e6]. *)
Definition sqmToAcres (areaSqm : Q) : Double.t :=
  Double.div
    (Double.Math_round
       (Double.mul (Double.mul (Double.ofQ areaSqm) SDA_CONFIG.ACRES_PER_SQM)
          (Double.ofZ 1000000)))
    (Double.ofZ 1000000).

(** ** The geometry libraries and the JavaScript runtime *)

Class JsEnv := {
  (** [Number.prototype.toString] *)
  Number_toString : Q -> string;
  (** [turf.intersect(a, b)]: a Feature, [null], or an exception *)
  turf_intersect : value -> value -> exc value;
  (** [turf.area(feature)] in square metres *)
  turf_area : value -> exc Q;
  turf_booleanWithin : value -> value -> exc bool;
  turf_booleanIntersects : value -> value -> exc bool;
  (** [turf.union(a, b)]: a Feature, [null], or an exception *)
  turf_union : value -> value -> exc value;
  (** [polygonClipping.intersection(a, b)]: a list of polygons *)
  polygonClipping_intersection : value -> value -> exc (list value);
  (** [wellknown.stringify] and [wellknown.parse] *)
  wkx_stringify : value -> exc string;
  wkx_parse : value -> exc value;
}.

(** [turf.feature(geometry)] and the feature literals of the source. *)
Definition feature (props : list (string * value)) (geometry : value) : value :=
  VObj [("type", VStr "Feature"); ("properties", VObj props); ("geometry", geometry)].

Definition turf_feature (geometry : value) : value := feature [] geometry.

Section Intersection.
Context {env : JsEnv}.

Record Intersection := mkIntersection {
  geometry : value;
  area : Q;
  method : string;
}.

(** Extract coordinates from polygon geometry for polygon-clipping. *)
Definition getPolygonCoordinates (geom : value) : exc value :=
  if negb (truthy geom) then Ok VNull else
  coords ← member geom "coordinates";
  if negb (truthy coords) then Ok VNull else
  ty ← member geom "type";
  if isStr ty "Polygon" then Ok coords
  else if isStr ty "MultiPolygon" then index coords 0
  else Ok VNull.

(** The outcome of one of the three blocks of
    [calculateRobustIntersection]: it returns from the function (a result
    or [null]), or control falls through to the next block. *)
Inductive step :=
| Return (r : option Intersection)
| FallThrough.

Definition caught (body : exc step) : step :=
  match body with
  | Ok s => s
  | Throw _ => FallThrough
  end.

(** Method 1: turf.intersect. *)
Definition method1 (soilGeometry studyGeometry : value) : step :=
  caught (
    let soilFeature := feature [] soilGeometry in
    let studyFeature := feature [] studyGeometry in
    intersection ← turf_intersect soilFeature studyFeature;
    if negb (truthy intersection) then Ok FallThrough else
    g ← member intersection "geometry";
    if negb (truthy g) then Ok FallThrough else
    a ← turf_area intersection;
    if Qgeb a (1 # 10)
    then Ok (Return (Some (mkIntersection g a "turf_intersect")))
    else Ok FallThrough).

(** Method 2: polygon-clipping on the coordinate arrays. *)
Definition method2 (soilGeometry studyGeometry : value) : step :=
  caught (
    soilCoords ← getPolygonCoordinates soilGeometry;
    studyCoords ← getPolygonCoordinates studyGeometry;
    if negb (truthy soilCoords) || negb (truthy studyCoords)
    then Ok (Return None) else
    intersectionResult ←
      polygonClipping_intersection (VArr [soilCoords]) (VArr [studyCoords]);
    if (length intersectionResult =? 0)%nat then Ok (Return None) else
    let intersectionGeometry :=
      VObj [("type", VStr (if (length intersectionResult =? 1)%nat
                           then "Polygon" else "MultiPolygon"));
            ("coordinates", if (length intersectionResult =? 1)%nat
                            then nth 0 intersectionResult VUndef
                            else VArr intersectionResult)] in
    a ← turf_area (turf_feature intersectionGeometry);
    if Qgeb a (1 # 10)
    then Ok (Return (Some (mkIntersection intersectionGeometry a "polygon_clipping")))
    else Ok FallThrough).

(** Method 3: containment relationships. *)
Definition method3 (soilGeometry studyGeometry : value) : step :=
  caught (
    let soilFeature := turf_feature soilGeometry in
    let studyFeature := turf_feature studyGeometry in
    soilInStudy ← turf_booleanWithin soilFeature studyFeature;
    if soilInStudy : bool then
      a ← turf_area soilFeature;
      Ok (Return (Some (mkIntersection soilGeometry a "soil_within_study")))
    else
      studyInSoil ← turf_booleanWithin studyFeature soilFeature;
      if studyInSoil : bool then
        a ← turf_area studyFeature;
        Ok (Return (Some (mkIntersection studyGeometry a "study_within_soil")))
      else Ok FallThrough).

Definition calculateRobustIntersection (soilGeometry studyGeometry : value)
  : option Intersection :=
  match method1 soilGeometry studyGeometry with
  | Return r => r
  | FallThrough =>
      match method2 soilGeometry studyGeometry with
      | Return r => r
      | FallThrough =>
          match method3 soilGeometry studyGeometry with
          | Return r => r
          | FallThrough => None
          end
      end
  end.
End Intersection.

(** ** The remote endpoint and the effects of the pipeline *)

Definition row := list value.

Record Request := mkRequest { query : string; format : string }.

(** What the code reads from a [fetch] response.  [json] is the decoded
    body's [Table] member ([None] when it is absent), or the exception of
    [response.json()]. *)
Record Response := mkResponse {
  ok : bool;
  status : Z;
  statusText : string;
  text : exc string;
  contentType : option string;
  json : exc (option (list row));
}.

(** The endpoint answers a request from its current state; a rejected
    [fetch] (network failure, abort) is an exception. *)
Class Remote := {
  World : Type;
  fetch : World -> Request -> exc Response * World;
}.

Record Progress := mkProgress {
  current : Z;
  total : Z;
  progressMessage : string;
  percentage : Z;
}.

Inductive Event :=
| EvFetch (r : Request)
| EvWait (ms : Z)
| EvProgress (p : Progress).

Section Effects.
Context {remote : Remote}.

Record State := mkState { world : World; trace : list Event }.

Definition M (A : Type) : Type := State -> exc A * State.

Definition ret {A} (a : A) : M A := fun st => (Ok a, st).
Definition throw {A} (e : exn) : M A := fun st => (Throw e, st).
Definition bind {A B} (c : M A) (k : A -> M B) : M B := fun st =>
  match c st with
  | (Ok a, st') => k a st'
  | (Throw e, st') => (Throw e, st')
  end.
Definition lift {A} (c : exc A) : M A := fun st => (c, st).

(** [try { body } catch (error) { handler }] around effectful code. *)
Definition tryCatchM {A} (body : M A) (handler : exn -> M A) : M A := fun st =>
  match body st with
  | (Ok a, st') => (Ok a, st')
  | (Throw e, st') => handler e st'
  end.

Definition emit (e : Event) : M unit := fun st =>
  (Ok tt, mkState (world st) (trace st ++ [e])).

Definition wait (ms : Z) : M unit := emit (EvWait ms).

Definition fetchM (r : Request) : M Response := fun st =>
  let '(res, w) := fetch (world st) r in
  (res, mkState w (trace st ++ [EvFetch r])).

(** [if (progressCallback) progressCallback(p)] *)
Definition report (progressCallback : option (Progress -> M unit)) (p : Progress)
  : M unit :=
  match progressCallback with
  | Some cb => cb p
  | None => ret tt
  end.
End Effects.

#[global] Instance M_ret {remote : Remote} : MRet M := @ret remote.
#[global] Instance M_bind {remote : Remote} : MBind M := fun A B k c => bind c k.

(** ** Strings *)

Fixpoint includes (s sub : string) : bool :=
  String.prefix sub s ||
  match s with
  | EmptyString => false
  | String _ rest => includes rest sub
  end.

(** White space of [String.prototype.trim] among the code units below 256. *)
Definition isWhiteSpace (c : ascii) : bool :=
  let n := nat_of_ascii c in
  ((9 <=? n) && (n <=? 13) || (n =? 32) || (n =? 160))%nat.

Fixpoint trimStart (s : string) : string :=
  match s with
  | String c rest => if isWhiteSpace c then trimStart rest else s
  | EmptyString => EmptyString
  end.

Definition trim (s : string) : string :=
  String.rev (trimStart (String.rev (trimStart s))).

Fixpoint join (sep : string) (l : list string) : string :=
  match l with
  | [] => ""
  | [s] => s
  | s :: rest => s +:+ sep +:+ join sep rest
  end.

(** ** Execute SDA query with retries *)

Section Query.
Context {env : JsEnv} {remote : Remote}.

Definition isAbortError (e : Error) : bool := String.eqb (name e) "AbortError".

Definition backoffDelay (attempt : nat) : Z :=
  Z.min (1000 * 2 ^ Z.of_nat attempt) 10000.

(** The checks on a response and the decoding of its table. *)
Definition decodeResponse (response : Response) : exc (list row) :=
  if negb (ok response) then
    let errorText :=
      match text response with
      | Ok t => t
      | Throw _ => "HTTP " +:+ pretty (status response) +:+ " " +:+ statusText response
      end in
    Throw (newError ("SDA API Error " +:+ pretty (status response) +:+ ": " +:+ errorText))
  else
    if match contentType response with
       | None => true
       | Some ct => negb (includes ct "application/json")
       end
    then
      textResponse ← text response;
      Throw (newError ("SDA API returned non-JSON response: "
                       +:+ String.substring 0 200 textResponse))
    else
      data ← json response;
      Ok (default [] data).

(** The body of the [try] block: one request and the decoding of its
    response. *)
Definition attemptQuery (requestBody : Request) : M (list row) :=
  response ← fetchM requestBody;
  lift (decodeResponse response).

(** The [for] loop; [remaining] is [retries - attempt]. *)
Fixpoint retryLoop (requestBody : Request) (retries attempt remaining : nat)
    (lastError : exn) : M (list row) :=
  match remaining with
  | O => throw lastError
  | S remaining' =>
      tryCatchM (attemptQuery requestBody) (fun error =>
        match error with
        | ThrownUndefined =>
            throw (typeError "Cannot read properties of undefined (reading 'name')")
        | ThrownError e =>
            if isAbortError e then
              throw (newError "Query timeout - try reducing scope or increasing timeout")
            else
              (if (attempt <? retries - 1)%nat
               then wait (backoffDelay attempt) else ret tt);;
              retryLoop requestBody retries (S attempt) remaining' error
        end)
  end.

(** [retries] is [options.retries]; every caller in the pipeline leaves it
    at its default [SDA_CONFIG.MAX_RETRIES]. *)
Definition executeSDQuery (q : string) (retries : nat) : M (list row) :=
  let requestBody := mkRequest (trim q) "JSON" in
  retryLoop requestBody retries 0 retries ThrownUndefined.
End Query.

(** ** Geometry normalisation and the two lookup queries *)

Section Lookup.
Context {env : JsEnv} {remote : Remote}.

(** [String(v)] and template-literal interpolation. *)
Fixpoint String_ (v : value) : string :=
  match v with
  | VUndef => "undefined"
  | VNull => "null"
  | VBool b => if b then "true" else "false"
  | VNum q => Number_toString q
  | VStr s => s
  | VArr l =>
      join "," (map (fun x => match x with
                              | VUndef | VNull => ""
                              | _ => String_ x
                              end) l)
  | VObj _ => "[object Object]"
  end.

(** One turn of the union loop: a failed or empty union keeps the
    running union. *)
Definition unionStep (union f : value) : value :=
  match
    (g ← member f "geometry";
     turf_union union (turf_feature g))
  with
  | Ok unionResult => if truthy unionResult then unionResult else union
  | Throw _ => union
  end.

(** Extract GeoJSON geometries and convert to WKT. *)
Definition extractAndConvertGeometry (geojson : value)
  : exc (option (value * string)) :=
  if negb (truthy geojson) then Ok None else
  tryCatch
    (ty ← member geojson "type";
     feats ← member geojson "features";
     geometry ←
       match (if isStr ty "FeatureCollection" then arrayOf feats else None) with
       | Some ((f0 :: rest) as features) =>
           if (length features =? 1)%nat then member f0 "geometry"
           else
             g0 ← member f0 "geometry";
             let union := fold_left unionStep rest (turf_feature g0) in
             member union "geometry"
       | _ =>
           if isStr ty "Feature" then member geojson "geometry"
           else if isStr ty "Polygon" || isStr ty "MultiPolygon" then Ok geojson
           else Throw (newError ("Unsupported GeoJSON type: " +:+ String_ ty))
       end;
     if negb (truthy geometry)
     then Throw (newError "No valid geometry found after processing") else
     gty ← member geometry "type";
     gcoords ← member geometry "coordinates";
     if negb (truthy gty) || negb (truthy gcoords)
     then Throw (newError "Invalid geometry: missing type or coordinates") else
     wktString ← wkx_stringify geometry;
     if String.eqb wktString ""
     then Throw (newError "WKT conversion resulted in empty string") else
     Ok (Some (geometry, wktString)))
    (fun error =>
       msg ← messageOf error;
       Throw (newError ("Geometry processing failed: " +:+ msg))).

(** Get soil map unit keys (MUKEYs). *)
Definition getSoilMapUnitKeys (wktString : string) : M (list string) :=
  let mukeyQuery :=
    "SELECT mukey FROM SDA_Get_Mukey_from_intersection_with_WktWgs84('"
    +:+ wktString +:+ "')" in
  mukeyData ← executeSDQuery mukeyQuery SDA_CONFIG.MAX_RETRIES;
  ret (List.filter (fun key => negb (String.eqb key "") && negb (String.eqb (trim key) ""))
         (map (fun r : row => String_ (nth 0 r VUndef)) mukeyData)).
End Lookup.

(** ** The table of soil properties *)

Record SoilProperties := mkSoilProperties {
  sp_mukey : value;
  muname : value;
  taxorder : value;
  taxsuborder : value;
  drainagecl : value;
  taxreaction : value;
  taxclname : value;
  ph1to1h2o_r : value;
  om_r : value;
  sandtotal_r : value;
  silttotal_r : value;
  claytotal_r : value;
  texture : value;
}.

(** The ranked-component query, with the line breaks, the indentation and
    the SQL comments of the template in the source. *)
Definition soilPropertiesQuery (mukeys : list string) : string :=
  "
    WITH RankedSoils AS (
        SELECT 
            m.mukey,                    -- Map unit key (unique identifier)
            m.muname,                   -- Map unit name (descriptive name)
            c.taxorder,                 -- Soil taxonomic order (highest classification level)
            c.taxsuborder,              -- Soil taxonomic suborder 
            c.drainagecl,               -- Drainage class (e.g., well drained, poorly drained)
            c.taxreaction,              -- Soil reaction (pH category)
            c.taxclname,                -- Taxonomic class name
            h.ph1to1h2o_r,              -- pH in water (1:1 ratio) - representative value
            h.om_r,                     -- Organic matter content (%) - representative value
            h.sandtotal_r,              -- Total sand percentage - representative value
            h.silttotal_r,              -- Total silt percentage - representative value
            h.claytotal_r,              -- Total clay percentage - representative value
            tg.texture,                 -- Soil texture class (e.g., loam, clay loam)
            ROW_NUMBER() OVER (
                PARTITION BY m.mukey 
                ORDER BY c.comppct_r DESC, h.hzdept_r ASC
            ) AS soil_rank
        FROM mapunit m                  -- Map units table
        INNER JOIN component c ON m.mukey = c.mukey           -- Soil components in each map unit
        INNER JOIN chorizon h ON h.cokey = c.cokey            -- Soil horizons for each component
        INNER JOIN chtexturegrp tg ON tg.chkey = h.chkey      -- Texture information for each horizon
        WHERE m.mukey IN ("
  +:+ join "," (map (fun k => "'" +:+ k +:+ "'") mukeys)
  +:+ ")    -- Filter to our study area map units
            AND c.majcompflag = 'Yes'                         -- Only major components (primary soils)
    )
    SELECT 
        mukey, muname, taxorder, taxsuborder, drainagecl, taxreaction, taxclname,
        ph1to1h2o_r, om_r, sandtotal_r, silttotal_r, claytotal_r, texture
    FROM RankedSoils
    WHERE soil_rank = 1  -- Get only the most representative soil for each map unit
  ".

Definition rowToProperties (r : row) : SoilProperties :=
  let c i := nth i r VUndef in
  mkSoilProperties (c 0%nat) (c 1%nat) (c 2%nat) (c 3%nat) (c 4%nat) (c 5%nat)
    (c 6%nat) (c 7%nat) (c 8%nat) (c 9%nat) (c 10%nat) (c 11%nat) (c 12%nat).

(** The members of a properties record, in the order of the object
    literal. *)
Definition recordMembers (sp : SoilProperties) : list (string * value) :=
  [("mukey", sp_mukey sp); ("muname", muname sp); ("taxorder", taxorder sp);
   ("taxsuborder", taxsuborder sp); ("drainagecl", drainagecl sp);
   ("taxreaction", taxreaction sp); ("taxclname", taxclname sp);
   ("ph1to1h2o_r", ph1to1h2o_r sp); ("om_r", om_r sp);
   ("sandtotal_r", sandtotal_r sp); ("silttotal_r", silttotal_r sp);
   ("claytotal_r", claytotal_r sp); ("texture", texture sp)].

(** An own member of a field list, [None] when there is none of that
    name. *)
Fixpoint ownMember (k : string) (fields : list (string * value)) : option value :=
  match fields with
  | [] => None
  | (k', v) :: rest => if String.eqb k k' then Some v else ownMember k rest
  end.

(** The names of the members of [Object.prototype]. *)
Definition objectPrototypeMembers : list string :=
  ["constructor"; "__defineGetter__"; "__defineSetter__"; "hasOwnProperty";
   "__lookupGetter__"; "__lookupSetter__"; "isPrototypeOf"; "propertyIsEnumerable";
   "toString"; "valueOf"; "__proto__"; "toLocaleString"].

(** What [soilProperties[mukey]] evaluates to. *)
Inductive Looked :=
| Found (sp : SoilProperties)  (** a properties record *)
| Inherited (v : value)        (** a member of the record that is the prototype *)
| Builtin                      (** a member of [Object.prototype] *)
| Absent.                      (** [undefined] *)

Definition lookedTruthy (l : Looked) : bool :=
  match l with
  | Found _ | Builtin => true
  | Inherited v => truthy v
  | Absent => false
  end.

(** The own enumerable members of a value, which [...value] copies. *)
Definition ownEnumerable (v : value) : list (string * value) :=
  match v with
  | VObj fields => fields
  | VArr l => imap (fun i x => (pretty i, x)) l
  | VStr s =>
      imap (fun i c => (pretty i, VStr (String c EmptyString))) (list_ascii_of_string s)
  | _ => []
  end.

(** The members that [...soilProperties[mukey]] adds to an object
    literal; the functions and the prototype object have none that are
    enumerable. *)
Definition spreadMembers (l : Looked) : list (string * value) :=
  match l with
  | Found sp => recordMembers sp
  | Inherited v => ownEnumerable v
  | Builtin | Absent => []
  end.

(** The object [soilProperties]: a plain object used as a table.  Beside
    its own entries it has a prototype, [Object.prototype] ([None]) until
    an assignment to the key ["__proto__"] replaces it by the record
    assigned. *)
Module PropertyTable.
Record t := mk {
  entries : gmap string SoilProperties;
  prototype : option SoilProperties;
}.

(** [{}] *)
Definition empty : t := mk ∅ None.

(** [soilProperties[key] = record]: the setter of ["__proto__"] makes
    [record] the prototype and adds no entry. *)
Definition set (key : string) (record : SoilProperties) (table : t) : t :=
  if String.eqb key "__proto__"
  then mk (entries table) (Some record)
  else mk (<[key := record]> (entries table)) (prototype table).

(** [soilProperties[key]]: an own entry, else a member of the prototype
    chain; ["__proto__"] reads the prototype itself. *)
Definition get (table : t) (key : string) : Looked :=
  if String.eqb key "__proto__" then
    match prototype table with
    | Some record => Found record
    | None => Builtin
    end
  else
    match entries table !! key with
    | Some record => Found record
    | None =>
        match prototype table ≫= (fun record => ownMember key (recordMembers record)) with
        | Some v => Inherited v
        | None =>
            if bool_decide (key ∈ objectPrototypeMembers) then Builtin else Absent
        end
    end.
End PropertyTable.

Section Properties.
Context {env : JsEnv} {remote : Remote}.

(** Get comprehensive soil properties: an object keyed by map unit key. *)
Definition getSoilProperties (mukeys : list string) : M PropertyTable.t :=
  if (length mukeys =? 0)%nat then ret PropertyTable.empty else
  soilData ← executeSDQuery (soilPropertiesQuery mukeys) SDA_CONFIG.MAX_RETRIES;
  ret (fold_left (fun soilProperties r =>
                    PropertyTable.set (String_ (nth 0 r VUndef)) (rowToProperties r)
                      soilProperties)
         soilData PropertyTable.empty).
End Properties.

(** ** The intersection pipeline *)

Module IntersectionFeature.
(** An output feature: the members of its [properties] literal and its
    geometry.  [soil] is the value of [soilProperties[mukey]] that the
    literal spreads last: the members it adds ([spreadMembers]) replace
    the members of the same name before it. *)
Record t := mk {
  mukey : string;
  area_acres : Double.t;
  area_square_meters : Q;
  intersection_method : string;
  soil : Looked;
  geometry : value;
}.

End IntersectionFeature.

Module SoilUnit.
Record t := mk {
  mukey : string;
  area_acres : Double.t;
  intersectionFeatures : list IntersectionFeature.t;
}.
End SoilUnit.

Record ResultProperties := mkResultProperties {
  total_area_acres : Double.t;
  mapunit_count : nat;
  study_area : value;
}.

Record AnalysisResult := mkAnalysisResult {
  type : string;
  features : list IntersectionFeature.t;
  properties : option ResultProperties;
}.

Section Pipeline.
Context {env : JsEnv} {remote : Remote}.

(** The robust intersection of one soil polygon, guarded by
    [turf.booleanIntersects]; a geometric exception leaves it [null]. *)
Definition intersectPolygon (mukey : string) (soilGeometry studyAreaGeometry : value)
  : option (value * string) :=
  let soilFeature := feature [("mukey", VStr mukey)] soilGeometry in
  let studyFeature := feature [] studyAreaGeometry in
  match turf_booleanIntersects soilFeature studyFeature with
  | Ok true =>
      match calculateRobustIntersection soilGeometry studyAreaGeometry with
      | Some intersectionResult =>
          Some (feature [] (geometry intersectionResult), method intersectionResult)
      | None => None
      end
  | _ => None
  end.

(** The body of the loop over the polygons of one map unit, with the
    running [totalIntersectionArea] and [intersectionFeatures]. *)
Definition processPolygon (mukey : string) (studyAreaGeometry : value)
    (soilProperties : PropertyTable.t)
    (acc : Double.t * list IntersectionFeature.t) (r : row)
  : Double.t * list IntersectionFeature.t :=
  let '(totalIntersectionArea, intersectionFeatures) := acc in
  match
    (soilGeometry ← wkx_parse (nth 0 r VUndef);
     match intersectPolygon mukey soilGeometry studyAreaGeometry with
     | Some (intersection, intersectionMethod) =>
         g ← member intersection "geometry";
         if negb (truthy g) then Ok acc else
         areaSquareMeters ← turf_area intersection;
         let areaAcres := sqmToAcres areaSquareMeters in
         if Double.gtb areaAcres (Double.ofQ (1 # 10000)) then
           Ok (Double.add totalIntersectionArea areaAcres,
               intersectionFeatures ++
               [IntersectionFeature.mk mukey areaAcres areaSquareMeters
                  intersectionMethod (PropertyTable.get soilProperties mukey) g])
         else Ok acc
     | None => Ok acc
     end)
  with
  | Ok acc' => acc'
  | Throw _ => acc
  end.

(** The body of the loop over the map unit keys, with the running
    [results] and [processed]. *)
Definition processMukey (nMukeys : nat) (studyAreaGeometry : value)
    (soilProperties : PropertyTable.t)
    (progressCallback : option (Progress -> M unit))
    (acc : list SoilUnit.t * Z) (mukey : string) : M (list SoilUnit.t * Z) :=
  let '(results, processed) := acc in
  tryCatchM
    (report progressCallback
       (mkProgress processed (Z.of_nat nMukeys)
          ("Processing soil unit " +:+ mukey +:+ "...")
          (Math_round (inject_Z processed / inject_Z (Z.of_nat nMukeys)
                       * inject_Z 100)));;
     polygonData ←
       executeSDQuery ("SELECT * FROM SDA_Get_MupolygonWktWgs84_from_Mukey("
                       +:+ mukey +:+ ")") SDA_CONFIG.MAX_RETRIES;
     if (length polygonData =? 0)%nat then ret (results, processed + 1) else
     let '(totalIntersectionArea, intersectionFeatures) :=
       fold_left (processPolygon mukey studyAreaGeometry soilProperties)
         polygonData (Double.zero, []) in
     if Double.gtb totalIntersectionArea Double.zero
        && lookedTruthy (PropertyTable.get soilProperties mukey)
     then ret (results ++ [SoilUnit.mk mukey totalIntersectionArea intersectionFeatures],
               processed + 1)
     else ret (results, processed + 1))
    (fun _ => ret (results, processed + 1)).

Fixpoint forEachMukey (body : list SoilUnit.t * Z -> string -> M (list SoilUnit.t * Z))
    (mukeys : list string) (acc : list SoilUnit.t * Z) : M (list SoilUnit.t * Z) :=
  match mukeys with
  | [] => ret acc
  | mukey :: rest => acc' ← body acc mukey; forEachMukey body rest acc'
  end.

(** [results.sort((a, b) => (b.area_acres || 0) - (a.area_acres || 0))]:
    a stable sort, descending by area.  The sort reads the sign of the
    comparator only.  The operands are not NaN; the difference of two
    doubles is positive exactly when the first is the greater one, it is
    zero only for equal operands, and [Infinity - Infinity] is NaN, which
    the sort reads as zero: the sign of the difference is the comparison
    of the operands. *)
Definition comparatorPositive (a b : SoilUnit.t) : bool :=
  Double.gtb (Double.orZero (SoilUnit.area_acres b))
    (Double.orZero (SoilUnit.area_acres a)).

Fixpoint insertUnit (a : SoilUnit.t) (sorted : list SoilUnit.t) : list SoilUnit.t :=
  match sorted with
  | [] => [a]
  | b :: rest =>
      if comparatorPositive a b
      then b :: insertUnit a rest
      else a :: b :: rest
  end.

Definition sortUnits (results : list SoilUnit.t) : list SoilUnit.t :=
  foldr insertUnit [] results.

(** Calculate soil intersections. *)
Definition calculateSoilIntersections (mukeys : list string) (studyAreaWkt : string)
    (studyAreaGeometry : value) (soilProperties : PropertyTable.t)
    (progressCallback : option (Progress -> M unit)) : M (list SoilUnit.t) :=
  '(results, processed) ←
    forEachMukey (processMukey (length mukeys) studyAreaGeometry soilProperties
                    progressCallback) mukeys ([], 0);
  report progressCallback
    (mkProgress processed (Z.of_nat (length mukeys)) "Spatial analysis complete" 100);;
  ret (sortUnits results).

Definition isObject (v : value) : bool :=
  match v with
  | VNull | VArr _ | VObj _ => true
  | _ => false
  end.

(** Input validation and geometry conversion: the first part of
    [getSoilPolygonsAndAreas], up to the map unit lookup. *)
Definition validateAndConvert (geojson : value)
    (progressCallback : option (Progress -> M unit)) : M (value * string) :=
  if negb (truthy geojson) then throw (newError "No GeoJSON provided") else
  if negb (isObject geojson) then throw (newError "GeoJSON must be an object") else
  ty ← lift (member geojson "type");
  if negb (truthy ty)
  then throw (newError "GeoJSON must have a 'type' property") else
  report progressCallback (mkProgress 0 100 "Converting geometry..." 0);;
  extracted ← lift (extractAndConvertGeometry geojson);
  match extracted with
  | None => throw (typeError "Cannot destructure property 'geometry' of null")
  | Some (studyAreaGeometry, studyAreaWkt) =>
      if negb (truthy studyAreaGeometry) || String.eqb studyAreaWkt ""
      then throw (newError "Failed to extract valid geometry from GeoJSON") else
      report progressCallback (mkProgress 20 100 "Finding soil map units..." 20);;
      ret (studyAreaGeometry, studyAreaWkt)
  end.

(** The progress callback handed to [calculateSoilIntersections]. *)
Definition subProgressCallback (progressCallback : option (Progress -> M unit))
    (subProgress : Progress) : M unit :=
  let scaled :=
    Math_round (inject_Z 60
                + inject_Z (current subProgress) / inject_Z (total subProgress)
                  * inject_Z 35) in
  report progressCallback
    (mkProgress scaled 100 (progressMessage subProgress) scaled).

(** The last part of [getSoilPolygonsAndAreas]: properties, intersections
    and the assembly of the result for the keys kept. *)
Definition analyseMukeys (geojson studyAreaGeometry : value) (studyAreaWkt : string)
    (limitedMukeys : list string)
    (progressCallback : option (Progress -> M unit)) : M AnalysisResult :=
  report progressCallback (mkProgress 40 100 "Retrieving soil properties..." 40);;
  soilProperties ← getSoilProperties limitedMukeys;
  report progressCallback
    (mkProgress 60 100 "Calculating spatial intersections..." 60);;
  results ←
    calculateSoilIntersections limitedMukeys studyAreaWkt studyAreaGeometry
      soilProperties (Some (subProgressCallback progressCallback));
  report progressCallback (mkProgress 100 100 "Analysis complete" 100);;
  let allFeatures := concat (map SoilUnit.intersectionFeatures results) in
  ret (mkAnalysisResult "FeatureCollection" allFeatures
         (Some (mkResultProperties
                  (fold_left
                     (fun sum unit => Double.add sum (Double.orZero (SoilUnit.area_acres unit)))
                     results Double.zero)
                  (length results)
                  geojson))).

(** The outer [catch] block of [getSoilPolygonsAndAreas]. *)
Definition soilAnalysisFailed (error : exn) : M AnalysisResult :=
  msg ← lift (messageOf error);
  throw (newError ("Soil analysis failed: " +:+ msg)).

(** Main function.  [maxResults] is [None] when the argument is left out
    or [undefined]; its default is 100. *)
Definition getSoilPolygonsAndAreas (geojson : value) (maxResults : option Z)
    (progressCallback : option (Progress -> M unit)) : M AnalysisResult :=
  let maxResults := default 100 maxResults in
  tryCatchM
    ('(studyAreaGeometry, studyAreaWkt) ← validateAndConvert geojson progressCallback;
     mukeys ← getSoilMapUnitKeys studyAreaWkt;
     if (length mukeys =? 0)%nat
     then ret (mkAnalysisResult "FeatureCollection" [] None)
     else
       let limitedMukeys :=
         if 0 <? maxResults then take (Z.to_nat maxResults) mukeys else mukeys in
       analyseMukeys geojson studyAreaGeometry studyAreaWkt limitedMukeys
         progressCallback)
    soilAnalysisFailed.
End Pipeline.

(** ** The geometry fingerprint of the map component *)

Section ChangeDetector.
Context {env : JsEnv}.

Definition dquote : string := String (ascii_of_nat 34) EmptyString.

Definition hexDigit (n : nat) : ascii :=
  ascii_of_nat (if (n <? 10)%nat then 48 + n else 87 + n).

(** The escapes of [JSON.stringify] for one code unit. *)
Definition quoteChar (c : ascii) : string :=
  let n := nat_of_ascii c in
  if (n =? 34)%nat then "\" +:+ dquote
  else if (n =? 92)%nat then "\\"
  else if (n =? 8)%nat then "\b"
  else if (n =? 12)%nat then "\f"
  else if (n =? 10)%nat then "\n"
  else if (n =? 13)%nat then "\r"
  else if (n =? 9)%nat then "\t"
  else if (n <? 32)%nat
       then "\u00" +:+ String (hexDigit (n / 16)) (String (hexDigit (n mod 16)) EmptyString)
  else String c EmptyString.

Fixpoint quoteBody (s : string) : string :=
  match s with
  | EmptyString => EmptyString
  | String c rest => quoteChar c +:+ quoteBody rest
  end.

Definition JSON_quote (s : string) : string := dquote +:+ quoteBody s +:+ dquote.

(** [JSON.stringify] without indentation; [None] is [undefined].  A
    member whose value is [undefined] is left out of an object and
    written [null] in an array. *)
Fixpoint JSON_stringify (v : value) : option string :=
  match v with
  | VUndef => None
  | VNull => Some "null"
  | VBool b => Some (if b then "true" else "false")
  | VNum q => Some (Number_toString q)
  | VStr s => Some (JSON_quote s)
  | VArr l =>
      Some ("[" +:+ join "," (map (fun x => default "null" (JSON_stringify x)) l) +:+ "]")
  | VObj fields =>
      Some ("{" +:+
            join "," (omap (fun kv : string * value =>
                              let (k, x) := kv in
                              (fun s => JSON_quote k +:+ ":" +:+ s) <$> JSON_stringify x)
                        fields)
            +:+ "}")
  end.

(** [ToInt32]: wrap to the signed 32-bit range. *)
Definition toInt32 (z : Z) : Z := (z + 2 ^ 31) mod 2 ^ 32 - 2 ^ 31.

(** One turn of the hash loop. *)
Definition hashStep (hash : Z) (c : ascii) : Z :=
  let char := Z.of_nat (nat_of_ascii c) in
  let hash := toInt32 (Z.shiftl (toInt32 hash) 5) - hash + char in
  Z.land (toInt32 hash) (toInt32 hash).

Definition hashString (jsonString : string) : Z :=
  fold_left hashStep (list_ascii_of_string jsonString) 0.

Definition simplifyFeature (f : value) : exc value :=
  ty ← member f "type";
  g ← member f "geometry";
  Ok (VObj [("type", ty); ("geometry", g)]).

Fixpoint mapExc {A B} (f : A -> exc B) (l : list A) : exc (list B) :=
  match l with
  | [] => Ok []
  | x :: rest => y ← f x; ys ← mapExc f rest; Ok (y :: ys)
  end.

(** Generate a simple hash of the geometry for change detection; [None]
    is the [null] result. *)
Definition generateGeometryHash (geojsonData : value) : exc (option string) :=
  if negb (truthy geojsonData) then Ok None else
  feats ← member geojsonData "features";
  if negb (truthy feats) then Ok None else
  match feats with
  | VArr l =>
      ty ← member geojsonData "type";
      simplifiedFeatures ← mapExc simplifyFeature l;
      let simplified := VObj [("type", ty); ("features", VArr simplifiedFeatures)] in
      match JSON_stringify simplified with
      | Some jsonString => Ok (Some (pretty (hashString jsonString)))
      | None => Throw (typeError "Cannot read properties of undefined (reading 'length')")
      end
  | _ => Throw (typeError "geojsonData.features.map is not a function")
  end.
End ChangeDetector.

(** ** Test doubles for the interfaces

    A planar stand-in for the geometry libraries on axis-aligned boxes, and
    an endpoint that answers from a fixed function of the request.  They
    serve the concrete runs below. *)

Module Mock.
(** The box with corners [(x0, y0)] and [(x1, y1)] as polygon coordinates
    and as a GeoJSON Polygon. *)
Definition boxCoords (x0 y0 x1 y1 : Q) : value :=
  let pt x y := VArr [VNum x; VNum y] in
  VArr [VArr [pt x0 y0; pt x1 y0; pt x1 y1; pt x0 y1; pt x0 y0]].

Definition box (x0 y0 x1 y1 : Q) : value :=
  VObj [("type", VStr "Polygon"); ("coordinates", boxCoords x0 y0 x1 y1)].

Definition readCoords (coords : value) : option (Q * Q * Q * Q) :=
  match coords with
  | VArr [VArr (VArr [VNum x0; VNum y0] :: _ :: VArr [VNum x1; VNum y1] :: _)] =>
      Some (x0, y0, x1, y1)
  | _ => None
  end.

Definition readBox (geometry : value) : option (Q * Q * Q * Q) :=
  match geometry with
  | VObj fields =>
      if isStr (assoc "type" fields) "Polygon"
      then readCoords (assoc "coordinates" fields) else None
  | _ => None
  end.

Definition readFeature (f : value) : exc (Q * Q * Q * Q) :=
  g ← member f "geometry";
  match readBox g with
  | Some b => Ok b
  | None => Throw (newError "not a box")
  end.

Definition Qmaxq (a b : Q) : Q := if Qle_bool a b then b else a.
Definition Qminq (a b : Q) : Q := if Qle_bool a b then a else b.

Definition meet (a b : Q * Q * Q * Q) : option (Q * Q * Q * Q) :=
  let '(ax0, ay0, ax1, ay1) := a in
  let '(bx0, by0, bx1, by1) := b in
  let x0 := Qmaxq ax0 bx0 in let y0 := Qmaxq ay0 by0 in
  let x1 := Qminq ax1 bx1 in let y1 := Qminq ay1 by1 in
  if Qgtb x1 x0 && Qgtb y1 y0 then Some (x0, y0, x1, y1) else None.

Definition within (a b : Q * Q * Q * Q) : bool :=
  let '(ax0, ay0, ax1, ay1) := a in
  let '(bx0, by0, bx1, by1) := b in
  Qle_bool bx0 ax0 && Qle_bool by0 ay0 && Qle_bool ax1 bx1 && Qle_bool ay1 by1.

Definition toBox (b : Q * Q * Q * Q) : value :=
  let '(x0, y0, x1, y1) := b in box x0 y0 x1 y1.

(** The WKT texts the stand-in for wellknown knows. *)
Definition wktTable : list (string * value) :=
  [("POLYGON ((0 0, 100 0, 100 100, 0 100, 0 0))", box 0 0 100 100);
   ("POLYGON ((0 0, 50 0, 50 100, 0 100, 0 0))", box 0 0 50 100);
   ("POLYGON ((-10 -10, 200 -10, 200 200, -10 200, -10 -10))",
    box (-10) (-10) 200 200);
   ("POLYGON ((500 500, 600 500, 600 600, 500 600, 500 500))",
    box 500 500 600 600)].

Fixpoint wktOf (table : list (string * value)) (b : Q * Q * Q * Q) : exc string :=
  match table with
  | [] => Throw (newError "unknown geometry")
  | (s, g) :: rest =>
      match readBox g with
      | Some (x0, y0, x1, y1) =>
          let '(bx0, by0, bx1, by1) := b in
          if Qeq_bool x0 bx0 && Qeq_bool y0 by0 && Qeq_bool x1 bx1 && Qeq_bool y1 by1
          then Ok s else wktOf rest b
      | None => wktOf rest b
      end
  end.

#[local] Instance boxEnv : JsEnv := {|
  Number_toString q := pretty (Qnum q) +:+
                       (if (Qden q =? 1)%positive then EmptyString
                        else "/" +:+ pretty (Zpos (Qden q)));
  turf_intersect a b :=
    x ← readFeature a; y ← readFeature b;
    Ok (match meet x y with
        | Some m => feature [] (toBox m)
        | None => VNull
        end);
  turf_area f :=
    b ← readFeature f;
    let '(x0, y0, x1, y1) := b in Ok ((x1 - x0) * (y1 - y0))%Q;
  turf_booleanWithin a b :=
    x ← readFeature a; y ← readFeature b; Ok (within x y);
  turf_booleanIntersects a b :=
    x ← readFeature a; y ← readFeature b; Ok (bool_decide (is_Some (meet x y)));
  turf_union a b :=
    x ← readFeature a; y ← readFeature b;
    if within x y then Ok b else if within y x then Ok a
    else Throw (newError "union of boxes that are not nested");
  polygonClipping_intersection a b :=
    match a, b with
    | VArr [ca], VArr [cb] =>
        match readCoords ca, readCoords cb with
        | Some x, Some y =>
            Ok (match meet x y with
                | Some (x0, y0, x1, y1) => [boxCoords x0 y0 x1 y1]
                | None => []
                end)
        | _, _ => Throw (newError "not a box")
        end
    | _, _ => Throw (newError "not a box")
    end;
  wkx_stringify g :=
    match readBox g with
    | Some b => wktOf wktTable b
    | None => Throw (newError "not a box")
    end;
  wkx_parse v :=
    match v with
    | VStr s =>
        match assoc s wktTable with
        | VUndef => Throw (newError "unknown WKT")
        | g => Ok g
        end
    | _ => Throw (newError "not a string")
    end;
|}.

(** An endpoint whose answer depends on the request only; its state
    counts the requests. *)
Definition scripted (respond : Request -> exc Response) : Remote := {|
  World := nat;
  fetch n r := (respond r, S n);
|}.

Definition tableResponse (rows : list row) : exc Response :=
  Ok (mkResponse true 200 "OK" (Ok EmptyString)
        (Some "application/json; charset=utf-8") (Ok (Some rows))).

Definition serverError : exc Response :=
  Ok (mkResponse false 500 "Internal Server Error" (Ok "boom") None
        (Throw (newError "Unexpected token"))).

Definition emptyLookup (r : Request) : exc Response := tableResponse [].

Definition failing (r : Request) : exc Response := serverError.

Definition alphaRow : row :=
  [VStr "123456"; VStr "Alpha loam"; VStr "Mollisols"; VStr "Udolls";
   VStr "Well drained"; VNull; VStr "Fine-loamy"; VNum (13 # 2);
   VNum 3; VNum 40; VNum 40; VNum 20; VStr "loam"].

(** One map unit "123456" with its properties; every polygon request is
    answered with one polygon covering the left half of the 100 by 100
    study square. *)
Definition oneUnit (r : Request) : exc Response :=
  if String.prefix "SELECT mukey" (query r) then tableResponse [[VStr "123456"]]
  else if String.prefix "WITH RankedSoils" (query r) then tableResponse [alphaRow]
  else tableResponse [[VStr "POLYGON ((0 0, 50 0, 50 100, 0 100, 0 0))"]].

Definition oneUnitProperties : PropertyTable.t :=
  PropertyTable.set "123456" (rowToProperties alphaRow) PropertyTable.empty.

Definition studySquare : value :=
  VObj [("type", VStr "FeatureCollection");
        ("features", VArr [feature [] (box 0 0 100 100)])].

(** The state before the first request. *)
Definition start (respond : Request -> exc Response) : @State (scripted respond) :=
  @mkState (scripted respond) 0%nat [].

Definition progressToTrace {remote : Remote} : option (Progress -> M unit) :=
  Some (fun p => emit (EvProgress p)).
End Mock.

Module Examples.
Import Mock.

(** A box of 0.2 by 0.2 inside the 100 by 100 square, and a wider box
    around the square. *)
Definition smallBox : value := box 0 0 (1 # 5) (1 # 5).
Definition squareBox : value := box 0 0 100 100.

(** 101 map unit keys, "1" to "101"; no properties and no polygons. *)
Definition manyKeys : list string := map pretty (seq 1 101).

Definition manyUnits (r : Request) : exc Response :=
  if String.prefix "SELECT mukey" (query r)
  then tableResponse (map (fun k => [VStr k]) manyKeys)
  else tableResponse [].

Definition emptyCollection : list (string * value) :=
  [("type", VStr "FeatureCollection"); ("features", VArr [])].

(** The study square once more, its feature carrying an identifier and
    properties. *)
Definition namedSquare : value :=
  VObj [("type", VStr "FeatureCollection");
        ("features",
         VArr [VObj [("type", VStr "Feature"); ("id", VNum 7);
                     ("properties", VObj [("name", VStr "North field")]);
                     ("geometry", box 0 0 100 100)]])].

Definition polygonQuery (mukey : string) : Request :=
  mkRequest ("SELECT * FROM SDA_Get_MupolygonWktWgs84_from_Mukey(" +:+ mukey +:+ ")")
    "JSON".

Definition fetched (r : Request) (events : list Event) : bool :=
  existsb (fun e => match e with
                    | EvFetch r' => String.eqb (query r) (query r')
                    | _ => false
                    end) events.
End Examples.

(** ** The retry schedule and the totals, as the specification words them *)

Definition scheduleDelay (k : nat) : Z := Z.min (1000 * 2 ^ Z.of_nat k) 10000.

(** [n] attempts from attempt index [k] on, with a delay after each one
    but the last. *)
Fixpoint retryTrace (r : Request) (maxRetries k n : nat) : list Event :=
  match n with
  | O => []
  | S n' =>
      EvFetch r ::
      (if (S k <? maxRetries)%nat then [EvWait (scheduleDelay k)] else []) ++
      retryTrace r maxRetries (S k) n'
  end.

Definition lastThrown (errors : list Error) : exn :=
  match last errors with
  | Some e => ThrownError e
  | None => ThrownUndefined
  end.


(** What holds of every feature the pipeline emits. *)
Definition featureOk (f : IntersectionFeature.t) : Prop :=
  IntersectionFeature.area_acres f
  = sqmToAcres (IntersectionFeature.area_square_meters f) /\
  Double.gtb (IntersectionFeature.area_acres f) (Double.ofQ (1 # 10000)) = true.

(** What holds of every soil unit kept, for the property table [props]
    and the keys [keys] of the run. *)
Definition unitOk (props : PropertyTable.t) (keys : list string)
    (u : SoilUnit.t) : Prop :=
  Double.gtb (SoilUnit.area_acres u) Double.zero = true /\
  lookedTruthy (PropertyTable.get props (SoilUnit.mukey u)) = true /\
  SoilUnit.mukey u ∈ keys /\
  Forall featureOk (SoilUnit.intersectionFeatures u).

Definition fetchesOf (events : list Event) : list Request :=
  omap (fun e => match e with EvFetch r => Some r | _ => None end) events.

Definition waitsOf (events : list Event) : list Z :=
  omap (fun e => match e with EvWait ms => Some ms | _ => None end) events.

Section AlwaysFails.
Context {remote : Remote}.

(** From state [w] the endpoint fails the coming attempts with the errors
    listed, none of them an abort. *)
Inductive AlwaysFails (r : Request) : World -> list Error -> Prop :=
| AlwaysFails_nil w : AlwaysFails r w []
| AlwaysFails_cons w w' res e rest :
    fetch w r = (res, w') ->
    res ≫= decodeResponse = Throw (ThrownError e) ->
    isAbortError e = false ->
    AlwaysFails r w' rest ->
    AlwaysFails r w (e :: rest).
End AlwaysFails.

(** ** Validation of the drawn GeoJSON and the total shown, in the map
    component *)

Definition Qltb (a b : Q) : bool := Qgtb b a.

(** A point passes when it is an array of at least two members, the first
    two of them numbers. *)
Definition validPoint (point : value) : bool :=
  match point with
  | VArr (VNum _ :: VNum _ :: _) => true
  | _ => false
  end.

(** A ring passes when it is an array of at least four valid points. *)
Definition validRing (ring : value) : bool :=
  match ring with
  | VArr points => negb (length points <? 4)%nat && forallb validPoint points
  | _ => false
  end.

Definition validRings (polygon : value) : bool :=
  match polygon with
  | VArr rings => negb (length rings =? 0)%nat && forallb validRing rings
  | _ => false
  end.

(** [try { ... } catch (error) { return false; }] *)
Definition orFalse (body : exc bool) : bool :=
  match body with
  | Ok b => b
  | Throw _ => false
  end.

Definition isValidGeometry (geom : value) : bool :=
  orFalse (
    if negb (truthy geom) then Ok false else
    coords ← member geom "coordinates";
    if negb (truthy coords) then Ok false else
    ty ← member geom "type";
    if isStr ty "Polygon" then Ok (validRings coords)
    else if isStr ty "MultiPolygon" then
      Ok (match coords with
          | VArr polygons =>
              negb (length polygons =? 0)%nat && forallb validRings polygons
          | _ => false
          end)
    else Ok false).

Definition inRange (lng lat : Q) : bool :=
  negb (Qltb lng (-180) || Qgtb lng 180 || Qltb lat (-90) || Qgtb lat 90).

(** The local function [checkCoords] of [hasValidCoordinates]: an array of
    exactly two numbers is range-checked, any other array is searched. *)
Fixpoint checkCoords (coords : value) : bool :=
  match coords with
  | VArr items =>
      forallb (fun item =>
                 match item with
                 | VArr [VNum lng; VNum lat] => inRange lng lat
                 | VArr _ => checkCoords item
                 | _ => true
                 end) items
  | _ => true
  end.

Definition hasValidCoordinates (geom : value) : bool :=
  orFalse (
    if negb (truthy geom) then Ok false else
    coords ← member geom "coordinates";
    if negb (truthy coords) then Ok false else
    Ok (checkCoords coords)).

(** The checks on one feature in the loop of [isValidGeoJSON]. *)
Definition validFeature (f : value) : exc bool :=
  ty ← member f "type";
  if negb (isStr ty "Feature") then Ok false else
  g ← member f "geometry";
  if negb (truthy g) then Ok false else
  if negb (isValidGeometry g) then Ok false else
  Ok (hasValidCoordinates g).

Fixpoint everyFeature (l : list value) : exc bool :=
  match l with
  | [] => Ok true
  | f :: rest =>
      b ← validFeature f;
      if b : bool then everyFeature rest else Ok false
  end.

Definition isValidGeoJSON (geojson : value) : bool :=
  orFalse (
    if negb (truthy geojson) || negb (isObject geojson) then Ok false else
    ty ← member geojson "type";
    if negb (isStr ty "FeatureCollection") then Ok false else
    feats ← member geojson "features";
    match feats with
    | VArr l => if (length l =? 0)%nat then Ok false else everyFeature l
    | _ => Ok false
    end).

(** [refreshSoil]: the limit handed to the pipeline for the option
    [maxResultsOption] of the component, whose 0 means no limit;
    [undefined] ([None]) unless the option is positive. *)
Definition requestedMaxResults (maxResultsOption : Z) : option Z :=
  if negb (maxResultsOption =? 0) && (0 <? maxResultsOption)
  then Some maxResultsOption else None.


(** ** Further endpoint behaviours and scenarios *)

Section FailsThen.
Context {remote : Remote}.

(** From state [w] the endpoint fails the coming attempts with the errors
    listed, none of them an abort, and is then in state [w']. *)
Inductive FailsThen (r : Request) : World -> list Error -> World -> Prop :=
| FailsThen_nil w : FailsThen r w [] w
| FailsThen_cons w w1 w' res e rest :
    fetch w r = (res, w1) ->
    res ≫= decodeResponse = Throw (ThrownError e) ->
    isAbortError e = false ->
    FailsThen r w1 rest w' ->
    FailsThen r w (e :: rest) w'.
End FailsThen.

Definition queryTimeout : exn :=
  newError "Query timeout - try reducing scope or increasing timeout".

Definition sumZ (l : list Z) : Z := foldr Z.add 0 l.


(** The polynomial with multiplier 31 over the code units, unwrapped. *)
Definition polyHash (s : string) : Z :=
  fold_left (fun h c => 31 * h + Z.of_nat (nat_of_ascii c)) (list_ascii_of_string s) 0.



(** The [current] values of the progress reports among some events. *)
Definition progressOf (events : list Event) : list Z :=
  omap (fun e => match e with EvProgress p => Some (current p) | _ => None end) events.

(** A callback that records each report in the trace. *)
Definition recordProgress {remote : Remote} : option (Progress -> M unit) :=
  Some (fun p => emit (EvProgress p)).

(** Values that never decrease and stay between [lo] and [hi]. *)
Definition within (lo hi : Z) (l : list Z) : Prop :=
  StronglySorted Z.le l /\ Forall (fun c => lo <= c <= hi) l.

(** Whatever its outcome, the computation only adds events to the trace,
    and the progress values it adds satisfy [P]. *)
Definition emits {remote : Remote} {A} (c : M A) (P : list Z -> Prop) : Prop :=
  forall st, exists events, trace (c st).2 = trace st ++ events /\ P (progressOf events).

(** The value reported when [i] of [n] map units are done. *)
Definition scaled (n i : Z) : Z :=
  Math_round (inject_Z 60 + inject_Z i / inject_Z n * inject_Z 35).

(** Descending order of soil units by area. *)
Definition areaDescending (a b : SoilUnit.t) : Prop :=
  Double.leb (SoilUnit.area_acres b) (SoilUnit.area_acres a) = true.

Module Scenarios.
Import Mock.

Definition betaRow : row :=
  [VStr "2"; VStr "Beta clay"; VStr "Vertisols"; VStr "Uderts";
   VStr "Poorly drained"; VNull; VStr "Fine"; VNum 7;
   VNum 2; VNum 20; VNum 20; VNum 60; VStr "clay"].

Definition gammaRow : row :=
  [VStr "1"; VStr "Gamma sand"; VStr "Entisols"; VStr "Psamments";
   VStr "Excessively drained"; VNull; VStr "Sandy"; VNum 6;
   VNum 1; VNum 90; VNum 5; VNum 5; VStr "sand"].

(** Three keys from the lookup: "1" covers the left half of the study
    square, "2" all of it, "3" lies outside it. *)
Definition threeUnits (r : Request) : exc Response :=
  if String.prefix "SELECT mukey" (query r)
  then tableResponse [[VStr "1"]; [VStr "2"]; [VStr "3"]]
  else if String.prefix "WITH RankedSoils" (query r)
  then tableResponse [gammaRow; betaRow]
  else if String.eqb (query r) "SELECT * FROM SDA_Get_MupolygonWktWgs84_from_Mukey(1)"
  then tableResponse [[VStr "POLYGON ((0 0, 50 0, 50 100, 0 100, 0 0))"]]
  else if String.eqb (query r) "SELECT * FROM SDA_Get_MupolygonWktWgs84_from_Mukey(2)"
  then tableResponse [[VStr "POLYGON ((0 0, 100 0, 100 100, 0 100, 0 0))"];
                      [VStr "POLYGON ((0 0, 50 0, 50 100, 0 100, 0 0))"]]
  else tableResponse [[VStr "POLYGON ((500 500, 600 500, 600 600, 500 600, 500 500))"]].

Definition threeUnitProperties : PropertyTable.t :=
  PropertyTable.set "2" (rowToProperties betaRow)
    (PropertyTable.set "1" (rowToProperties gammaRow) PropertyTable.empty).

(** An endpoint that fails the first [n] requests and answers the later
    ones with a one-row table. *)
Definition flaky (n : nat) : Remote := {|
  World := nat;
  fetch k r := (if (k <? n)%nat then serverError else tableResponse [[VStr "7"]], S k);
|}.

(** An endpoint whose second request is aborted. *)
Definition abortedSecond : Remote := {|
  World := nat;
  fetch k r :=
    (if (k =? 1)%nat
     then Throw (ThrownError (mkError "AbortError" "The operation was aborted."))
     else serverError, S k);
|}.

(** The lookup returns the key "constructor", the properties query has
    no row, and the polygon of the key covers the left half of the study
    square. *)
Definition inheritedKey (r : Request) : exc Response :=
  if String.prefix "SELECT mukey" (query r) then tableResponse [[VStr "constructor"]]
  else if String.prefix "WITH RankedSoils" (query r) then tableResponse []
  else tableResponse [[VStr "POLYGON ((0 0, 50 0, 50 100, 0 100, 0 0))"]].

(** A lookup whose first row has a [null] cell. *)
Definition nullKey (r : Request) : exc Response :=
  tableResponse [[VNull]; [VStr "5"]].

(** Two disjoint squares in one collection, and the first of them alone. *)
Definition farBox : value := box 500 500 600 600.

Definition twoSquares : list (string * value) :=
  [("type", VStr "FeatureCollection");
   ("features", VArr [feature [] (box 0 0 100 100); feature [] farBox])].

Definition pointFeature : list (string * value) :=
  [("type", VStr "Feature");
   ("properties", VObj []);
   ("geometry", VObj [("type", VStr "Point");
                      ("coordinates", VArr [VNum 10; VNum 20])])].

(** A 10 by 10 degree field as the drawing layer hands it over. *)
Definition fieldCoordinates : list (string * value) :=
  [("type", VStr "Polygon"); ("coordinates", boxCoords 0 0 10 10)].

Definition smallField : list (string * value) :=
  [("type", VStr "FeatureCollection");
   ("features", VArr [feature [] (VObj fieldCoordinates)])].

(** A ring around the origin whose points carry an altitude, and
    longitudes far outside [-180, 180]. *)
Definition elevatedRing : list value :=
  [VArr [VNum 0; VNum 0; VNum 5]; VArr [VNum 500; VNum 0; VNum 5];
   VArr [VNum 500; VNum 500; VNum 5]; VArr [VNum 0; VNum 0; VNum 5]].
End Scenarios.

(** * Theorems *)

(** ** Doubles: signs, whole numbers and order *)















Lemma gtb_zero_truthy x : Double.gtb x Double.zero = true -> Double.orZero x = x.
Proof. destruct x as [s|[]| |[] m e]; simpl; try discriminate; reflexivity. Qed.

Lemma digits2_pos_iter_xO m k :
  digits2_pos (Pos.iter xO m k) = (digits2_pos m + k)%positive.
Proof.
  induction k as [|k IH] using Pos.peano_ind.
  - simpl. lia.
  - rewrite Pos.iter_succ. simpl. rewrite IH. lia.
Qed.

Lemma iter_xO_mul m k : Z.pos (Pos.iter xO m k) = Z.pos m * 2 ^ Z.pos k.
Proof.
  induction k as [|k IH] using Pos.peano_ind.
  - simpl. lia.
  - rewrite Pos.iter_succ, Pos2Z.inj_succ, Z.pow_succ_r by lia.
    rewrite Pos2Z.inj_xO, IH. lia.
Qed.

(** A mantissa that sits at its exponent is not rounded. *)
Lemma binary_round_aux_aligned s m e :
  fexp Double.prec Double.emax (Z.pos (digits2_pos m) + e) = e ->
  e <= Double.emax - Double.prec ->
  binary_round_aux Double.prec Double.emax s (Z.pos m) e loc_Exact = S754_finite s m e.
Proof.
  intros Hfexp Hmax. unfold binary_round_aux, shr_fexp. simpl Zdigits2.
  rewrite Hfexp, Z.sub_diag. simpl. rewrite Hfexp, Z.sub_diag. simpl.
  destruct (Z.leb_spec e (Double.emax - Double.prec)); [reflexivity|lia].
Qed.




Lemma digits2_pos_bounds m :
  2 ^ (Z.pos (digits2_pos m) - 1) <= Z.pos m < 2 ^ Z.pos (digits2_pos m).
Proof.
  induction m as [m IH|m IH|]; simpl digits2_pos; [| |simpl; lia].
  - rewrite Pos2Z.inj_succ, Z.pow_succ_r by lia.
    replace (Z.succ (Z.pos (digits2_pos m)) - 1) with (Z.succ (Z.pos (digits2_pos m) - 1))
      by lia.
    rewrite Z.pow_succ_r by lia. lia.
  - rewrite Pos2Z.inj_succ, Z.pow_succ_r by lia.
    replace (Z.succ (Z.pos (digits2_pos m)) - 1) with (Z.succ (Z.pos (digits2_pos m) - 1))
      by lia.
    rewrite Z.pow_succ_r by lia. lia.
Qed.

Lemma digits2_pos_small m : Z.pos m < 2 ^ 53 -> Z.pos (digits2_pos m) <= 53.
Proof.
  intros Hm. pose proof (digits2_pos_bounds m) as [Hlo _].
  destruct (Z.le_gt_cases (Z.pos (digits2_pos m)) 53) as [|Hgt]; [assumption|].
  assert (2 ^ 53 <= 2 ^ (Z.pos (digits2_pos m) - 1)) by (apply Z.pow_le_mono_r; lia).
  lia.
Qed.

(** A whole number below 2^53 in magnitude is a double: [ofZ] does not
    round it. *)
Lemma binary_round_exact s m :
  Z.pos m < 2 ^ 53 ->
  exists m' e',
    binary_round Double.prec Double.emax s m 0 = S754_finite s m' e' /\
    e' <= 0 /\ Z.pos m' = Z.pos m * 2 ^ (- e').
Proof.
  intros Hm. apply digits2_pos_small in Hm.
  unfold binary_round, shl_align.
  destruct (fexp Double.prec Double.emax (Z.pos (digits2_pos m) + 0) - 0) as [|k|k] eqn:Hk.
  - rewrite binary_round_aux_aligned; [|lia|unfold Double.emax, Double.prec; lia].
    exists m, 0. split; [reflexivity|]. split; [lia|]. simpl. lia.
  - exfalso. revert Hk. unfold fexp, emin, Double.prec, Double.emax. lia.
  - assert (fexp Double.prec Double.emax (Z.pos (digits2_pos m) + 0) = Z.neg k) as Hf by lia.
    rewrite Hf, binary_round_aux_aligned.
    + exists (Pos.iter xO m k), (Z.neg k). split; [reflexivity|]. split; [lia|].
      rewrite iter_xO_mul. reflexivity.
    + rewrite digits2_pos_iter_xO. revert Hf. unfold fexp, emin, Double.prec, Double.emax.
      lia.
    + unfold Double.emax, Double.prec. lia.
Qed.

Lemma value_scaled s m e n :
  e <= 0 -> Z.pos m = Z.pos n * 2 ^ (- e) ->
  (Double.value (S754_finite s m e) == inject_Z (if s then Z.neg n else Z.pos n))%Q.
Proof.
  intros He Hm. unfold Double.value.
  destruct (Z.leb_spec 0 e).
  - assert (e = 0) as -> by lia. simpl in Hm. rewrite Z.pow_0_r, Z.mul_1_r.
    assert (m = n) as -> by lia. reflexivity.
  - assert (0 < 2 ^ (- e)) by (apply Z.pow_pos_nonneg; lia).
    unfold Qeq, inject_Z. simpl Qnum. simpl Qden.
    rewrite Z2Pos.id by lia. destruct s; rewrite ?Pos2Z.opp_pos in *; lia.
Qed.

Lemma ofZ_exact n :
  Z.abs n < 2 ^ 53 -> (Double.value (Double.ofZ n) == inject_Z n)%Q.
Proof.
  intros Hn. destruct n as [|m|m]; [reflexivity| |].
  - destruct (binary_round_exact false m ltac:(lia)) as (m' & e' & Heq & He & Hm).
    unfold Double.ofZ, binary_normalize. rewrite Heq.
    now rewrite (value_scaled false m' e' m).
  - destruct (binary_round_exact true m ltac:(lia)) as (m' & e' & Heq & He & Hm).
    unfold Double.ofZ, binary_normalize. rewrite Heq.
    now rewrite (value_scaled true m' e' m).
Qed.

(** On a double, [Double.Math_round] is [Math.round] of the number it
    denotes: the nearest whole number, ties towards +infinity. *)
Lemma Math_round_value s m e :
  Z.pos m < 2 ^ 53 ->
  (Double.value (Double.Math_round (S754_finite s m e))
   == inject_Z (Math_round (Double.value (S754_finite s m e))))%Q.
Proof.
  intros Hm. unfold Double.Math_round.
  destruct (Z.leb_spec 0 e) as [He|He].
  - unfold Double.value. destruct (Z.leb_spec 0 e); [|lia].
    unfold Math_round. rewrite <- (Qfloor_Z (_ * _)) at 1.
    set (n := (if s then Z.neg m else Z.pos m) * 2 ^ e).
    unfold Qfloor, Qplus, inject_Z. simpl Qnum. simpl Qden.
    apply inject_Z_injective. rewrite Z.div_1_r.
    apply Z.div_unique with (r := 1); lia.
  - set (n := Z.shiftr (2 * (if s then Z.neg m else Z.pos m) + 2 ^ (- e)) (1 - e)).
    assert (Hpow : 0 < 2 ^ (- e)) by (apply Z.pow_pos_nonneg; lia).
    assert (Hround : Math_round (Double.value (S754_finite s m e)) = n).
    { unfold Double.value. destruct (Z.leb_spec 0 e); [lia|].
      unfold Math_round, Qfloor, Qplus. simpl Qnum. simpl Qden.
      subst n. rewrite Z.shiftr_div_pow2 by lia.
      rewrite Pos2Z.inj_mul, Z2Pos.id by lia.
      replace (1 - e) with (Z.succ (- e)) by lia. rewrite Z.pow_succ_r by lia.
      f_equal; lia. }
    rewrite Hround.
    destruct (Z.eqb_spec n 0) as [->|Hn0]; [reflexivity|].
    apply ofZ_exact.
    subst n. rewrite Z.shiftr_div_pow2 by lia.
    replace (1 - e) with (Z.succ (- e)) by lia. rewrite Z.pow_succ_r by lia.
    assert (2 <= 2 ^ (- e)).
    { change 2 with (2 ^ 1) at 1. apply Z.pow_le_mono_r; lia. }
    set (p := 2 ^ (- e)) in *.
    assert (Hb : - 2 ^ 53 < (2 * (if s then Z.neg m else Z.pos m) + p) / (2 * p) < 2 ^ 53).
    { split.
      - apply Z.lt_le_trans with (m := - 2 ^ 52); [lia|].
        apply Z.div_le_lower_bound; [lia|]. destruct s; nia.
      - apply Z.div_lt_upper_bound; [lia|]. destruct s; nia. }
    lia.
Qed.

(** *** Sample values

    The literals 0.1 and 0.000247105381 are the doubles
    0x1.999999999999ap-4 and 0x1.031bd87b20d83p-12.
    5000 square metres are 1.235527 acres.  For the area
    145803368883189 / 2^56 the doubles give one millionth of an acre,
    where the exact product stays below one half and rounds to 0.  A
    product beyond the largest double is an infinity.  0.1 + 0.2 is not
    0.3. *)
Lemma sqmToAcres_samples :
  Double.ofQ (1 # 10) = S754_finite false 0x1999999999999a (-56) /\
  SDA_CONFIG.ACRES_PER_SQM = S754_finite false 0x1031bd87b20d83 (-64) /\
  sqmToAcres 5000 = Double.ofQ (1235527 # 1000000) /\
  sqmToAcres (145803368883189 # 72057594037927936) = Double.ofQ (1 # 1000000) /\
  Math_round ((145803368883189 # 72057594037927936)
              * (247105381 # 1000000000000) * 1000000) = 0 /\
  sqmToAcres (inject_Z (10 ^ 306)) = Double.infinity /\
  Double.add (Double.ofQ (1 # 10)) (Double.ofQ (2 # 10)) <> Double.ofQ (3 # 10).
Proof. vm_compute. repeat split; try reflexivity. discriminate. Qed.

(** The sign of a difference is the comparison of its operands, on
    acreages and on an infinity. *)
Lemma comparator_sign_samples :
  let samples :=
    [Double.zero; Double.ofQ (1 # 1000000); Double.ofQ (1235527 # 1000000);
     Double.ofQ (1235528 # 1000000); Double.ofQ (3706581 # 1000000);
     sqmToAcres (inject_Z (10 ^ 300)); Double.infinity] in
  forallb (fun '(a, b) =>
             Bool.eqb (Double.gtb (Double.sub b a) Double.zero) (Double.gtb b a))
    (list_prod samples samples) = true.
Proof. vm_compute. reflexivity. Qed.

(** A row keyed ["__proto__"] adds no entry to the table; its record is
    then what ["__proto__"] reads, and the members of the record are read
    under their names. *)
Lemma prototype_row_sample :
  let record :=
    rowToProperties [VStr "__proto__"; VStr "Alpha loam"; VStr "Mollisols"] in
  let table := PropertyTable.set "__proto__" record PropertyTable.empty in
  PropertyTable.entries table = ∅ /\
  PropertyTable.get table "__proto__" = Found record /\
  PropertyTable.get table "muname" = Inherited (VStr "Alpha loam") /\
  PropertyTable.get table "texture" = Inherited VUndef /\
  PropertyTable.get table "toString" = Builtin /\
  PropertyTable.get table "123456" = Absent /\
  PropertyTable.get PropertyTable.empty "__proto__" = Builtin.
Proof. repeat split; reflexivity. Qed.

(** *** The order of positive doubles *)

Ltac order_cases :=
  unfold Double.gtb, Double.ltb, Double.leb, SFltb, SFleb, Double.zero; simpl;
  repeat match goal with
         | |- context [Z.compare ?a ?b] => destruct (Z.compare_spec a b); subst
         | |- context [Pos.compare_cont Eq ?a ?b] =>
             change (Pos.compare_cont Eq a b) with (Pos.compare a b);
             destruct (Pos.compare_spec a b); subst
         end;
  simpl; intros; try discriminate; try reflexivity; try tauto; try lia.

Lemma leb_total a b :
  Double.gtb a Double.zero = true -> Double.gtb b Double.zero = true ->
  Double.ltb a b = false -> Double.leb b a = true.
Proof.
  destruct a as [sa|[]| |[] ma ea], b as [sb|[]| |[] mb eb]; order_cases.
Qed.

Lemma ltb_leb a b : Double.ltb a b = true -> Double.leb a b = true.
Proof.
  unfold Double.ltb, Double.leb, SFltb, SFleb. destruct (SFcompare a b) as [[]|]; auto.
Qed.

Lemma leb_trans a b c :
  Double.gtb a Double.zero = true -> Double.gtb b Double.zero = true ->
  Double.gtb c Double.zero = true ->
  Double.leb a b = true -> Double.leb b c = true -> Double.leb a c = true.
Proof.
  destruct a as [sa|[]| |[] ma ea], b as [sb|[]| |[] mb eb], c as [sc|[]| |[] mc ec];
    order_cases.
Qed.


(** ** The robust intersection calculator *)

Section IntersectionFacts.
Context {env : JsEnv}.






Lemma all_methods_fall_through_null soil study :
  method1 soil study = FallThrough ->
  method2 soil study = FallThrough ->
  method3 soil study = FallThrough ->
  calculateRobustIntersection soil study = None.
Proof.
  intros H1 H2 H3. unfold calculateRobustIntersection. now rewrite H1, H2, H3.
Qed.


End IntersectionFacts.



(** C1 at its failing input: a soil polygon of 0.04 square metres inside
    the study area is returned by the containment method with its own area,
    below the 0.1 threshold the first two methods apply. *)
Theorem containment_result_below_threshold :
  exists r,
    calculateRobustIntersection (env := Mock.boxEnv) Examples.smallBox Examples.squareBox
    = Some r /\
    geometry r = Examples.smallBox /\
    method r = "soil_within_study" /\
    (area r == 1 # 25)%Q /\ (area r < 1 # 10)%Q.
Proof.
  eexists. split; [vm_compute; reflexivity|]. simpl.
  split; [reflexivity|]. split; [reflexivity|]. split; reflexivity.
Qed.

(** ** The query executor *)

Section QueryFacts.
Context {env : JsEnv} {remote : Remote}.

Lemma bind_unfold {A B} (c : M A) (k : A -> M B) st :
  (c ≫= k) st = match c st with
                | (Ok a, st') => k a st'
                | (Throw e, st') => (Throw e, st')
                end.
Proof. reflexivity. Qed.

Lemma bind_Ok_inv {A B} (c : M A) (k : A -> M B) st b st' :
  (c ≫= k) st = (Ok b, st') ->
  exists a st1, c st = (Ok a, st1) /\ k a st1 = (Ok b, st').
Proof.
  rewrite bind_unfold. destruct (c st) as [[a|e] st1]; [eauto|discriminate].
Qed.

Lemma attemptQuery_throws r st res w' x :
  fetch (world st) r = (res, w') ->
  res ≫= decodeResponse = Throw x ->
  attemptQuery r st = (Throw x, mkState w' (trace st ++ [EvFetch r])).
Proof.
  intros Hf Hd. unfold attemptQuery. rewrite bind_unfold.
  unfold fetchM. rewrite Hf.
  destruct res as [response|e]; simpl in Hd |- *.
  - unfold lift. now rewrite Hd.
  - now inversion Hd.
Qed.

Lemma backoff_guard k m : (k <? m - 1)%nat = (S k <? m)%nat.
Proof.
  destruct (Nat.ltb_spec k (m - 1)), (Nat.ltb_spec (S k) m); auto; lia.
Qed.

Lemma retryLoop_always_fails r retries errors :
  forall attempt lastError st,
    AlwaysFails r (world st) errors ->
    exists w',
      retryLoop r retries attempt (length errors) lastError st
      = (Throw (match last errors with
                | Some e => ThrownError e
                | None => lastError
                end),
         mkState w' (trace st ++ retryTrace r retries attempt (length errors))).
Proof.
  induction errors as [|e rest IH]; intros attempt lastError st Hfail.
  - exists (world st). simpl. unfold throw. rewrite app_nil_r. now destruct st.
  - inversion Hfail as [|w w' res e' rest' Hf Hd Hab Hrest]; subst.
    simpl retryLoop. unfold tryCatchM.
    rewrite (attemptQuery_throws _ _ _ _ _ Hf Hd), Hab.
    rewrite bind_unfold, backoff_guard.
    set (st1 := mkState w' (trace st ++ [EvFetch r])).
    assert (Hstep : exists st2,
               (if (S attempt <? retries)%nat
                then wait (backoffDelay attempt) else ret tt) st1 = (Ok tt, st2)
               /\ world st2 = w'
               /\ trace st2 = trace st ++ EvFetch r ::
                    (if (S attempt <? retries)%nat
                     then [EvWait (scheduleDelay attempt)] else [])).
    { destruct (S attempt <? retries)%nat; eexists; (split; [reflexivity|]);
        simpl; rewrite <- ?app_assoc; auto. }
    destruct Hstep as (st2 & -> & Hw & Ht).
    destruct (IH (S attempt) (ThrownError e) st2) as [w'' Hrun].
    { now rewrite Hw. }
    exists w''. rewrite Hrun, Ht, last_cons. simpl retryTrace.
    rewrite <- !app_assoc. simpl. now destruct (last rest).
Qed.

Lemma retryTrace_fetches r m k n :
  fetchesOf (retryTrace r m k n) = replicate n r.
Proof.
  revert k. induction n as [|n IH]; intros k; simpl; [reflexivity|].
  unfold fetchesOf in *. rewrite omap_app, IH.
  now destruct (S k <? m)%nat.
Qed.

Lemma retryTrace_waits r m k n :
  (k + n = m)%nat ->
  waitsOf (retryTrace r m k n) = map scheduleDelay (seq k (n - 1)).
Proof.
  revert k. induction n as [|n IH]; intros k Hm; simpl; [reflexivity|].
  unfold waitsOf in *. rewrite omap_app, IH by lia.
  destruct (Nat.ltb_spec (S k) m).
  - destruct n; [lia|]. simpl. now rewrite Nat.sub_0_r.
  - destruct n; [reflexivity|lia].
Qed.

(** C4: on an endpoint that fails every attempt with an error other than
    an abort, [executeSDQuery] makes exactly [maxRetries] attempts, waits
    [min(1000 * 2^k, 10000)] ms after attempt [k] except after the last
    one, and then throws the last error as it was raised. *)
Theorem executeSDQuery_always_failing q maxRetries errors st :
  length errors = maxRetries ->
  AlwaysFails (mkRequest (trim q) "JSON") (world st) errors ->
  exists st',
    executeSDQuery q maxRetries st = (Throw (lastThrown errors), st') /\
    (exists events,
       trace st' = trace st ++ events /\
       events = retryTrace (mkRequest (trim q) "JSON") maxRetries 0 maxRetries /\
       fetchesOf events = replicate maxRetries (mkRequest (trim q) "JSON") /\
       waitsOf events = map scheduleDelay (seq 0 (maxRetries - 1)) /\
       (0 < maxRetries -> last events = Some (EvFetch (mkRequest (trim q) "JSON")))%nat).
Proof.
  intros Hlen Hfail. unfold executeSDQuery.
  destruct (retryLoop_always_fails _ maxRetries _ 0%nat ThrownUndefined st Hfail)
    as [w' Hrun].
  rewrite Hlen in Hrun. eexists. split; [exact Hrun|].
  eexists. split; [reflexivity|]. split; [reflexivity|].
  split; [apply retryTrace_fetches|]. split; [now apply retryTrace_waits|].
  intros Hpos.
  assert (Hf := retryTrace_fetches (mkRequest (trim q) "JSON") maxRetries 0 maxRetries).
  assert (Hl : forall k n, (k + S n = maxRetries)%nat ->
            last (retryTrace (mkRequest (trim q) "JSON") maxRetries k (S n))
            = Some (EvFetch (mkRequest (trim q) "JSON"))).
  { intros k n. revert k. induction n as [|n IH]; intros k Hk.
    - simpl. destruct (Nat.ltb_spec (S k) maxRetries); [lia|reflexivity].
    - change (retryTrace ?r ?m k (S (S n)))
        with (EvFetch r :: (if (S k <? m)%nat then [EvWait (scheduleDelay k)] else [])
              ++ retryTrace r m (S k) (S n)).
      rewrite last_cons, last_app, IH by lia. reflexivity. }
  destruct maxRetries as [|n]; [lia|]. now apply Hl.
Qed.
End QueryFacts.

Lemma schedule_values :
  map scheduleDelay (seq 0 6) = [1000; 2000; 4000; 8000; 10000; 10000].
Proof. reflexivity. Qed.

Lemma executeSDQuery_always_failing_witness :
  exists st',
    executeSDQuery (remote := Mock.scripted Mock.failing) "SELECT 1" 5
      (Mock.start Mock.failing)
    = (Throw (lastThrown (replicate 5 (mkError "Error" "SDA API Error 500: boom"))), st') /\
    (exists events,
       trace st' = [] ++ events /\
       events = retryTrace (mkRequest (trim "SELECT 1") "JSON") 5 0 5 /\
       fetchesOf events = replicate 5 (mkRequest (trim "SELECT 1") "JSON") /\
       waitsOf events = map scheduleDelay (seq 0 (5 - 1)) /\
       (0 < 5 -> last events = Some (EvFetch (mkRequest (trim "SELECT 1") "JSON")))%nat).
Proof.
  apply (executeSDQuery_always_failing (remote := Mock.scripted Mock.failing) "SELECT 1" 5
           (replicate 5 (mkError "Error" "SDA API Error 500: boom"))
           (Mock.start Mock.failing)).
  - reflexivity.
  - simpl. repeat (eapply AlwaysFails_cons; [reflexivity|reflexivity|reflexivity|]).
    apply AlwaysFails_nil.
Defined.

(** ** The intersection pipeline *)

Section PipelineFacts.
Context {env : JsEnv} {remote : Remote}.

Lemma processPolygon_features mukey g props acc r :
  Forall featureOk acc.2 ->
  Forall featureOk (processPolygon mukey g props acc r).2.
Proof.
  destruct acc as [tot feats]. intros Hacc. unfold processPolygon.
  unfold mbind, exc_bind.
  destruct (wkx_parse _) as [soilGeometry|]; [|exact Hacc].
  destruct (intersectPolygon _ _ _) as [[i m]|]; [|exact Hacc].
  destruct (member i "geometry") as [gi|]; [|exact Hacc].
  destruct (negb (truthy gi)); [exact Hacc|].
  destruct (turf_area i) as [a|]; [|exact Hacc].
  destruct (Double.gtb (sqmToAcres a) _) eqn:Hgt; [|exact Hacc].
  simpl. apply Forall_app. split; [exact Hacc|].
  constructor; [|constructor]. split; [reflexivity|exact Hgt].
Qed.

Lemma polygons_features mukey g props polygonData :
  forall acc,
    Forall featureOk acc.2 ->
    Forall featureOk (fold_left (processPolygon mukey g props) polygonData acc).2.
Proof.
  induction polygonData as [|r rest IH]; intros acc Hacc; simpl; [exact Hacc|].
  apply IH. now apply processPolygon_features.
Qed.

Lemma processMukey_units n g props cb keys results processed mukey st results' p' st' :
  mukey ∈ keys ->
  Forall (unitOk props keys) results ->
  processMukey n g props cb (results, processed) mukey st = (Ok (results', p'), st') ->
  Forall (unitOk props keys) results'.
Proof.
  intros Hkey Hres. unfold processMukey, tryCatchM.
  rewrite bind_unfold.
  destruct (report cb _ st) as [[[]|e] st1]; [|intros [= <- <- <-]; exact Hres].
  rewrite bind_unfold.
  destruct (executeSDQuery _ _ st1) as [[polygonData|e] st2];
    [|intros [= <- <- <-]; exact Hres].
  destruct (length polygonData =? 0)%nat; [intros [= <- <- <-]; exact Hres|].
  pose proof (polygons_features mukey g props polygonData (Double.zero, [])
                (List.Forall_nil _)) as Hfeat.
  destruct (fold_left _ polygonData _) as [tot feats]. simpl in Hfeat.
  destruct (Double.gtb tot Double.zero) eqn:Hgt; simpl.
  - destruct (lookedTruthy _) eqn:Hsome; intros [= <- <- <-]; [|exact Hres].
    apply Forall_app. split; [exact Hres|].
    constructor; [|constructor].
    repeat split; simpl; auto.
  - intros [= <- <- <-]; exact Hres.
Qed.

Lemma forEachMukey_units n g props cb keys mukeys :
  forall acc st acc' st',
    Forall (fun k => k ∈ keys) mukeys ->
    Forall (unitOk props keys) acc.1 ->
    forEachMukey (processMukey n g props cb) mukeys acc st = (Ok acc', st') ->
    Forall (unitOk props keys) acc'.1.
Proof.
  induction mukeys as [|mukey rest IH]; intros acc st acc' st' Hkeys Hacc; simpl.
  - intros [= <- <-]. exact Hacc.
  - rewrite bind_unfold.
    destruct (processMukey _ _ _ _ acc mukey st) as [[[results1 p1]|e] st1] eqn:Hstep;
      [|discriminate].
    destruct acc as [results processed].
    inversion Hkeys as [|? ? Hk Hrest]; subst.
    intros Hloop. eapply IH; [exact Hrest| |exact Hloop].
    simpl. eapply processMukey_units; eauto.
Qed.

Lemma insertUnit_Forall (P : SoilUnit.t -> Prop) a l :
  P a -> Forall P l -> Forall P (insertUnit a l).
Proof.
  intros Ha. induction 1 as [|b rest Hb Hrest IH]; simpl.
  - now repeat constructor.
  - destruct (comparatorPositive _ _); repeat constructor; auto.
Qed.

Lemma sortUnits_Forall (P : SoilUnit.t -> Prop) l :
  Forall P l -> Forall P (sortUnits l).
Proof.
  unfold sortUnits. induction 1; simpl; [constructor|].
  now apply insertUnit_Forall.
Qed.

Lemma calculateSoilIntersections_units mukeys wkt g props cb st results st' :
  calculateSoilIntersections mukeys wkt g props cb st = (Ok results, st') ->
  Forall (unitOk props mukeys) results.
Proof.
  unfold calculateSoilIntersections. intros Hrun.
  apply bind_Ok_inv in Hrun as ([unsorted processed] & st1 & Hloop & Hrest).
  apply bind_Ok_inv in Hrest as ([] & st2 & _ & Hret).
  injection Hret as <- <-.
  apply sortUnits_Forall.
  change unsorted with (unsorted, processed).1.
  eapply forEachMukey_units with (keys := mukeys); [| |exact Hloop].
  - apply Forall_forall. auto.
  - constructor.
Qed.

(** With the prototype of a fresh object, a key that is no member of
    [Object.prototype] reads a record or nothing. *)
Lemma get_plain_key props k :
  PropertyTable.prototype props = None ->
  k ∉ objectPrototypeMembers ->
  PropertyTable.get props k
  = match PropertyTable.entries props !! k with
    | Some record => Found record
    | None => Absent
    end.
Proof.
  intros Hproto Hk. unfold PropertyTable.get.
  destruct (String.eqb_spec k "__proto__") as [->|_].
  { exfalso. apply Hk. apply list_elem_of_In. vm_compute. tauto. }
  destruct (PropertyTable.entries props !! k); [reflexivity|].
  rewrite Hproto. simpl. now rewrite bool_decide_eq_false_2.
Qed.

(** Every soil unit that [calculateSoilIntersections] returns has a
    strictly positive total area and a truthy [soilProperties[mukey]]:
    a properties record, when the table has the prototype of a fresh
    object and the key does not name a member of [Object.prototype]; a
    key whose [soilProperties[mukey]] is falsy has no unit in the
    output. *)
Theorem kept_units_positive_and_looked_up mukeys wkt g props cb st results st' :
  calculateSoilIntersections mukeys wkt g props cb st = (Ok results, st') ->
  Forall (fun u =>
            Double.gtb (SoilUnit.area_acres u) Double.zero = true /\
            lookedTruthy (PropertyTable.get props (SoilUnit.mukey u)) = true /\
            SoilUnit.mukey u ∈ mukeys /\
            (PropertyTable.prototype props = None ->
             SoilUnit.mukey u ∉ objectPrototypeMembers ->
             is_Some (PropertyTable.entries props !! SoilUnit.mukey u))) results /\
  (forall k, lookedTruthy (PropertyTable.get props k) = false ->
             k ∉ map SoilUnit.mukey results).
Proof.
  intros Hrun. apply calculateSoilIntersections_units in Hrun.
  split.
  - eapply Forall_impl; [exact Hrun|]. intros u (Harea & Hget & Hkey & _).
    repeat split; auto. intros Hproto Hplain.
    rewrite (get_plain_key _ _ Hproto Hplain) in Hget.
    destruct (PropertyTable.entries props !! SoilUnit.mukey u); [eauto|discriminate].
  - intros k Hnone Hin. apply list_elem_of_fmap in Hin as (u & -> & Hu).
    rewrite Forall_forall in Hrun. destruct (Hrun u Hu) as (_ & Hget & _).
    congruence.
Qed.
End PipelineFacts.


Section PipelineRuns.
Context {env : JsEnv} {remote : Remote}.

Lemma soilAnalysisFailed_throws error st :
  exists e, soilAnalysisFailed error st = (Throw e, st).
Proof.
  unfold soilAnalysisFailed. rewrite bind_unfold. unfold lift.
  destruct error; simpl; eauto.
Qed.

Lemma tryCatchM_failed_Ok_inv (body : M AnalysisResult) st r st' :
  tryCatchM body soilAnalysisFailed st = (Ok r, st') -> body st = (Ok r, st').
Proof.
  unfold tryCatchM. destruct (body st) as [[a|e] st1]; [auto|].
  destruct (soilAnalysisFailed_throws e st1) as [e' ->]. discriminate.
Qed.

(** The keys that go on to the property and intersection stages. *)
Lemma pipeline_after_lookup geojson maxResults cb st g wkt st1 mukeys st2 :
  validateAndConvert geojson cb st = (Ok (g, wkt), st1) ->
  getSoilMapUnitKeys wkt st1 = (Ok mukeys, st2) ->
  getSoilPolygonsAndAreas geojson maxResults cb st
  = tryCatchM
      (if (length mukeys =? 0)%nat
       then ret (mkAnalysisResult "FeatureCollection" [] None)
       else analyseMukeys geojson g wkt
              (if 0 <? default 100 maxResults
               then take (Z.to_nat (default 100 maxResults)) mukeys else mukeys) cb)
      soilAnalysisFailed st2.
Proof.
  intros Hv Hk. unfold getSoilPolygonsAndAreas, tryCatchM.
  rewrite bind_unfold, Hv, bind_unfold, Hk. reflexivity.
Qed.


Lemma analyseMukeys_Ok_inv geojson g wkt limited cb st r st' :
  analyseMukeys geojson g wkt limited cb st = (Ok r, st') ->
  exists props stA results stB,
    calculateSoilIntersections limited wkt g props (Some (subProgressCallback cb)) stA
    = (Ok results, stB) /\
    r = mkAnalysisResult "FeatureCollection"
          (concat (map SoilUnit.intersectionFeatures results))
          (Some (mkResultProperties
                   (fold_left
                      (fun sum unit =>
                         Double.add sum (Double.orZero (SoilUnit.area_acres unit)))
                      results Double.zero)
                   (length results) geojson)).
Proof.
  unfold analyseMukeys. intros Hrun.
  apply bind_Ok_inv in Hrun as ([] & s1 & _ & Hrun).
  apply bind_Ok_inv in Hrun as (props & s2 & _ & Hrun).
  apply bind_Ok_inv in Hrun as ([] & s3 & _ & Hrun).
  apply bind_Ok_inv in Hrun as (results & s4 & Hcalc & Hrun).
  apply bind_Ok_inv in Hrun as ([] & s5 & _ & Hrun).
  injection Hrun as <- <-. eauto 10.
Qed.

Lemma total_is_sum (results : list SoilUnit.t) :
  Forall (fun u => Double.gtb (SoilUnit.area_acres u) Double.zero = true) results ->
  forall acc,
    fold_left (fun sum unit => Double.add sum (Double.orZero (SoilUnit.area_acres unit)))
      results acc
    = fold_left Double.add (map SoilUnit.area_acres results) acc.
Proof.
  induction 1 as [|u rest Hu Hrest IH]; intros acc; simpl; [reflexivity|].
  now rewrite IH, (gtb_zero_truthy _ Hu).
Qed.


(** C2, as amended: when the lookup finds no key, the run ends there, no
    further request or progress report follows, and the result is a
    FeatureCollection with an empty feature list and no properties
    object. *)
Theorem zero_keys_returns_bare_collection geojson maxResults cb st g wkt st1 st2 :
  validateAndConvert geojson cb st = (Ok (g, wkt), st1) ->
  getSoilMapUnitKeys wkt st1 = (Ok [], st2) ->
  getSoilPolygonsAndAreas geojson maxResults cb st
  = (Ok (mkAnalysisResult "FeatureCollection" [] None), st2).
Proof.
  intros Hv Hk. now rewrite (pipeline_after_lookup _ _ _ _ _ _ _ _ _ Hv Hk).
Qed.

(** The keys handed to the property and intersection stages: a
    [maxResults] of 0 (or below) keeps every key; a positive [maxResults]
    keeps the first [maxResults] keys in lookup order; a [maxResults] left
    out takes the default 100 and keeps the first 100 keys. *)
Theorem maxResults_truncation geojson maxResults cb st g wkt st1 mukeys st2 :
  validateAndConvert geojson cb st = (Ok (g, wkt), st1) ->
  getSoilMapUnitKeys wkt st1 = (Ok mukeys, st2) ->
  mukeys <> [] ->
  exists limitedMukeys,
    getSoilPolygonsAndAreas geojson maxResults cb st
    = tryCatchM (analyseMukeys geojson g wkt limitedMukeys cb) soilAnalysisFailed st2 /\
    (forall n, maxResults = Some n -> n <= 0 -> limitedMukeys = mukeys) /\
    (forall n, maxResults = Some n -> 0 < n -> limitedMukeys = take (Z.to_nat n) mukeys) /\
    (maxResults = None -> limitedMukeys = take 100 mukeys).
Proof.
  intros Hv Hk Hne. eexists. split.
  - rewrite (pipeline_after_lookup _ _ _ _ _ _ _ _ _ Hv Hk).
    destruct mukeys; [congruence|]. reflexivity.
  - repeat split.
    + intros n -> Hn. simpl. now destruct (Z.ltb_spec 0 n); [lia|].
    + intros n -> Hn. simpl. now destruct (Z.ltb_spec 0 n); [|lia].
    + intros ->. reflexivity.
Qed.

(** C5: in a successful run whose lookup found at least one key, the
    result's [total_area_acres] is the sum of the [area_acres] of the soil
    units that [calculateSoilIntersections] returned, [mapunit_count] is
    their number, and [study_area] is the input GeoJSON. *)
Theorem result_totals geojson maxResults cb st g wkt st1 mukeys st2 r st' :
  validateAndConvert geojson cb st = (Ok (g, wkt), st1) ->
  getSoilMapUnitKeys wkt st1 = (Ok mukeys, st2) ->
  mukeys <> [] ->
  getSoilPolygonsAndAreas geojson maxResults cb st = (Ok r, st') ->
  exists limitedMukeys props stA results stB,
    calculateSoilIntersections limitedMukeys wkt g props
      (Some (subProgressCallback cb)) stA = (Ok results, stB) /\
    features r = concat (map SoilUnit.intersectionFeatures results) /\
    properties r
    = Some (mkResultProperties (Double.sum (map SoilUnit.area_acres results))
              (length results) geojson).
Proof.
  intros Hv Hk Hne Hrun.
  rewrite (pipeline_after_lookup _ _ _ _ _ _ _ _ _ Hv Hk) in Hrun.
  apply tryCatchM_failed_Ok_inv in Hrun.
  destruct mukeys as [|k rest]; [congruence|]. simpl length in Hrun. simpl Nat.eqb in Hrun.
  apply analyseMukeys_Ok_inv in Hrun as (props & stA & results & stB & Hcalc & ->).
  eexists; exists props, stA, results, stB. split; [exact Hcalc|]. split; [reflexivity|].
  simpl. unfold Double.sum. rewrite total_is_sum; [reflexivity|].
  apply calculateSoilIntersections_units in Hcalc.
  eapply Forall_impl; [exact Hcalc|]. now intros u [? _].
Qed.

End PipelineRuns.

Lemma zero_keys_returns_bare_collection_witness :
  exists st2,
    getSoilPolygonsAndAreas (env := Mock.boxEnv) (remote := Mock.scripted Mock.emptyLookup)
      Mock.studySquare None Mock.progressToTrace (Mock.start Mock.emptyLookup)
    = (Ok (mkAnalysisResult "FeatureCollection" [] None), st2).
Proof.
  eexists.
  eapply (zero_keys_returns_bare_collection
            (env := Mock.boxEnv) (remote := Mock.scripted Mock.emptyLookup));
    vm_compute; reflexivity.
Defined.

(** C2 fails as stated: with a lookup that finds no key the result has no
    properties object, so none that carries a total of 0 and a count of 0. *)
Lemma zero_keys_result_without_properties :
  exists g wkt st1 st2 r,
    validateAndConvert (env := Mock.boxEnv) (remote := Mock.scripted Mock.emptyLookup)
      Mock.studySquare Mock.progressToTrace (Mock.start Mock.emptyLookup) = (Ok (g, wkt), st1) /\
    getSoilMapUnitKeys (env := Mock.boxEnv) wkt st1 = (Ok [], st2) /\
    getSoilPolygonsAndAreas (env := Mock.boxEnv) Mock.studySquare None
      Mock.progressToTrace (Mock.start Mock.emptyLookup) = (Ok r, st2) /\
    ~ exists p, properties r = Some p /\
                Double.eqb (total_area_acres p) Double.zero = true /\
                mapunit_count p = 0%nat.
Proof.
  do 5 eexists. split; [vm_compute; reflexivity|].
  split; [vm_compute; reflexivity|].
  split; [vm_compute; reflexivity|].
  intros (p & Hp & _). discriminate Hp.
Qed.

Lemma maxResults_truncation_witness :
  exists g wkt st2 limitedMukeys,
    getSoilPolygonsAndAreas (env := Mock.boxEnv) (remote := Mock.scripted Examples.manyUnits)
      Mock.studySquare (Some 2) Mock.progressToTrace (Mock.start Examples.manyUnits)
    = tryCatchM
        (analyseMukeys (env := Mock.boxEnv) Mock.studySquare g wkt limitedMukeys
           Mock.progressToTrace)
        soilAnalysisFailed st2 /\
    limitedMukeys = ["1"; "2"].
Proof.
  do 3 eexists.
  edestruct (maxResults_truncation
               (env := Mock.boxEnv) (remote := Mock.scripted Examples.manyUnits)
               Mock.studySquare (Some 2) Mock.progressToTrace
               (Mock.start Examples.manyUnits))
    as (limited & Hrun & _ & Hpos & _).
  - vm_compute; reflexivity.
  - vm_compute; reflexivity.
  - discriminate.
  - exists limited. split; [exact Hrun|]. exact (Hpos 2 eq_refl eq_refl).
Defined.

(** C3 at its failing input: the map component's option "0 means no
    limit" reaches the pipeline as a [maxResults] left out, the default
    100 applies, and with 101 keys from the lookup the polygons of the key
    "100" are requested and those of the key "101" never are. *)
Theorem absent_maxResults_truncates_to_default :
  exists g wkt st1 st2 r st',
    requestedMaxResults 0 = None /\
    validateAndConvert (env := Mock.boxEnv) (remote := Mock.scripted Examples.manyUnits)
      Mock.studySquare Mock.progressToTrace (Mock.start Examples.manyUnits) = (Ok (g, wkt), st1) /\
    getSoilMapUnitKeys (env := Mock.boxEnv) wkt st1 = (Ok Examples.manyKeys, st2) /\
    "101" ∈ Examples.manyKeys /\
    getSoilPolygonsAndAreas (env := Mock.boxEnv) Mock.studySquare (requestedMaxResults 0)
      Mock.progressToTrace (Mock.start Examples.manyUnits) = (Ok r, st') /\
    Examples.fetched (Examples.polygonQuery "100") (trace st') = true /\
    Examples.fetched (Examples.polygonQuery "101") (trace st') = false.
Proof.
  do 6 eexists. split; [reflexivity|]. split; [vm_compute; reflexivity|].
  split; [vm_compute; reflexivity|].
  split; [apply list_elem_of_In; vm_compute; tauto|].
  split; [vm_compute; reflexivity|].
  split; vm_compute; reflexivity.
Qed.

Lemma result_totals_witness :
  exists r g wkt limitedMukeys props stA results stB,
    calculateSoilIntersections (env := Mock.boxEnv) (remote := Mock.scripted Mock.oneUnit)
      limitedMukeys wkt g props
      (Some (subProgressCallback Mock.progressToTrace)) stA = (Ok results, stB) /\
    features r = concat (map SoilUnit.intersectionFeatures results) /\
    properties r
    = Some (mkResultProperties (Double.sum (map SoilUnit.area_acres results))
              (length results) Mock.studySquare).
Proof.
  do 3 eexists.
  eapply (result_totals (env := Mock.boxEnv) (remote := Mock.scripted Mock.oneUnit)
            Mock.studySquare None Mock.progressToTrace (Mock.start Mock.oneUnit)).
  - vm_compute; reflexivity.
  - vm_compute; reflexivity.
  - discriminate.
  - vm_compute; reflexivity.
Defined.


Lemma kept_units_positive_and_looked_up_witness :
  exists results st',
    calculateSoilIntersections (env := Mock.boxEnv) (remote := Mock.scripted Mock.oneUnit)
      ["123456"; "999"] "POLYGON ((0 0, 100 0, 100 100, 0 100, 0 0))" Examples.squareBox
      Mock.oneUnitProperties None (Mock.start Mock.oneUnit) = (Ok results, st') /\
    map SoilUnit.mukey results = ["123456"] /\
    Forall (fun u =>
              Double.gtb (SoilUnit.area_acres u) Double.zero = true /\
              lookedTruthy (PropertyTable.get Mock.oneUnitProperties (SoilUnit.mukey u))
              = true /\
              SoilUnit.mukey u ∈ ["123456"; "999"] /\
              (PropertyTable.prototype Mock.oneUnitProperties = None ->
               SoilUnit.mukey u ∉ objectPrototypeMembers ->
               is_Some (PropertyTable.entries Mock.oneUnitProperties !! SoilUnit.mukey u)))
      results /\
    (forall k, lookedTruthy (PropertyTable.get Mock.oneUnitProperties k) = false ->
               k ∉ map SoilUnit.mukey results).
Proof.
  do 2 eexists. split; [vm_compute; reflexivity|]. split; [reflexivity|].
  eapply (kept_units_positive_and_looked_up
            (env := Mock.boxEnv) (remote := Mock.scripted Mock.oneUnit)
            ["123456"; "999"] "POLYGON ((0 0, 100 0, 100 100, 0 100, 0 0))"
            Examples.squareBox Mock.oneUnitProperties None (Mock.start Mock.oneUnit)).
  vm_compute; reflexivity.
Defined.

(** C6 at its failing input: the lookup returns the key "constructor", for
    which the properties query has no row, and the polygon of the key
    covers half of the study square.  [soilProperties["constructor"]] is
    the inherited [Object] function, which is truthy: the unit is kept
    although the table has no record for its key, and its feature carries
    no soil property. *)
Theorem inherited_key_kept_without_record :
  exists table st1 u st2 r st3 f,
    getSoilProperties (env := Mock.boxEnv) (remote := Mock.scripted Scenarios.inheritedKey)
      ["constructor"] (Mock.start Scenarios.inheritedKey) = (Ok table, st1) /\
    PropertyTable.entries table !! "constructor" = None /\
    calculateSoilIntersections (env := Mock.boxEnv)
      (remote := Mock.scripted Scenarios.inheritedKey)
      ["constructor"] "POLYGON ((0 0, 100 0, 100 100, 0 100, 0 0))" Examples.squareBox
      table None (Mock.start Scenarios.inheritedKey) = (Ok [u], st2) /\
    SoilUnit.mukey u = "constructor" /\
    getSoilPolygonsAndAreas (env := Mock.boxEnv)
      (remote := Mock.scripted Scenarios.inheritedKey)
      Mock.studySquare None None (Mock.start Scenarios.inheritedKey) = (Ok r, st3) /\
    features r = [f] /\
    IntersectionFeature.mukey f = "constructor" /\
    IntersectionFeature.soil f = Builtin /\
    spreadMembers (IntersectionFeature.soil f) = [] /\
    mapunit_count <$> properties r = Some 1%nat.
Proof.
  do 7 eexists. split; [vm_compute; reflexivity|]. split; [reflexivity|].
  split; [vm_compute; reflexivity|]. split; [reflexivity|].
  split; [vm_compute; reflexivity|]. repeat split; reflexivity.
Qed.

(** ** Rejected inputs *)

Section Rejection.
Context {env : JsEnv} {remote : Remote}.

Lemma extract_empty_collection fields :
  assoc "type" fields = VStr "FeatureCollection" ->
  assoc "features" fields = VUndef \/ assoc "features" fields = VArr [] ->
  extractAndConvertGeometry (VObj fields)
  = Throw (newError
             "Geometry processing failed: Unsupported GeoJSON type: FeatureCollection").
Proof.
  intros Hty Hfeat. unfold extractAndConvertGeometry, member. simpl.
  rewrite Hty. destruct Hfeat as [-> | ->]; reflexivity.
Qed.

(** C9: a FeatureCollection whose [features] member is missing or an empty
    array is not answered with an empty result: the normaliser reaches its
    unsupported-type branch and [getSoilPolygonsAndAreas] throws. *)
Theorem empty_collection_rejected fields maxResults cb st :
  assoc "type" fields = VStr "FeatureCollection" ->
  assoc "features" fields = VUndef \/ assoc "features" fields = VArr [] ->
  extractAndConvertGeometry (VObj fields)
  = Throw (newError
             "Geometry processing failed: Unsupported GeoJSON type: FeatureCollection") /\
  (exists e st', getSoilPolygonsAndAreas (VObj fields) maxResults cb st = (Throw e, st')) /\
  (forall st1,
     report cb (mkProgress 0 100 "Converting geometry..." 0) st = (Ok tt, st1) ->
     getSoilPolygonsAndAreas (VObj fields) maxResults cb st
     = (Throw (newError "Soil analysis failed: Geometry processing failed: Unsupported GeoJSON type: FeatureCollection"),
        st1)).
Proof.
  intros Hty Hfeat.
  pose proof (extract_empty_collection fields Hty Hfeat) as Hex.
  split; [exact Hex|].
  assert (Hrun : getSoilPolygonsAndAreas (VObj fields) maxResults cb st
                 = match report cb (mkProgress 0 100 "Converting geometry..." 0) st with
                   | (Ok _, st1) =>
                       (Throw (newError "Soil analysis failed: Geometry processing failed: Unsupported GeoJSON type: FeatureCollection"),
                        st1)
                   | (Throw e, st1) => soilAnalysisFailed e st1
                   end).
  { unfold getSoilPolygonsAndAreas, tryCatchM. rewrite bind_unfold.
    unfold validateAndConvert.
    change (negb (truthy (VObj fields))) with false.
    change (negb (isObject (VObj fields))) with false. cbv iota.
    rewrite bind_unfold.
    change (lift (member (VObj fields) "type") st) with (Ok (assoc "type" fields), st).
    rewrite Hty.
    change (negb (truthy (VStr "FeatureCollection"))) with false. cbv iota.
    rewrite bind_unfold.
    destruct (report cb _ st) as [[[]|e] st1]; [|reflexivity].
    rewrite bind_unfold. unfold lift. rewrite Hex. reflexivity. }
  split.
  - rewrite Hrun. destruct (report cb _ st) as [[[]|e] st1]; [eauto|].
    destruct (soilAnalysisFailed_throws e st1) as [e' ->]. eauto.
  - intros st1 Hrep. now rewrite Hrun, Hrep.
Qed.
End Rejection.

Lemma empty_collection_rejected_witness :
  exists st1,
    getSoilPolygonsAndAreas (env := Mock.boxEnv) (remote := Mock.scripted Mock.oneUnit)
      (VObj Examples.emptyCollection) None Mock.progressToTrace (Mock.start Mock.oneUnit)
    = (Throw (newError "Soil analysis failed: Geometry processing failed: Unsupported GeoJSON type: FeatureCollection"),
       st1).
Proof.
  eexists.
  apply (empty_collection_rejected
           (env := Mock.boxEnv) (remote := Mock.scripted Mock.oneUnit)
           Examples.emptyCollection None Mock.progressToTrace (Mock.start Mock.oneUnit)
           eq_refl (or_intror eq_refl)).
  reflexivity.
Defined.

(** ** The geometry fingerprint *)

Section FingerprintFacts.
Context {env : JsEnv}.

Lemma simplifyFeature_agrees f1 f2 :
  member f1 "type" = member f2 "type" ->
  member f1 "geometry" = member f2 "geometry" ->
  simplifyFeature f1 = simplifyFeature f2.
Proof. unfold simplifyFeature. now intros -> ->. Qed.

Lemma mapExc_simplify_agrees l1 l2 :
  Forall2 (fun f1 f2 => member f1 "type" = member f2 "type" /\
                        member f1 "geometry" = member f2 "geometry") l1 l2 ->
  mapExc simplifyFeature l1 = mapExc simplifyFeature l2.
Proof.
  induction 1 as [|f1 f2 r1 r2 [Hty Hg] _ IH]; simpl; [reflexivity|].
  now rewrite (simplifyFeature_agrees f1 f2 Hty Hg), IH.
Qed.

(** C8: two payloads with the same [type] and, feature by feature, the same
    [type] and [geometry] members have the same fingerprint, whatever
    their other members are. *)
Theorem fingerprint_depends_on_type_and_geometry fields1 fields2 l1 l2 :
  assoc "type" fields1 = assoc "type" fields2 ->
  assoc "features" fields1 = VArr l1 ->
  assoc "features" fields2 = VArr l2 ->
  Forall2 (fun f1 f2 => member f1 "type" = member f2 "type" /\
                        member f1 "geometry" = member f2 "geometry") l1 l2 ->
  generateGeometryHash (VObj fields1) = generateGeometryHash (VObj fields2).
Proof.
  intros Hty H1 H2 Hfeat. unfold generateGeometryHash, member. simpl.
  rewrite H1, H2, Hty. simpl.
  now rewrite (mapExc_simplify_agrees l1 l2 Hfeat).
Qed.

(** The digest is a signed 32-bit integer. *)
Lemma hashString_range s : -2 ^ 31 <= hashString s < 2 ^ 31.
Proof.
  unfold hashString.
  assert (Hgen : forall l h, -2 ^ 31 <= h < 2 ^ 31 ->
                             -2 ^ 31 <= fold_left hashStep l h < 2 ^ 31).
  { induction l as [|c l IH]; intros h Hh; simpl; [exact Hh|].
    apply IH. unfold hashStep. rewrite Z.land_diag. unfold toInt32.
    match goal with |- _ <= ?x mod _ - _ < _ =>
      pose proof (Z.mod_pos_bound x (2 ^ 32) ltac:(lia)) end.
    lia. }
  apply Hgen. lia.
Qed.
End FingerprintFacts.

Lemma fingerprint_of_study_square :
  generateGeometryHash (env := Mock.boxEnv) Mock.studySquare = Ok (Some "2042056888").
Proof. vm_compute. reflexivity. Qed.

Lemma fingerprint_depends_on_type_and_geometry_witness :
  generateGeometryHash (env := Mock.boxEnv) Mock.studySquare
  = generateGeometryHash (env := Mock.boxEnv) Examples.namedSquare.
Proof.
  eapply (fingerprint_depends_on_type_and_geometry (env := Mock.boxEnv)).
  - reflexivity.
  - reflexivity.
  - reflexivity.
  - repeat constructor.
Defined.

(** * Further properties of the code *)

(** ** The query executor: recovery, abort and bounds *)

Section QueryBehaviour.
Context {remote : Remote}.

(** Only a 2xx response with a JSON content type is decoded; its rows are
    the table of the body, or none when the body has no table. *)
Theorem decodeResponse_Ok response rows :
  decodeResponse response = Ok rows <->
  ok response = true /\
  (exists ct, contentType response = Some ct /\ includes ct "application/json" = true) /\
  (exists data, json response = Ok data /\ rows = default [] data).
Proof.
  unfold decodeResponse. split.
  - destruct (ok response); simpl; [|discriminate].
    destruct (contentType response) as [ct|]; simpl.
    + destruct (includes ct "application/json") eqn:Hinc; simpl.
      * destruct (json response) as [data|]; simpl; [|discriminate].
        intros [= <-]. split; [reflexivity|].
        split; [exists ct; split; [reflexivity|exact Hinc]|].
        exists data. split; reflexivity.
      * destruct (text response); discriminate.
    + destruct (text response); discriminate.
  - intros (-> & (ct & -> & ->) & data & -> & ->). reflexivity.
Qed.

Lemma decodeResponse_Ok_witness :
  decodeResponse
    (mkResponse true 200 "OK" (Ok "") (Some "application/json") (Ok None)) = Ok [].
Proof.
  apply (decodeResponse_Ok
           (mkResponse true 200 "OK" (Ok "") (Some "application/json") (Ok None)) []).
  split; [reflexivity|]. split; [exists "application/json"; split; reflexivity|].
  exists None. split; reflexivity.
Defined.

Lemma scheduleDelay_bounds k : 1000 <= scheduleDelay k <= 10000.
Proof.
  unfold scheduleDelay.
  assert (1 <= 2 ^ Z.of_nat k) by (apply (Z.pow_le_mono_r 2 0); lia).
  lia.
Qed.

Lemma retryLoop_after_failures r retries errors :
  forall attempt lastError st w1 m,
    FailsThen r (world st) errors w1 ->
    (attempt + length errors < retries)%nat ->
    retryLoop r retries attempt (length errors + m) lastError st
    = retryLoop r retries (attempt + length errors) m
        (match last errors with
         | Some e => ThrownError e
         | None => lastError
         end)
        (mkState w1 (trace st ++ retryTrace r retries attempt (length errors))).
Proof.
  induction errors as [|e rest IH]; intros attempt lastError st w1 m Hfail Hlt.
  - inversion Hfail; subst. simpl. rewrite Nat.add_0_r, app_nil_r. now destruct st.
  - inversion Hfail as [|w w2 w' res e' rest' Hf Hd Hab Hrest]; subst.
    simpl length in *. simpl Nat.add. simpl retryLoop. unfold tryCatchM.
    rewrite (attemptQuery_throws _ _ _ _ _ Hf Hd), Hab.
    rewrite bind_unfold, backoff_guard.
    destruct (Nat.ltb_spec (S attempt) retries) as [_|]; [|lia].
    unfold wait, emit. cbn [world trace].
    rewrite (IH (S attempt) (ThrownError e) _ w1 m); [|exact Hrest|lia].
    cbn [world trace]. rewrite last_cons. simpl retryTrace.
    destruct (Nat.ltb_spec (S attempt) retries) as [_|]; [|lia].
    rewrite <- !app_assoc. simpl.
    replace (attempt + S (length rest))%nat with (S attempt + length rest)%nat by lia.
    now destruct (last rest).
Qed.

Lemma retryTrace_all_waits r m k n :
  (k + n < m)%nat ->
  waitsOf (retryTrace r m k n) = map scheduleDelay (seq k n).
Proof.
  revert k. induction n as [|n IH]; intros k Hm; simpl; [reflexivity|].
  unfold waitsOf in *. rewrite omap_app, IH by lia.
  destruct (Nat.ltb_spec (S k) m); [reflexivity|lia].
Qed.

Lemma retryTrace_then_fetch r m n :
  fetchesOf (retryTrace r m 0 n ++ [EvFetch r]) = replicate (S n) r.
Proof.
  unfold fetchesOf. rewrite omap_app.
  change (omap _ (retryTrace r m 0 n)) with (fetchesOf (retryTrace r m 0 n)).
  rewrite retryTrace_fetches. simpl.
  induction n as [|n IH]; simpl; [reflexivity|]. now rewrite IH.
Qed.

Lemma retryTrace_then_fetch_waits r m n :
  (n < m)%nat ->
  waitsOf (retryTrace r m 0 n ++ [EvFetch r]) = map scheduleDelay (seq 0 n).
Proof.
  intros Hn. unfold waitsOf. rewrite omap_app.
  change (omap _ (retryTrace r m 0 n)) with (waitsOf (retryTrace r m 0 n)).
  rewrite retryTrace_all_waits by lia. simpl. now rewrite app_nil_r.
Qed.

(** After transient failures the query succeeds: when the endpoint fails
    fewer attempts than [retries] and then answers, [executeSDQuery]
    returns the rows of that answer, having waited out the backoff
    schedule after every failed attempt. *)
Theorem executeSDQuery_recovers q retries errors st w1 res w2 rows :
  FailsThen (mkRequest (trim q) "JSON") (world st) errors w1 ->
  (length errors < retries)%nat ->
  fetch w1 (mkRequest (trim q) "JSON") = (res, w2) ->
  res ≫= decodeResponse = Ok rows ->
  exists events,
    executeSDQuery q retries st = (Ok rows, mkState w2 (trace st ++ events)) /\
    fetchesOf events = replicate (S (length errors)) (mkRequest (trim q) "JSON") /\
    waitsOf events = map scheduleDelay (seq 0 (length errors)).
Proof.
  intros Hfail Hlt Hf Hd. unfold executeSDQuery.
  set (r := mkRequest (trim q) "JSON") in *.
  exists (retryTrace r retries 0 (length errors) ++ [EvFetch r]).
  replace retries with (length errors + S (retries - length errors - 1))%nat at 2 by lia.
  rewrite (retryLoop_after_failures r retries errors 0%nat _ st w1 _ Hfail) by lia.
  split; [|split].
  - simpl retryLoop. unfold tryCatchM, attemptQuery. rewrite bind_unfold.
    unfold fetchM. cbn [world trace]. rewrite Hf.
    destruct res as [response|e]; simpl in Hd; [|discriminate].
    unfold lift. rewrite Hd. now rewrite app_assoc.
  - apply retryTrace_then_fetch.
  - apply retryTrace_then_fetch_waits. lia.
Qed.

(** An abort ends the retries at once: when an attempt is rejected with an
    AbortError, no further request or wait follows, and the error thrown is
    a new "Query timeout" error in place of the abort. *)
Theorem executeSDQuery_abort_stops q retries errors st w1 res w2 e :
  FailsThen (mkRequest (trim q) "JSON") (world st) errors w1 ->
  (length errors < retries)%nat ->
  fetch w1 (mkRequest (trim q) "JSON") = (res, w2) ->
  res ≫= decodeResponse = Throw (ThrownError e) ->
  isAbortError e = true ->
  exists events,
    executeSDQuery q retries st = (Throw queryTimeout, mkState w2 (trace st ++ events)) /\
    fetchesOf events = replicate (S (length errors)) (mkRequest (trim q) "JSON") /\
    waitsOf events = map scheduleDelay (seq 0 (length errors)) /\
    last events = Some (EvFetch (mkRequest (trim q) "JSON")).
Proof.
  intros Hfail Hlt Hf Hd Hab. unfold executeSDQuery.
  set (r := mkRequest (trim q) "JSON") in *.
  exists (retryTrace r retries 0 (length errors) ++ [EvFetch r]).
  replace retries with (length errors + S (retries - length errors - 1))%nat at 2 by lia.
  rewrite (retryLoop_after_failures r retries errors 0%nat _ st w1 _ Hfail) by lia.
  split; [|split; [|split]].
  - simpl retryLoop. unfold tryCatchM.
    rewrite (attemptQuery_throws r (mkState w1 _) res w2 _ Hf Hd), Hab. cbn [world trace].
    now rewrite app_assoc.
  - apply retryTrace_then_fetch.
  - apply retryTrace_then_fetch_waits. lia.
  - now rewrite last_snoc.
Qed.

(** One turn of the retry loop. *)
Lemma retryLoop_step r retries attempt remaining lastError st :
  retryLoop r retries attempt (S remaining) lastError st
  = let '(res, w') := fetch (world st) r in
    let st1 := mkState w' (trace st ++ [EvFetch r]) in
    match res ≫= decodeResponse with
    | Ok rows => (Ok rows, st1)
    | Throw ThrownUndefined =>
        (Throw (typeError "Cannot read properties of undefined (reading 'name')"), st1)
    | Throw (ThrownError e) =>
        if isAbortError e then (Throw queryTimeout, st1)
        else retryLoop r retries (S attempt) remaining (ThrownError e)
               (mkState w'
                  (trace st ++ EvFetch r ::
                   (if (S attempt <? retries)%nat
                    then [EvWait (scheduleDelay attempt)] else [])))
    end.
Proof.
  simpl retryLoop. unfold tryCatchM, attemptQuery. rewrite bind_unfold.
  unfold fetchM. destruct (fetch (world st) r) as [res w'].
  assert (Hres : (let (e0, st') := (res, mkState w' (trace st ++ [EvFetch r])) in
                  match e0 with
                  | Ok a => lift (decodeResponse a) st'
                  | Throw e => (Throw e, st')
                  end)
                 = (res ≫= decodeResponse, mkState w' (trace st ++ [EvFetch r]))).
  { destruct res; reflexivity. }
  rewrite Hres. cbv zeta.
  destruct (res ≫= decodeResponse) as [rows|[|e]]; [reflexivity|reflexivity|].
  destruct (isAbortError e); [reflexivity|].
  rewrite bind_unfold, backoff_guard.
  destruct (S attempt <? retries)%nat; cbn; rewrite <- ?app_assoc; reflexivity.
Qed.

Lemma retryLoop_bounded r retries :
  forall remaining attempt lastError st,
    (attempt + remaining = retries)%nat ->
    exists events,
      trace (retryLoop r retries attempt remaining lastError st).2 = trace st ++ events /\
      (exists n, (n <= remaining)%nat /\ fetchesOf events = replicate n r) /\
      (length (waitsOf events) <= remaining - 1)%nat /\
      Forall (fun ms => 1000 <= ms <= 10000) (waitsOf events) /\
      Forall (fun ev => match ev with EvProgress _ => False | _ => True end) events.
Proof.
  induction remaining as [|remaining IH]; intros attempt lastError st Hsum.
  - exists []. simpl. rewrite app_nil_r. repeat split; auto.
    exists 0%nat. split; [lia|reflexivity].
  - rewrite retryLoop_step. destruct (fetch (world st) r) as [res w']. cbv zeta.
    assert (Hstop : forall x : exc (list row),
               exists events,
                 trace (x, mkState w' (trace st ++ [EvFetch r])).2 = trace st ++ events /\
                 (exists n, (n <= S remaining)%nat /\ fetchesOf events = replicate n r) /\
                 (length (waitsOf events) <= S remaining - 1)%nat /\
                 Forall (fun ms => 1000 <= ms <= 10000) (waitsOf events) /\
                 Forall (fun ev => match ev with EvProgress _ => False | _ => True end)
                   events).
    { intros x. exists [EvFetch r]. simpl. repeat split; auto; [|lia].
      exists 1%nat. split; [lia|reflexivity]. }
    destruct (res ≫= decodeResponse) as [rows|[|e]]; [apply Hstop|apply Hstop|].
    destruct (isAbortError e); [apply Hstop|].
    match goal with |- context [retryLoop r retries (S attempt) remaining _ ?s] =>
      destruct (IH (S attempt) (ThrownError e) s)
        as (events & Ht & (n & Hn & Hfe) & Hw & Hwb & Hp); [lia|] end.
    rewrite Ht. cbn [trace].
    destruct (Nat.ltb_spec (S attempt) retries).
    + exists (EvFetch r :: EvWait (scheduleDelay attempt) :: events).
      rewrite <- !app_assoc. split; [reflexivity|].
      split; [exists (S n); split; [lia|]; simpl; now rewrite <- Hfe|].
      split; [change (S (length (waitsOf events)) <= S remaining - 1)%nat; lia|].
      split; [change (Forall (fun ms => 1000 <= ms <= 10000)
                        (scheduleDelay attempt :: waitsOf events));
              constructor; [apply scheduleDelay_bounds|exact Hwb]|].
      repeat constructor; exact Hp.
    + assert (remaining = 0)%nat as -> by lia.
      exists (EvFetch r :: events).
      rewrite <- !app_assoc. split; [reflexivity|].
      split; [exists (S n); split; [lia|]; simpl; now rewrite <- Hfe|].
      split; [change (length (waitsOf events) <= 1 - 1)%nat; lia|].
      split; [exact Hwb|]. repeat constructor; exact Hp.
Qed.

Lemma sumZ_bound (l : list Z) b :
  Forall (fun ms => 1000 <= ms <= b) l -> sumZ l <= b * Z.of_nat (length l).
Proof. induction 1; simpl; lia. Qed.

(** Whatever the endpoint does, one call makes at most [retries] requests,
    all of them the same one, waits at most [retries - 1] times, each time
    between 1 and 10 seconds, and reports no progress. *)
Theorem executeSDQuery_bounded q retries st :
  exists events,
    trace (executeSDQuery q retries st).2 = trace st ++ events /\
    (exists n, (n <= retries)%nat /\
               fetchesOf events = replicate n (mkRequest (trim q) "JSON")) /\
    (length (waitsOf events) <= retries - 1)%nat /\
    Forall (fun ms => 1000 <= ms <= 10000) (waitsOf events) /\
    sumZ (waitsOf events) <= 10000 * Z.of_nat (retries - 1) /\
    Forall (fun ev => match ev with EvProgress _ => False | _ => True end) events.
Proof.
  unfold executeSDQuery.
  destruct (retryLoop_bounded (mkRequest (trim q) "JSON") retries retries 0%nat
              ThrownUndefined st eq_refl) as (events & Ht & Hf & Hw & Hwb & Hp).
  exists events. repeat split; auto.
  pose proof (sumZ_bound _ _ Hwb). nia.
Qed.

Lemma retryLoop_throws_error r retries :
  forall remaining attempt lastError st x st',
    (0 < remaining)%nat \/ lastError <> ThrownUndefined ->
    retryLoop r retries attempt remaining lastError st = (Throw x, st') ->
    exists e, x = ThrownError e.
Proof.
  induction remaining as [|remaining IH]; intros attempt lastError st x st' Hne.
  - simpl. unfold throw. intros [= <- <-]. destruct Hne as [|Hne]; [lia|].
    destruct lastError; [congruence|eauto].
  - simpl retryLoop. unfold tryCatchM.
    destruct (attemptQuery r st) as [[rows|[|e]] st1]; [discriminate| |].
    + unfold throw, typeError. intros [= <- <-]. eauto.
    + destruct (isAbortError e).
      * unfold throw, newError. intros [= <- <-]. eauto.
      * rewrite bind_unfold.
        destruct ((if (attempt <? retries - 1)%nat then wait (backoffDelay attempt) else ret ())
                    st1) as [[[]|e0] st2] eqn:Hw.
        -- apply IH. right. discriminate.
        -- destruct (attempt <? retries - 1)%nat; discriminate.
Qed.

(** With at least one attempt allowed, what [executeSDQuery] throws is
    always an error object, never [undefined]. *)
Theorem executeSDQuery_throws_error q retries st x st' :
  (0 < retries)%nat ->
  executeSDQuery q retries st = (Throw x, st') ->
  exists e, x = ThrownError e.
Proof.
  intros Hpos. unfold executeSDQuery. apply retryLoop_throws_error. now left.
Qed.
End QueryBehaviour.

Lemma executeSDQuery_recovers_witness :
  exists events,
    executeSDQuery (remote := Scenarios.flaky 2) "SELECT 1" 3
      (@mkState (Scenarios.flaky 2) 0%nat [])
    = (Ok [[VStr "7"]], @mkState (Scenarios.flaky 2) 3%nat ([] ++ events)) /\
    fetchesOf events = replicate 3 (mkRequest (trim "SELECT 1") "JSON") /\
    waitsOf events = [1000; 2000].
Proof.
  apply (executeSDQuery_recovers (remote := Scenarios.flaky 2) "SELECT 1" 3
           (replicate 2 (mkError "Error" "SDA API Error 500: boom"))
           (@mkState (Scenarios.flaky 2) 0%nat []) 2%nat
           (Mock.tableResponse [[VStr "7"]]) 3%nat [[VStr "7"]]).
  - simpl. repeat (eapply FailsThen_cons; [reflexivity|reflexivity|reflexivity|]).
    apply FailsThen_nil.
  - simpl. lia.
  - reflexivity.
  - reflexivity.
Defined.

Lemma executeSDQuery_abort_stops_witness :
  exists events,
    executeSDQuery (remote := Scenarios.abortedSecond) "SELECT 1" 3
      (@mkState Scenarios.abortedSecond 0%nat [])
    = (Throw queryTimeout, @mkState Scenarios.abortedSecond 2%nat ([] ++ events)) /\
    fetchesOf events = replicate 2 (mkRequest (trim "SELECT 1") "JSON") /\
    waitsOf events = [1000] /\
    last events = Some (EvFetch (mkRequest (trim "SELECT 1") "JSON")).
Proof.
  apply (executeSDQuery_abort_stops (remote := Scenarios.abortedSecond) "SELECT 1" 3
           [mkError "Error" "SDA API Error 500: boom"]
           (@mkState Scenarios.abortedSecond 0%nat []) 1%nat
           (Throw (ThrownError (mkError "AbortError" "The operation was aborted.")))
           2%nat (mkError "AbortError" "The operation was aborted.")).
  - eapply FailsThen_cons; [reflexivity|reflexivity|reflexivity|]. apply FailsThen_nil.
  - simpl. lia.
  - reflexivity.
  - reflexivity.
  - reflexivity.
Defined.

Lemma executeSDQuery_throws_error_witness :
  exists e, newError "SDA API Error 500: boom" = ThrownError e.
Proof.
  eapply (executeSDQuery_throws_error (remote := Mock.scripted Mock.failing)
            "SELECT 1" 3 (Mock.start Mock.failing)).
  - lia.
  - vm_compute. reflexivity.
Defined.

(** ** The geometry normaliser *)

Section NormaliserFacts.
Context {env : JsEnv}.

Lemma exc_bind_Ok_inv {A B} (c : exc A) (k : A -> exc B) b :
  c ≫= k = Ok b -> exists a, c = Ok a /\ k a = Ok b.
Proof. destruct c as [a|e]; simpl; [eauto|discriminate]. Qed.

Lemma geometryFailed_not_Ok {A} (error : exn) (x : A) :
  (msg ← messageOf error; Throw (newError ("Geometry processing failed: " +:+ msg)))
  <> Ok x.
Proof. destruct error; discriminate. Qed.

(** What a successful normalisation guarantees: the geometry returned has
    a [type] and [coordinates], and the WKT text returned is its
    serialisation and is not empty. *)
Theorem extractAndConvertGeometry_success geojson g wkt :
  extractAndConvertGeometry geojson = Ok (Some (g, wkt)) ->
  truthy geojson = true /\
  truthy g = true /\
  (exists ty coords,
     member g "type" = Ok ty /\ truthy ty = true /\
     member g "coordinates" = Ok coords /\ truthy coords = true) /\
  wkx_stringify g = Ok wkt /\
  wkt <> "".
Proof.
  unfold extractAndConvertGeometry.
  destruct (truthy geojson); simpl; [|discriminate].
  unfold tryCatch.
  match goal with |- match ?body with _ => _ end = _ -> _ =>
    destruct body as [res|e] eqn:Hbody end;
    [intros [= ->]|intros H; now apply geometryFailed_not_Ok in H].
  apply exc_bind_Ok_inv in Hbody as (ty & _ & Hbody).
  apply exc_bind_Ok_inv in Hbody as (feats & _ & Hbody).
  apply exc_bind_Ok_inv in Hbody as (geometry & _ & Hbody).
  destruct (truthy geometry) eqn:Hg; simpl in Hbody; [|discriminate].
  apply exc_bind_Ok_inv in Hbody as (gty & Hgty & Hbody).
  apply exc_bind_Ok_inv in Hbody as (gcoords & Hgc & Hbody).
  destruct (truthy gty) eqn:Hty; simpl in Hbody; [|discriminate].
  destruct (truthy gcoords) eqn:Hco; simpl in Hbody; [|discriminate].
  apply exc_bind_Ok_inv in Hbody as (w & Hw & Hbody).
  destruct (String.eqb w "") eqn:Hne; [discriminate|].
  injection Hbody as <- <-.
  split; [reflexivity|]. split; [exact Hg|].
  split; [exists gty, gcoords; auto|]. split; [exact Hw|].
  now apply String.eqb_neq.
Qed.

(** A collection with one feature is normalised exactly as that feature
    alone. *)
Theorem single_feature_collection_as_feature fields ffields :
  assoc "type" fields = VStr "FeatureCollection" ->
  assoc "features" fields = VArr [VObj ffields] ->
  assoc "type" ffields = VStr "Feature" ->
  extractAndConvertGeometry (VObj fields) = extractAndConvertGeometry (VObj ffields).
Proof.
  intros Hty Hfeat Hfty. unfold extractAndConvertGeometry, member. simpl.
  now rewrite Hty, Hfeat, Hfty.
Qed.

(** An input whose [type] is none of FeatureCollection, Feature, Polygon
    and MultiPolygon is rejected, and the error names the type. *)
Theorem unsupported_type_rejected fields s :
  assoc "type" fields = VStr s ->
  s <> "FeatureCollection" -> s <> "Feature" -> s <> "Polygon" -> s <> "MultiPolygon" ->
  extractAndConvertGeometry (VObj fields)
  = Throw (newError ("Geometry processing failed: Unsupported GeoJSON type: " +:+ s)).
Proof.
  intros Hty H1 H2 H3 H4. unfold extractAndConvertGeometry, member. simpl.
  rewrite Hty. unfold isStr.
  apply String.eqb_neq in H1, H2, H3, H4. rewrite H1, H2, H3, H4. reflexivity.
Qed.

(** The geometry inside a Feature is not checked for its type: whatever
    has a [type] and [coordinates] is serialised. *)
Theorem feature_geometry_type_not_checked fields gfields wkt :
  assoc "type" fields = VStr "Feature" ->
  assoc "geometry" fields = VObj gfields ->
  truthy (assoc "type" gfields) = true ->
  truthy (assoc "coordinates" gfields) = true ->
  wkx_stringify (VObj gfields) = Ok wkt ->
  wkt <> "" ->
  extractAndConvertGeometry (VObj fields) = Ok (Some (VObj gfields, wkt)).
Proof.
  intros Hty Hg Htty Htc Hw Hne.
  unfold extractAndConvertGeometry, member. simpl.
  rewrite Hty. simpl. rewrite Hg. simpl. rewrite Htty, Htc. simpl.
  rewrite Hw. simpl. apply String.eqb_neq in Hne. now rewrite Hne.
Qed.

Lemma unions_all_kept union rest :
  Forall (fun f => unionStep union f = union) rest ->
  fold_left unionStep rest union = union.
Proof. induction 1 as [|f rest Hf _ IH]; simpl; [reflexivity|]. now rewrite Hf. Qed.

(** Best-effort union: when the union with each later feature fails (the
    library throws or hands out nothing), the collection is normalised as
    its first feature alone and the later features are left out. *)
Theorem failed_unions_keep_first_feature fields f0 g0 rest :
  assoc "type" fields = VStr "FeatureCollection" ->
  assoc "features" fields = VArr (f0 :: rest) ->
  rest <> [] ->
  member f0 "geometry" = Ok g0 ->
  Forall (fun f => unionStep (turf_feature g0) f = turf_feature g0) rest ->
  extractAndConvertGeometry (VObj fields)
  = extractAndConvertGeometry (turf_feature g0).
Proof.
  intros Hty Hfeat Hne Hg0 Hfail.
  destruct rest as [|f1 rest]; [congruence|].
  pose proof (unions_all_kept _ _ Hfail) as Hfold.
  unfold extractAndConvertGeometry. simpl negb. cbv iota.
  unfold member at 1 2. simpl. rewrite Hty, Hfeat. simpl.
  rewrite Hg0. simpl. simpl in Hfold. rewrite Hfold.
  destruct g0; reflexivity.
Qed.
End NormaliserFacts.

Lemma extractAndConvertGeometry_success_witness :
  truthy Mock.studySquare = true /\
  truthy Examples.squareBox = true /\
  (exists ty coords,
     member Examples.squareBox "type" = Ok ty /\ truthy ty = true /\
     member Examples.squareBox "coordinates" = Ok coords /\ truthy coords = true) /\
  wkx_stringify (JsEnv := Mock.boxEnv) Examples.squareBox
  = Ok "POLYGON ((0 0, 100 0, 100 100, 0 100, 0 0))" /\
  "POLYGON ((0 0, 100 0, 100 100, 0 100, 0 0))" <> "".
Proof.
  apply (extractAndConvertGeometry_success (env := Mock.boxEnv) Mock.studySquare).
  vm_compute. reflexivity.
Defined.

Lemma single_feature_collection_as_feature_witness :
  extractAndConvertGeometry (env := Mock.boxEnv) Mock.studySquare
  = extractAndConvertGeometry (env := Mock.boxEnv) (feature [] (Mock.box 0 0 100 100)).
Proof.
  apply (single_feature_collection_as_feature (env := Mock.boxEnv)
           [("type", VStr "FeatureCollection");
            ("features", VArr [feature [] (Mock.box 0 0 100 100)])]
           [("type", VStr "Feature"); ("properties", VObj []);
            ("geometry", Mock.box 0 0 100 100)]);
    reflexivity.
Defined.

Lemma unsupported_type_rejected_witness :
  extractAndConvertGeometry (env := Mock.boxEnv)
    (VObj [("type", VStr "Point"); ("coordinates", VArr [VNum 10; VNum 20])])
  = Throw (newError ("Geometry processing failed: Unsupported GeoJSON type: " +:+ "Point")).
Proof.
  apply (unsupported_type_rejected (env := Mock.boxEnv)
           [("type", VStr "Point"); ("coordinates", VArr [VNum 10; VNum 20])] "Point");
    [reflexivity|discriminate..].
Defined.

Lemma feature_geometry_type_not_checked_witness :
  extractAndConvertGeometry (env := Mock.boxEnv) (feature [] (Mock.box 0 0 50 100))
  = Ok (Some (Mock.box 0 0 50 100, "POLYGON ((0 0, 50 0, 50 100, 0 100, 0 0))")).
Proof.
  apply (feature_geometry_type_not_checked (env := Mock.boxEnv)
           [("type", VStr "Feature"); ("properties", VObj []);
            ("geometry", Mock.box 0 0 50 100)]
           [("type", VStr "Polygon"); ("coordinates", Mock.boxCoords 0 0 50 100)]);
    [reflexivity..|discriminate].
Defined.

Lemma failed_unions_keep_first_feature_witness :
  extractAndConvertGeometry (env := Mock.boxEnv) (VObj Scenarios.twoSquares)
  = extractAndConvertGeometry (env := Mock.boxEnv) (turf_feature (Mock.box 0 0 100 100)).
Proof.
  apply (failed_unions_keep_first_feature (env := Mock.boxEnv) Scenarios.twoSquares
           (feature [] (Mock.box 0 0 100 100)) (Mock.box 0 0 100 100)
           [feature [] Scenarios.farBox]).
  - reflexivity.
  - reflexivity.
  - discriminate.
  - reflexivity.
  - repeat constructor.
Defined.

(** ** The two lookup queries *)

Section LookupFacts.
Context {env : JsEnv} {remote : Remote}.

Lemma filter_sublist {A} (f : A -> bool) (l : list A) : sublist (List.filter f l) l.
Proof.
  induction l as [|x l IH]; simpl; [constructor|].
  destruct (f x); now constructor.
Qed.

(** The keys of the lookup are the first cells of the rows as text, in the
    order of the rows, without those that are empty or all white space. *)
Theorem lookup_keys_nonblank_in_order wkt st keys st' :
  getSoilMapUnitKeys wkt st = (Ok keys, st') ->
  exists rows,
    executeSDQuery
      ("SELECT mukey FROM SDA_Get_Mukey_from_intersection_with_WktWgs84('"
       +:+ wkt +:+ "')") SDA_CONFIG.MAX_RETRIES st = (Ok rows, st') /\
    sublist keys (map (fun r : row => String_ (nth 0 r VUndef)) rows) /\
    Forall (fun key => key <> "" /\ trim key <> "") keys /\
    (forall r, In r rows -> trim (String_ (nth 0 r VUndef)) <> "" ->
               In (String_ (nth 0 r VUndef)) keys).
Proof.
  unfold getSoilMapUnitKeys. intros Hrun.
  apply bind_Ok_inv in Hrun as (rows & st1 & Hq & Hret).
  injection Hret as <- <-. exists rows. split; [exact Hq|].
  split; [apply filter_sublist|]. split.
  - apply List.Forall_forall. intros key Hin. apply filter_In in Hin as [_ Hb].
    apply andb_true_iff in Hb as [H1 H2].
    apply negb_true_iff in H1, H2. split; now apply String.eqb_neq.
  - intros r Hr Hne. apply filter_In. split.
    + apply in_map_iff. eauto.
    + apply andb_true_iff. split; apply negb_true_iff, String.eqb_neq; [|exact Hne].
      intros Heq. rewrite Heq in Hne. now apply Hne.
Qed.

(** A row whose first cell is [null] is not skipped: it yields the key
    "null". *)
Theorem null_cell_becomes_key wkt st keys st' rows r :
  getSoilMapUnitKeys wkt st = (Ok keys, st') ->
  executeSDQuery
    ("SELECT mukey FROM SDA_Get_Mukey_from_intersection_with_WktWgs84('"
     +:+ wkt +:+ "')") SDA_CONFIG.MAX_RETRIES st = (Ok rows, st') ->
  In r rows ->
  nth 0 r VUndef = VNull ->
  In "null" keys.
Proof.
  unfold getSoilMapUnitKeys. intros Hrun Hq Hr Hnull.
  rewrite bind_unfold, Hq in Hrun. injection Hrun as <-.
  apply filter_In. split; [|reflexivity].
  apply in_map_iff. exists r. split; [|exact Hr]. now rewrite Hnull.
Qed.

Lemma set_entries key record table k :
  k <> "__proto__" ->
  PropertyTable.entries (PropertyTable.set key record table) !! k
  = if String.eqb key k then Some record else PropertyTable.entries table !! k.
Proof.
  intros Hk. unfold PropertyTable.set.
  destruct (String.eqb_spec key "__proto__") as [->|Hkey]; cbn [PropertyTable.entries].
  - destruct (String.eqb_spec "__proto__" k); [congruence|reflexivity].
  - destruct (String.eqb_spec key k) as [->|Hne];
      [apply lookup_insert_eq|now apply lookup_insert_ne].
Qed.

Lemma set_entries_proto key record table :
  PropertyTable.entries table !! "__proto__" = None ->
  PropertyTable.entries (PropertyTable.set key record table) !! "__proto__" = None.
Proof.
  intros Hnone. unfold PropertyTable.set.
  destruct (String.eqb_spec key "__proto__") as [->|Hkey]; cbn [PropertyTable.entries];
    [exact Hnone|].
  now rewrite lookup_insert_ne.
Qed.

Lemma set_prototype key record table :
  PropertyTable.prototype (PropertyTable.set key record table)
  = if String.eqb key "__proto__" then Some record else PropertyTable.prototype table.
Proof. unfold PropertyTable.set. now destruct (String.eqb key "__proto__"). Qed.

Lemma properties_fold rows :
  forall (acc : PropertyTable.t),
    let table :=
      fold_left (fun soilProperties r =>
                   PropertyTable.set (String_ (nth 0 r VUndef)) (rowToProperties r)
                     soilProperties) rows acc in
    let latest k :=
      last (List.filter (fun r => String.eqb (String_ (nth 0 r VUndef)) k) rows) in
    (forall k, k <> "__proto__" ->
       PropertyTable.entries table !! k
       = match latest k with
         | Some r => Some (rowToProperties r)
         | None => PropertyTable.entries acc !! k
         end) /\
    (PropertyTable.entries acc !! "__proto__" = None ->
     PropertyTable.entries table !! "__proto__" = None) /\
    PropertyTable.prototype table
    = match latest "__proto__" with
      | Some r => Some (rowToProperties r)
      | None => PropertyTable.prototype acc
      end.
Proof.
  induction rows as [|r rows IH]; intros acc; simpl; [auto|].
  specialize (IH (PropertyTable.set (String_ (nth 0 r VUndef)) (rowToProperties r) acc)).
  simpl in IH. destruct IH as (IHe & IHp & IHq).
  split; [|split].
  - intros k Hk. rewrite (IHe k Hk), (set_entries _ _ _ _ Hk). clear IHe IHp IHq.
    destruct (String.eqb (String_ (nth 0 r VUndef)) k).
    + rewrite last_cons. destruct (last (List.filter _ rows)); reflexivity.
    + destruct (last (List.filter _ rows)); reflexivity.
  - intros Hacc. now apply IHp, set_entries_proto.
  - rewrite IHq, set_prototype. clear IHe IHp IHq.
    destruct (String.eqb (String_ (nth 0 r VUndef)) "__proto__").
    + rewrite last_cons. destruct (last (List.filter _ rows)); reflexivity.
    + destruct (last (List.filter _ rows)); reflexivity.
Qed.

(** The property table of a run: a key other than ["__proto__"] has an
    entry exactly when the response has a row for it, the record of the
    last such row; a row keyed ["__proto__"] adds no entry, its record
    becomes the prototype of the table.  So [soilProperties[k]] is a
    properties record exactly for the keys that have a row, and then the
    record of the last one. *)
Theorem properties_last_row_wins mukeys st props st' :
  mukeys <> [] ->
  getSoilProperties mukeys st = (Ok props, st') ->
  exists rows,
    executeSDQuery (soilPropertiesQuery mukeys) SDA_CONFIG.MAX_RETRIES st = (Ok rows, st') /\
    let latest k :=
      rowToProperties
        <$> last (List.filter (fun r => String.eqb (String_ (nth 0 r VUndef)) k) rows) in
    (forall k, k <> "__proto__" -> PropertyTable.entries props !! k = latest k) /\
    PropertyTable.entries props !! "__proto__" = None /\
    PropertyTable.prototype props = latest "__proto__" /\
    (forall k record, PropertyTable.get props k = Found record <-> latest k = Some record).
Proof.
  intros Hne. unfold getSoilProperties.
  destruct mukeys as [|k0 rest]; [congruence|]. simpl length. simpl Nat.eqb. cbv iota.
  intros Hrun. apply bind_Ok_inv in Hrun as (rows & st1 & Hq & Hret).
  injection Hret as <- <-. exists rows. split; [exact Hq|].
  destruct (properties_fold rows PropertyTable.empty) as (He & Hp & Hq').
  simpl in He, Hp, Hq'. simpl.
  assert (Hentries : forall k, k <> "__proto__" ->
            PropertyTable.entries
              (fold_left (fun soilProperties r =>
                            PropertyTable.set (String_ (nth 0 r VUndef)) (rowToProperties r)
                              soilProperties) rows PropertyTable.empty) !! k
            = rowToProperties
                <$> last (List.filter
                            (fun r => String.eqb (String_ (nth 0 r VUndef)) k) rows)).
  { intros k Hk. rewrite (He k Hk). destruct (last _); reflexivity. }
  assert (Hproto :
            PropertyTable.prototype
              (fold_left (fun soilProperties r =>
                            PropertyTable.set (String_ (nth 0 r VUndef)) (rowToProperties r)
                              soilProperties) rows PropertyTable.empty)
            = rowToProperties
                <$> last (List.filter
                            (fun r => String.eqb (String_ (nth 0 r VUndef)) "__proto__")
                            rows)).
  { rewrite Hq'. destruct (last _); reflexivity. }
  split; [exact Hentries|]. split; [apply Hp; reflexivity|]. split; [exact Hproto|].
  intros k record. unfold PropertyTable.get.
  destruct (String.eqb_spec k "__proto__") as [->|Hk].
  - rewrite Hproto. destruct (last (List.filter _ rows)); simpl; split; congruence.
  - rewrite (Hentries k Hk).
    destruct (last (List.filter (fun r => String.eqb (String_ (nth 0 r VUndef)) k) rows));
      simpl; [split; congruence|].
    destruct (_ ≫= _); [split; discriminate|].
    destruct (bool_decide _); split; discriminate.
Qed.
End LookupFacts.

Lemma lookup_keys_nonblank_in_order_witness :
  exists rows,
    executeSDQuery (remote := Mock.scripted Scenarios.threeUnits)
      ("SELECT mukey FROM SDA_Get_Mukey_from_intersection_with_WktWgs84('"
       +:+ "POLYGON ((0 0, 100 0, 100 100, 0 100, 0 0))" +:+ "')")
      SDA_CONFIG.MAX_RETRIES (Mock.start Scenarios.threeUnits)
    = (Ok rows, @mkState (Mock.scripted Scenarios.threeUnits) 1%nat
                  [EvFetch (mkRequest "SELECT mukey FROM SDA_Get_Mukey_from_intersection_with_WktWgs84('POLYGON ((0 0, 100 0, 100 100, 0 100, 0 0))')" "JSON")]) /\
    sublist ["1"; "2"; "3"]
      (map (fun r : row => String_ (env := Mock.boxEnv) (nth 0 r VUndef)) rows) /\
    Forall (fun key => key <> "" /\ trim key <> "") ["1"; "2"; "3"] /\
    (forall r, In r rows -> trim (String_ (env := Mock.boxEnv) (nth 0 r VUndef)) <> "" ->
               In (String_ (env := Mock.boxEnv) (nth 0 r VUndef)) ["1"; "2"; "3"]).
Proof.
  apply (lookup_keys_nonblank_in_order
           (env := Mock.boxEnv) (remote := Mock.scripted Scenarios.threeUnits)
           "POLYGON ((0 0, 100 0, 100 100, 0 100, 0 0))"
           (Mock.start Scenarios.threeUnits)).
  vm_compute. reflexivity.
Defined.

Lemma null_cell_becomes_key_witness : In "null" ["null"; "5"].
Proof.
  eapply (null_cell_becomes_key
            (env := Mock.boxEnv) (remote := Mock.scripted Scenarios.nullKey)
            "POLYGON ((0 0, 100 0, 100 100, 0 100, 0 0))"
            (Mock.start Scenarios.nullKey) ["null"; "5"] _ [[VNull]; [VStr "5"]] [VNull]).
  - vm_compute. reflexivity.
  - vm_compute. reflexivity.
  - left. reflexivity.
  - reflexivity.
Defined.

Lemma properties_last_row_wins_witness :
  exists rows,
    executeSDQuery (remote := Mock.scripted Scenarios.threeUnits)
      (soilPropertiesQuery ["1"; "2"; "3"]) SDA_CONFIG.MAX_RETRIES
      (Mock.start Scenarios.threeUnits)
    = (Ok rows, @mkState (Mock.scripted Scenarios.threeUnits) 1%nat
                  [EvFetch (mkRequest (trim (soilPropertiesQuery ["1"; "2"; "3"])) "JSON")]) /\
    let latest k :=
      rowToProperties
        <$> last (List.filter
                    (fun r => String.eqb (String_ (env := Mock.boxEnv) (nth 0 r VUndef)) k)
                    rows) in
    (forall k, k <> "__proto__" ->
       PropertyTable.entries Scenarios.threeUnitProperties !! k = latest k) /\
    PropertyTable.entries Scenarios.threeUnitProperties !! "__proto__" = None /\
    PropertyTable.prototype Scenarios.threeUnitProperties = latest "__proto__" /\
    (forall k record,
       PropertyTable.get Scenarios.threeUnitProperties k = Found record
       <-> latest k = Some record).
Proof.
  apply (properties_last_row_wins
           (env := Mock.boxEnv) (remote := Mock.scripted Scenarios.threeUnits)
           ["1"; "2"; "3"] (Mock.start Scenarios.threeUnits)).
  - discriminate.
  - vm_compute. reflexivity.
Defined.

(** ** The intersection loop: robustness, order and bookkeeping *)

Section PipelineBehaviour.
Context {env : JsEnv} {remote : Remote}.

Lemma processMukey_Ok n g props cb acc mukey st :
  exists acc' st', processMukey n g props cb acc mukey st = (Ok acc', st').
Proof.
  unfold processMukey, tryCatchM. destruct acc as [results processed].
  match goal with |- context [match ?body st with _ => _ end] =>
    destruct (body st) as [[a|e] st1] end; unfold ret; eauto.
Qed.

Lemma forEachMukey_Ok n g props cb mukeys :
  forall acc st,
    exists acc' st', forEachMukey (processMukey n g props cb) mukeys acc st = (Ok acc', st').
Proof.
  induction mukeys as [|mukey rest IH]; intros acc st; simpl.
  - unfold ret. eauto.
  - rewrite bind_unfold.
    destruct (processMukey_Ok n g props cb acc mukey st) as (acc1 & st1 & ->).
    apply IH.
Qed.

Lemma calculateSoilIntersections_Ok mukeys wkt g props cb st :
  (forall p s, exists s', report cb p s = (Ok tt, s')) ->
  exists results st',
    calculateSoilIntersections mukeys wkt g props cb st = (Ok results, st').
Proof.
  intros Hcb. unfold calculateSoilIntersections. rewrite bind_unfold.
  destruct (forEachMukey_Ok (length mukeys) g props cb mukeys ([], 0) st)
    as ([results processed] & st1 & ->).
  rewrite bind_unfold.
  destruct (Hcb (mkProgress processed (Z.of_nat (length mukeys))
                   "Spatial analysis complete" 100) st1) as [st2 ->].
  unfold ret. eauto.
Qed.

(** No failure while a map unit is processed aborts the loop: whatever the
    endpoint and the geometry libraries do, [calculateSoilIntersections]
    returns a result when the progress callback does not throw. *)
Theorem calculateSoilIntersections_never_aborts mukeys wkt g props cb st :
  (forall p s, exists s', report cb p s = (Ok tt, s')) ->
  exists results st',
    calculateSoilIntersections mukeys wkt g props cb st = (Ok results, st').
Proof. apply calculateSoilIntersections_Ok. Qed.

Lemma insertUnit_sorted a l :
  Double.gtb (SoilUnit.area_acres a) Double.zero = true ->
  Forall (fun u => Double.gtb (SoilUnit.area_acres u) Double.zero = true) l ->
  StronglySorted areaDescending l -> StronglySorted areaDescending (insertUnit a l).
Proof.
  intros Ha Hpos. induction 1 as [|b rest Hsorted IH Hb]; simpl.
  - repeat constructor.
  - inversion Hpos as [|? ? Hbpos Hrestpos]; subst.
    unfold comparatorPositive, Double.gtb.
    rewrite (gtb_zero_truthy _ Ha), (gtb_zero_truthy _ Hbpos).
    destruct (SFltb (SoilUnit.area_acres a) (SoilUnit.area_acres b)) eqn:Hlt.
    + constructor; [now apply IH|].
      apply insertUnit_Forall; [|exact Hb].
      now apply ltb_leb.
    + assert (Hab : areaDescending a b) by (now apply leb_total).
      constructor; [now constructor|].
      constructor; [exact Hab|].
      rewrite Forall_forall in Hb, Hrestpos. apply Forall_forall. intros c Hc.
      unfold areaDescending in *.
      apply (leb_trans _ (SoilUnit.area_acres b)); auto.
Qed.

Lemma sortUnits_sorted l :
  Forall (fun u => Double.gtb (SoilUnit.area_acres u) Double.zero = true) l ->
  StronglySorted areaDescending (sortUnits l).
Proof.
  unfold sortUnits. induction 1 as [|a l Ha Hl IH]; simpl; [constructor|].
  apply insertUnit_sorted; [exact Ha| |exact IH].
  now apply (sortUnits_Forall (fun u => Double.gtb (SoilUnit.area_acres u) Double.zero = true)).
Qed.

(** The soil units come out in descending order of area. *)
Theorem units_sorted_by_area mukeys wkt g props cb st results st' :
  calculateSoilIntersections mukeys wkt g props cb st = (Ok results, st') ->
  StronglySorted areaDescending results.
Proof.
  unfold calculateSoilIntersections. intros Hrun.
  apply bind_Ok_inv in Hrun as ([unsorted processed] & st1 & Hloop & Hrest).
  apply bind_Ok_inv in Hrest as ([] & st2 & _ & Hret).
  injection Hret as <- <-. apply sortUnits_sorted.
  apply (forEachMukey_units _ _ props _ mukeys) in Hloop;
    [|apply Forall_forall; auto|constructor].
  eapply Forall_impl; [exact Hloop|]. now intros u [? _].
Qed.

Lemma insertUnit_perm a l : insertUnit a l ≡ₚ a :: l.
Proof.
  induction l as [|b rest IH]; simpl; [reflexivity|].
  destruct (comparatorPositive _ _); [|reflexivity].
  rewrite IH. apply Permutation_swap.
Qed.

Lemma sortUnits_perm l : sortUnits l ≡ₚ l.
Proof.
  unfold sortUnits. induction l as [|a l IH]; simpl; [reflexivity|].
  now rewrite insertUnit_perm, IH.
Qed.

Lemma processMukey_keys n g props cb results processed mukey st results' p' st' :
  processMukey n g props cb (results, processed) mukey st = (Ok (results', p'), st') ->
  p' = processed + 1 /\
  exists kept, sublist kept [mukey] /\
               map SoilUnit.mukey results' = map SoilUnit.mukey results ++ kept.
Proof.
  assert (Hsame : p' = p' -> exists kept, sublist kept [mukey] /\
            map SoilUnit.mukey results = map SoilUnit.mukey results ++ kept).
  { intros _. exists []. split; [repeat constructor|now rewrite app_nil_r]. }
  unfold processMukey, tryCatchM. rewrite bind_unfold.
  destruct (report cb _ st) as [[[]|e] st1];
    [|intros [= <- <- <-]; split; [reflexivity|now apply Hsame]].
  rewrite bind_unfold.
  destruct (executeSDQuery _ _ st1) as [[polygonData|e] st2];
    [|intros [= <- <- <-]; split; [reflexivity|now apply Hsame]].
  destruct (length polygonData =? 0)%nat;
    [intros [= <- <- <-]; split; [reflexivity|now apply Hsame]|].
  destruct (fold_left _ polygonData _) as [tot feats].
  destruct (Double.gtb tot Double.zero && lookedTruthy (PropertyTable.get props mukey));
    intros [= <- <- <-]; (split; [reflexivity|]); [|now apply Hsame].
  exists [mukey]. split; [reflexivity|]. now rewrite List.map_app.
Qed.

Lemma forEachMukey_keys n g props cb mukeys :
  forall acc st acc' st',
    forEachMukey (processMukey n g props cb) mukeys acc st = (Ok acc', st') ->
    acc'.2 = acc.2 + Z.of_nat (length mukeys) /\
    exists kept, sublist kept mukeys /\
                 map SoilUnit.mukey acc'.1 = map SoilUnit.mukey acc.1 ++ kept.
Proof.
  induction mukeys as [|mukey rest IH]; intros acc st acc' st'; simpl.
  - intros [= <- <-]. split; [lia|]. exists []. split; [constructor|now rewrite app_nil_r].
  - rewrite bind_unfold.
    destruct (processMukey _ _ _ _ acc mukey st) as [[[results1 p1]|e] st1] eqn:Hstep;
      [|discriminate].
    destruct acc as [results processed].
    apply processMukey_keys in Hstep as (-> & kept1 & Hs1 & Hk1).
    intros Hloop. apply IH in Hloop as (Hp & kept & Hs & Hk). simpl in *.
    split; [lia|]. exists (kept1 ++ kept). split.
    + change (mukey :: rest) with ([mukey] ++ rest). now apply sublist_app.
    + now rewrite Hk, Hk1, <- app_assoc.
Qed.

(** Each key of the run yields at most one soil unit: the keys of the
    units returned are, up to the final sort, a subsequence of the keys
    given, so distinct keys give distinct units and there are never more
    units than keys. *)
Theorem units_from_distinct_keys mukeys wkt g props cb st results st' :
  calculateSoilIntersections mukeys wkt g props cb st = (Ok results, st') ->
  (exists kept, sublist kept mukeys /\ map SoilUnit.mukey results ≡ₚ kept) /\
  (length results <= length mukeys)%nat /\
  (NoDup mukeys -> NoDup (map SoilUnit.mukey results)).
Proof.
  unfold calculateSoilIntersections. intros Hrun.
  apply bind_Ok_inv in Hrun as ([unsorted processed] & st1 & Hloop & Hrest).
  apply bind_Ok_inv in Hrest as ([] & st2 & _ & Hret).
  injection Hret as <- <-.
  apply forEachMukey_keys in Hloop as (_ & kept & Hs & Hk). simpl in Hk.
  assert (Hperm : map SoilUnit.mukey (sortUnits unsorted) ≡ₚ kept).
  { rewrite sortUnits_perm. now rewrite Hk. }
  split; [eauto|]. split.
  - rewrite <- (length_map SoilUnit.mukey), Hperm. now apply sublist_length.
  - intros Hnd. rewrite Hperm. eapply sublist_NoDup; eauto.
Qed.
End PipelineBehaviour.

Section PipelineBookkeeping.
Context {env : JsEnv} {remote : Remote}.











End PipelineBookkeeping.

(** ** Failures of a run *)

Section Failures.
Context {env : JsEnv} {remote : Remote}.

Lemma bind_Throw_inv {A B} (c : M A) (k : A -> M B) st x st' :
  (c ≫= k) st = (Throw x, st') ->
  c st = (Throw x, st') \/ exists a st1, c st = (Ok a, st1) /\ k a st1 = (Throw x, st').
Proof.
  rewrite bind_unfold. destruct (c st) as [[a|e] st1]; [eauto|].
  intros [= <- <-]. now left.
Qed.

Lemma member_throws_error v k x :
  member v k = Throw x -> exists e, x = ThrownError e.
Proof. destruct v; simpl; try discriminate; intros [= <-]; unfold typeError; eauto. Qed.

Lemma extract_throws_error geojson x :
  extractAndConvertGeometry geojson = Throw x -> exists e, x = ThrownError e.
Proof.
  unfold extractAndConvertGeometry.
  destruct (negb (truthy geojson)); [discriminate|].
  unfold tryCatch.
  match goal with |- match ?body with _ => _ end = _ -> _ =>
    destruct body as [res|[|e]] end; [discriminate| |];
    simpl; intros [= <-]; unfold typeError, newError; eauto.
Qed.

Lemma validateAndConvert_throws_error geojson st x st' :
  validateAndConvert geojson None st = (Throw x, st') -> exists e, x = ThrownError e.
Proof.
  unfold validateAndConvert, throw, newError, typeError.
  destruct (negb (truthy geojson)); [intros [= <- <-]; eauto|].
  destruct (negb (isObject geojson)); [intros [= <- <-]; eauto|].
  rewrite bind_unfold. unfold lift at 1.
  destruct (member geojson "type") as [ty|e] eqn:Hm;
    [|intros [= <- <-]; eapply member_throws_error; eauto].
  destruct (negb (truthy ty)); [intros [= <- <-]; eauto|].
  rewrite bind_unfold. unfold report at 1, ret at 1. rewrite bind_unfold. unfold lift.
  destruct (extractAndConvertGeometry geojson) as [[[g wkt]|]|e] eqn:Hex.
  - destruct (negb (truthy g) || String.eqb wkt ""); [intros [= <- <-]; eauto|].
    rewrite bind_unfold. unfold report, ret. discriminate.
  - intros [= <- <-]. eauto.
  - intros [= <- <-]. eapply extract_throws_error; eauto.
Qed.

Lemma analyseMukeys_throws_error geojson g wkt limited st x st' :
  analyseMukeys geojson g wkt limited None st = (Throw x, st') ->
  exists e, x = ThrownError e.
Proof.
  unfold analyseMukeys. rewrite bind_unfold. unfold report at 1, ret at 1.
  intros Hrun. apply bind_Throw_inv in Hrun as [Hp | (props & s1 & _ & Hrun)].
  - unfold getSoilProperties in Hp.
    destruct (length limited =? 0)%nat; [discriminate|].
    apply bind_Throw_inv in Hp as [Hq | (rows & s1 & _ & Hret)]; [|discriminate].
    eapply retryLoop_throws_error; [|exact Hq]. left. unfold SDA_CONFIG.MAX_RETRIES. lia.
  - rewrite bind_unfold in Hrun. unfold report at 1, ret at 1 in Hrun.
    destruct (calculateSoilIntersections_Ok limited wkt g props
                (Some (subProgressCallback None)) s1) as (results & s2 & Hcalc).
    { intros p s. exists s. reflexivity. }
    rewrite bind_unfold, Hcalc in Hrun. discriminate Hrun.
Qed.

(** Without a progress callback, whatever makes a run fail, the error
    thrown is an [Error] whose message starts with "Soil analysis
    failed: ". *)
Theorem failures_are_wrapped geojson maxResults st x st' :
  getSoilPolygonsAndAreas geojson maxResults None st = (Throw x, st') ->
  exists msg, x = newError ("Soil analysis failed: " +:+ msg).
Proof.
  unfold getSoilPolygonsAndAreas, tryCatchM.
  match goal with |- context [match ?body st with _ => _ end] =>
    destruct (body st) as [[r|e] st1] eqn:Hbody end; [discriminate|].
  assert (He : exists err, e = ThrownError err).
  { apply bind_Throw_inv in Hbody as [Hv | ([g wkt] & s1 & _ & Hbody)].
    - eapply validateAndConvert_throws_error; eauto.
    - apply bind_Throw_inv in Hbody as [Hk | (mukeys & s2 & _ & Hbody)].
      + unfold getSoilMapUnitKeys in Hk.
        apply bind_Throw_inv in Hk as [Hq | (rows & s2 & _ & Hret)]; [|discriminate].
        eapply retryLoop_throws_error; [|exact Hq]. left. unfold SDA_CONFIG.MAX_RETRIES. lia.
      + destruct (length mukeys =? 0)%nat; [discriminate|].
        eapply analyseMukeys_throws_error; eauto. }
  destruct He as [err ->]. unfold soilAnalysisFailed. rewrite bind_unfold.
  unfold lift, throw. simpl. intros [= <- <-]. eauto.
Qed.

(** An input that is missing, not an object, or without a [type] is
    rejected before any progress report or request. *)
Theorem invalid_input_rejected maxResults cb st :
  (forall geojson, truthy geojson = false ->
     getSoilPolygonsAndAreas geojson maxResults cb st
     = (Throw (newError "Soil analysis failed: No GeoJSON provided"), st)) /\
  (forall geojson, truthy geojson = true -> isObject geojson = false ->
     getSoilPolygonsAndAreas geojson maxResults cb st
     = (Throw (newError "Soil analysis failed: GeoJSON must be an object"), st)) /\
  (forall fields, truthy (assoc "type" fields) = false ->
     getSoilPolygonsAndAreas (VObj fields) maxResults cb st
     = (Throw (newError "Soil analysis failed: GeoJSON must have a 'type' property"), st)).
Proof.
  split; [|split].
  - intros geojson Hf. unfold getSoilPolygonsAndAreas, tryCatchM.
    rewrite bind_unfold. unfold validateAndConvert. now rewrite Hf.
  - intros geojson Ht Ho. unfold getSoilPolygonsAndAreas, tryCatchM.
    rewrite bind_unfold. unfold validateAndConvert. now rewrite Ht, Ho.
  - intros fields Hty. unfold getSoilPolygonsAndAreas, tryCatchM.
    rewrite bind_unfold. unfold validateAndConvert.
    change (negb (truthy (VObj fields))) with false.
    change (negb (isObject (VObj fields))) with false. cbv iota.
    rewrite bind_unfold.
    change (lift (member (VObj fields) "type") st) with (Ok (assoc "type" fields), st).
    cbv beta iota. now rewrite Hty.
Qed.
End Failures.

Lemma calculateSoilIntersections_never_aborts_witness :
  exists results st',
    calculateSoilIntersections (env := Mock.boxEnv) (remote := Mock.scripted Mock.failing)
      ["1"; "2"; "3"] "POLYGON ((0 0, 100 0, 100 100, 0 100, 0 0))" Examples.squareBox
      Scenarios.threeUnitProperties None (Mock.start Mock.failing) = (Ok results, st').
Proof.
  apply (calculateSoilIntersections_never_aborts
           (env := Mock.boxEnv) (remote := Mock.scripted Mock.failing)).
  intros p s. exists s. reflexivity.
Defined.

Lemma units_sorted_by_area_witness :
  exists results st',
    calculateSoilIntersections (env := Mock.boxEnv)
      (remote := Mock.scripted Scenarios.threeUnits)
      ["1"; "2"; "3"] "POLYGON ((0 0, 100 0, 100 100, 0 100, 0 0))" Examples.squareBox
      Scenarios.threeUnitProperties None (Mock.start Scenarios.threeUnits)
    = (Ok results, st') /\
    map SoilUnit.mukey results = ["2"; "1"] /\
    StronglySorted areaDescending results.
Proof.
  do 2 eexists. split; [vm_compute; reflexivity|]. split; [reflexivity|].
  eapply (units_sorted_by_area (env := Mock.boxEnv)
            (remote := Mock.scripted Scenarios.threeUnits)
            ["1"; "2"; "3"] "POLYGON ((0 0, 100 0, 100 100, 0 100, 0 0))"
            Examples.squareBox Scenarios.threeUnitProperties None
            (Mock.start Scenarios.threeUnits)).
  vm_compute. reflexivity.
Defined.

Lemma units_from_distinct_keys_witness :
  exists results st',
    calculateSoilIntersections (env := Mock.boxEnv)
      (remote := Mock.scripted Scenarios.threeUnits)
      ["1"; "2"; "3"] "POLYGON ((0 0, 100 0, 100 100, 0 100, 0 0))" Examples.squareBox
      Scenarios.threeUnitProperties None (Mock.start Scenarios.threeUnits)
    = (Ok results, st') /\
    (exists kept, sublist kept ["1"; "2"; "3"] /\ map SoilUnit.mukey results ≡ₚ kept) /\
    (length results <= 3)%nat /\
    (NoDup ["1"; "2"; "3"] -> NoDup (map SoilUnit.mukey results)).
Proof.
  do 2 eexists. split; [vm_compute; reflexivity|].
  eapply (units_from_distinct_keys (env := Mock.boxEnv)
            (remote := Mock.scripted Scenarios.threeUnits)
            ["1"; "2"; "3"] "POLYGON ((0 0, 100 0, 100 100, 0 100, 0 0))"
            Examples.squareBox Scenarios.threeUnitProperties None
            (Mock.start Scenarios.threeUnits)).
  vm_compute. reflexivity.
Defined.




Lemma failures_are_wrapped_witness :
  exists msg,
    newError "Soil analysis failed: SDA API Error 500: boom"
    = newError ("Soil analysis failed: " +:+ msg).
Proof.
  eapply (failures_are_wrapped (env := Mock.boxEnv) (remote := Mock.scripted Mock.failing)
            Mock.studySquare None (Mock.start Mock.failing)).
  vm_compute. reflexivity.
Defined.

Lemma invalid_input_rejected_witness :
  getSoilPolygonsAndAreas (env := Mock.boxEnv) (remote := Mock.scripted Mock.oneUnit)
    VNull None Mock.progressToTrace (Mock.start Mock.oneUnit)
  = (Throw (newError "Soil analysis failed: No GeoJSON provided"),
     Mock.start Mock.oneUnit) /\
  getSoilPolygonsAndAreas (env := Mock.boxEnv) (remote := Mock.scripted Mock.oneUnit)
    (VStr "POLYGON") None Mock.progressToTrace (Mock.start Mock.oneUnit)
  = (Throw (newError "Soil analysis failed: GeoJSON must be an object"),
     Mock.start Mock.oneUnit) /\
  getSoilPolygonsAndAreas (env := Mock.boxEnv) (remote := Mock.scripted Mock.oneUnit)
    (VObj [("features", VArr [])]) None Mock.progressToTrace (Mock.start Mock.oneUnit)
  = (Throw (newError "Soil analysis failed: GeoJSON must have a 'type' property"),
     Mock.start Mock.oneUnit).
Proof.
  destruct (invalid_input_rejected (env := Mock.boxEnv)
              (remote := Mock.scripted Mock.oneUnit) None Mock.progressToTrace
              (Mock.start Mock.oneUnit)) as (H1 & H2 & H3).
  split; [apply H1; reflexivity|].
  split; [apply H2; reflexivity|apply H3; reflexivity].
Defined.

(** ** Validation in the map component *)

Section ValidationFacts.
Context {env : JsEnv}.

Ltac not_an_object :=
  simpl; try discriminate;
  try (match goal with |- context [if ?b then _ else _] => destruct b end;
       simpl; discriminate).

Lemma isValidGeometry_polygonal g :
  isValidGeometry g = true ->
  exists gfields,
    g = VObj gfields /\
    truthy (assoc "coordinates" gfields) = true /\
    (assoc "type" gfields = VStr "Polygon" \/ assoc "type" gfields = VStr "MultiPolygon").
Proof.
  unfold isValidGeometry, orFalse, member.
  destruct g as [| |?|?|?|?|gfields]; try not_an_object. simpl.
  destruct (truthy (assoc "coordinates" gfields)) eqn:Hc; simpl; [|discriminate].
  destruct (assoc "type" gfields) as [| |?|?|s|?|?] eqn:Hty; simpl; try discriminate.
  destruct (String.eqb_spec s "Polygon") as [->|_]; [intros _; eauto 6|].
  destruct (String.eqb_spec s "MultiPolygon") as [->|_]; [intros _; eauto 6|].
  discriminate.
Qed.

Lemma validFeature_shape f :
  validFeature f = Ok true ->
  exists ffields gfields,
    f = VObj ffields /\
    assoc "type" ffields = VStr "Feature" /\
    assoc "geometry" ffields = VObj gfields /\
    truthy (assoc "coordinates" gfields) = true /\
    (assoc "type" gfields = VStr "Polygon" \/ assoc "type" gfields = VStr "MultiPolygon").
Proof.
  unfold validFeature, member.
  destruct f as [| |?|?|?|?|ffields]; try not_an_object. simpl.
  destruct (assoc "type" ffields) as [| |?|?|s|?|?] eqn:Hty; simpl; try discriminate.
  destruct (String.eqb_spec s "Feature") as [->|_]; simpl; [|discriminate].
  destruct (truthy (assoc "geometry" ffields)); simpl; [|discriminate].
  destruct (isValidGeometry (assoc "geometry" ffields)) eqn:Hg; simpl; [|discriminate].
  intros _. apply isValidGeometry_polygonal in Hg as (gfields & Hgeo & Hc & Ht).
  exists ffields, gfields. auto.
Qed.

Lemma everyFeature_shape l :
  everyFeature l = Ok true -> Forall (fun f => validFeature f = Ok true) l.
Proof.
  induction l as [|f rest IH]; simpl; [constructor|].
  destruct (validFeature f) as [[|]|] eqn:Hf; simpl; try discriminate.
  intros Hrest. constructor; auto.
Qed.

Lemma isValidGeoJSON_shape geojson :
  isValidGeoJSON geojson = true ->
  exists fields l,
    geojson = VObj fields /\
    assoc "type" fields = VStr "FeatureCollection" /\
    assoc "features" fields = VArr l /\
    l <> [] /\
    Forall (fun f =>
              exists ffields gfields,
                f = VObj ffields /\
                assoc "type" ffields = VStr "Feature" /\
                assoc "geometry" ffields = VObj gfields /\
                truthy (assoc "coordinates" gfields) = true /\
                (assoc "type" gfields = VStr "Polygon" \/
                 assoc "type" gfields = VStr "MultiPolygon")) l.
Proof.
  unfold isValidGeoJSON, orFalse, member.
  destruct geojson as [| |?|?|?|?|fields]; try not_an_object. simpl.
  destruct (assoc "type" fields) as [| |?|?|s|?|?] eqn:Hty; simpl; try discriminate.
  destruct (String.eqb_spec s "FeatureCollection") as [->|_]; simpl; [|discriminate].
  destruct (assoc "features" fields) as [| |?|?|?|l|?] eqn:Hfeat; try discriminate.
  destruct l as [|f rest]; [discriminate|]. cbn [length Nat.eqb].
  destruct (everyFeature (f :: rest)) as [[|]|] eqn:Hall; try discriminate.
  intros _. exists fields, (f :: rest).
  split; [reflexivity|]. split; [exact Hty|]. split; [exact Hfeat|].
  split; [discriminate|].
  apply everyFeature_shape in Hall.
  eapply Forall_impl; [exact Hall|]. intros f0. apply validFeature_shape.
Qed.

(** What the component's validation lets through: a FeatureCollection
    with at least one feature, every feature a Feature whose geometry is a
    Polygon or MultiPolygon with coordinates. *)
Theorem isValidGeoJSON_accepts_polygon_collections geojson :
  isValidGeoJSON geojson = true ->
  exists fields l,
    geojson = VObj fields /\
    assoc "type" fields = VStr "FeatureCollection" /\
    assoc "features" fields = VArr l /\
    l <> [] /\
    Forall (fun f =>
              exists ffields gfields,
                f = VObj ffields /\
                assoc "type" ffields = VStr "Feature" /\
                assoc "geometry" ffields = VObj gfields /\
                truthy (assoc "coordinates" gfields) = true /\
                (assoc "type" gfields = VStr "Polygon" \/
                 assoc "type" gfields = VStr "MultiPolygon")) l.
Proof. apply isValidGeoJSON_shape. Qed.

(** A collection with one feature that passes the component's validation
    never meets the shape errors of the normaliser: its outcome is that of
    the WKT serialisation of the feature's geometry. *)
Theorem validated_single_feature_reaches_serialisation fields f :
  isValidGeoJSON (VObj fields) = true ->
  assoc "features" fields = VArr [f] ->
  exists g,
    member f "geometry" = Ok g /\
    extractAndConvertGeometry (VObj fields)
    = match wkx_stringify g with
      | Ok wkt =>
          if String.eqb wkt ""
          then Throw (newError
                        "Geometry processing failed: WKT conversion resulted in empty string")
          else Ok (Some (g, wkt))
      | Throw error =>
          msg ← messageOf error;
          Throw (newError ("Geometry processing failed: " +:+ msg))
      end.
Proof.
  intros Hvalid Hfeat.
  apply isValidGeoJSON_shape in Hvalid
    as (fields' & l & [= <-] & Hty & Hl & _ & Hall).
  rewrite Hfeat in Hl. injection Hl as <-.
  inversion Hall as [|? ? (ffields & gfields & -> & Hfty & Hg & Hc & Hgty) _]; subst.
  exists (VObj gfields). split; [simpl; now rewrite Hg|].
  unfold extractAndConvertGeometry, member. simpl.
  rewrite Hty, Hfeat. simpl. rewrite Hg. simpl. rewrite Hc.
  assert (Htt : truthy (assoc "type" gfields) = true) by (destruct Hgty as [-> | ->]; reflexivity).
  rewrite Htt. simpl.
  destruct (wkx_stringify (VObj gfields)) as [wkt|e]; simpl; [|reflexivity].
  destruct (String.eqb wkt ""); reflexivity.
Qed.

Lemma checkCoords_elevated pts :
  Forall (fun p => exists x y z, p = VArr [VNum x; VNum y; VNum z]) pts ->
  checkCoords (VArr pts) = true.
Proof.
  intros Hpts. simpl. apply forallb_forall. intros p Hin.
  rewrite List.Forall_forall in Hpts. destruct (Hpts p Hin) as (x & y & z & ->).
  reflexivity.
Qed.

(** Points that carry a third member are never range-checked: a polygon
    whose rings hold at least four points of three numbers each passes
    both [isValidGeometry] and [hasValidCoordinates], whatever the
    numbers. *)
Theorem elevated_points_not_range_checked rings :
  rings <> [] ->
  Forall (fun ring =>
            exists pts,
              ring = VArr pts /\ (4 <= length pts)%nat /\
              Forall (fun p => exists x y z, p = VArr [VNum x; VNum y; VNum z]) pts)
    rings ->
  isValidGeometry (VObj [("type", VStr "Polygon"); ("coordinates", VArr rings)]) = true /\
  hasValidCoordinates (VObj [("type", VStr "Polygon"); ("coordinates", VArr rings)]) = true.
Proof.
  intros Hne Hrings. unfold isValidGeometry, hasValidCoordinates, orFalse, member. simpl.
  rewrite List.Forall_forall in Hrings. split.
  - destruct rings as [|r0 rest]; [congruence|]. cbn [length Nat.eqb negb andb].
    apply forallb_forall. intros ring Hin.
    destruct (Hrings ring Hin) as (pts & -> & Hlen & Hpts). simpl.
    apply andb_true_iff. split.
    + apply negb_true_iff, Nat.ltb_ge. exact Hlen.
    + apply forallb_forall. intros p Hp. rewrite List.Forall_forall in Hpts.
      destruct (Hpts p Hp) as (x & y & z & ->). reflexivity.
  - apply forallb_forall. intros ring Hin.
    destruct (Hrings ring Hin) as (pts & -> & Hlen & Hpts).
    pose proof (checkCoords_elevated pts Hpts) as Hck.
    destruct pts as [|p0 [|p1 [|p2 [|p3 more]]]]; simpl in Hlen; try lia.
    rewrite List.Forall_forall in Hpts.
    destruct (Hpts p0 (or_introl eq_refl)) as (x & y & z & ->). exact Hck.
Qed.

(** Points of exactly two numbers are range-checked: when
    [hasValidCoordinates] passes, every such point of every ring lies
    within longitude [-180, 180] and latitude [-90, 90]. *)
Theorem plain_points_within_range gfields rings pts x y :
  hasValidCoordinates (VObj gfields) = true ->
  assoc "coordinates" gfields = VArr rings ->
  In (VArr pts) rings ->
  In (VArr [VNum x; VNum y]) pts ->
  (-180 <= x <= 180 /\ -90 <= y <= 90)%Q.
Proof.
  unfold hasValidCoordinates, orFalse, member. simpl. intros Hvalid Hc Hring Hpt.
  rewrite Hc in Hvalid. simpl in Hvalid.
  rewrite forallb_forall in Hvalid. specialize (Hvalid _ Hring).
  assert (Hck : checkCoords (VArr pts) = true).
  { destruct pts as [|p0 [|p1 [|p2 rest]]]; try exact Hvalid;
      destruct p0; try exact Hvalid; destruct p1; try exact Hvalid.
    destruct Hpt as [Hpt|[Hpt|[]]]; discriminate Hpt. }
  simpl in Hck. rewrite forallb_forall in Hck. specialize (Hck _ Hpt).
  simpl in Hck. unfold inRange, Qltb in Hck.
  apply negb_true_iff in Hck.
  apply orb_false_iff in Hck as [Hck Hy2]. apply orb_false_iff in Hck as [Hck Hy1].
  apply orb_false_iff in Hck as [Hx1 Hx2].
  unfold Qgtb in *. apply negb_false_iff in Hx1, Hx2, Hy1, Hy2.
  apply Qle_bool_iff in Hx1, Hx2, Hy1, Hy2. auto.
Qed.
End ValidationFacts.

Lemma isValidGeoJSON_accepts_polygon_collections_witness :
  exists fields l,
    VObj Scenarios.smallField = VObj fields /\
    assoc "type" fields = VStr "FeatureCollection" /\
    assoc "features" fields = VArr l /\
    l <> [] /\
    Forall (fun f =>
              exists ffields gfields,
                f = VObj ffields /\
                assoc "type" ffields = VStr "Feature" /\
                assoc "geometry" ffields = VObj gfields /\
                truthy (assoc "coordinates" gfields) = true /\
                (assoc "type" gfields = VStr "Polygon" \/
                 assoc "type" gfields = VStr "MultiPolygon")) l.
Proof.
  apply (isValidGeoJSON_accepts_polygon_collections (VObj Scenarios.smallField)).
  vm_compute. reflexivity.
Defined.

Lemma validated_single_feature_reaches_serialisation_witness :
  exists g,
    member (feature [] (VObj Scenarios.fieldCoordinates)) "geometry" = Ok g /\
    extractAndConvertGeometry (env := Mock.boxEnv) (VObj Scenarios.smallField)
    = match wkx_stringify (JsEnv := Mock.boxEnv) g with
      | Ok wkt =>
          if String.eqb wkt ""
          then Throw (newError
                        "Geometry processing failed: WKT conversion resulted in empty string")
          else Ok (Some (g, wkt))
      | Throw error =>
          msg ← messageOf error;
          Throw (newError ("Geometry processing failed: " +:+ msg))
      end.
Proof.
  apply (validated_single_feature_reaches_serialisation (env := Mock.boxEnv)
           Scenarios.smallField (feature [] (VObj Scenarios.fieldCoordinates))).
  - vm_compute. reflexivity.
  - reflexivity.
Defined.

Lemma elevated_points_not_range_checked_witness :
  isValidGeometry
    (VObj [("type", VStr "Polygon"); ("coordinates", VArr [VArr Scenarios.elevatedRing])])
  = true /\
  hasValidCoordinates
    (VObj [("type", VStr "Polygon"); ("coordinates", VArr [VArr Scenarios.elevatedRing])])
  = true.
Proof.
  apply (elevated_points_not_range_checked [VArr Scenarios.elevatedRing]).
  - discriminate.
  - constructor; [|constructor].
    exists Scenarios.elevatedRing. split; [reflexivity|]. split; [simpl; lia|].
    repeat constructor; eauto.
Defined.

Lemma plain_points_within_range_witness :
  (-180 <= 10 <= 180 /\ -90 <= 10 <= 90)%Q.
Proof.
  apply (plain_points_within_range Scenarios.fieldCoordinates
           [VArr [VArr [VNum 0; VNum 0]; VArr [VNum 10; VNum 0]; VArr [VNum 10; VNum 10];
                  VArr [VNum 0; VNum 10]; VArr [VNum 0; VNum 0]]]
           [VArr [VNum 0; VNum 0]; VArr [VNum 10; VNum 0]; VArr [VNum 10; VNum 10];
            VArr [VNum 0; VNum 10]; VArr [VNum 0; VNum 0]] 10 10).
  - vm_compute. reflexivity.
  - reflexivity.
  - left. reflexivity.
  - right. right. left. reflexivity.
Defined.

(** ** The fingerprint as a polynomial hash *)

Section HashFacts.
Context {env : JsEnv}.

Lemma toInt32_shift a q : toInt32 (a + 2 ^ 32 * q) = toInt32 a.
Proof.
  unfold toInt32. f_equal.
  replace (a + 2 ^ 32 * q + 2 ^ 31) with (a + 2 ^ 31 + q * 2 ^ 32) by ring.
  apply Z_mod_plus_full.
Qed.

Lemma toInt32_spec a : exists q, toInt32 a = a + 2 ^ 32 * q.
Proof.
  exists (- ((a + 2 ^ 31) / 2 ^ 32)). unfold toInt32.
  pose proof (Z.div_mod (a + 2 ^ 31) (2 ^ 32) ltac:(lia)). lia.
Qed.

Lemma toInt32_idem a : toInt32 (toInt32 a) = toInt32 a.
Proof.
  destruct (toInt32_spec a) as [q Hq]. rewrite Hq at 1. apply toInt32_shift.
Qed.

Lemma hashStep_poly p c :
  hashStep (toInt32 p) c = toInt32 (31 * p + Z.of_nat (nat_of_ascii c)).
Proof.
  unfold hashStep. rewrite Z.land_diag, toInt32_idem, Z.shiftl_mul_pow2 by lia.
  destruct (toInt32_spec p) as [q Hq].
  destruct (toInt32_spec (toInt32 p * 2 ^ 5)) as [q' Hq'].
  rewrite Hq', Hq.
  replace ((p + 2 ^ 32 * q) * 2 ^ 5 + 2 ^ 32 * q' - (p + 2 ^ 32 * q)
           + Z.of_nat (nat_of_ascii c))
    with (31 * p + Z.of_nat (nat_of_ascii c) + 2 ^ 32 * (31 * q + q')) by ring.
  apply toInt32_shift.
Qed.

Lemma hashFold_poly l :
  forall p,
    fold_left hashStep l (toInt32 p)
    = toInt32 (fold_left (fun h c => 31 * h + Z.of_nat (nat_of_ascii c)) l p).
Proof.
  induction l as [|c l IH]; intros p; simpl; [reflexivity|].
  now rewrite hashStep_poly, IH.
Qed.

(** The digest is the polynomial hash with multiplier 31 over the code
    units of the text, wrapped to a signed 32-bit integer. *)
Theorem hashString_is_polynomial s : hashString s = toInt32 (polyHash s).
Proof.
  unfold hashString, polyHash. change 0 with (toInt32 0) at 1. apply hashFold_poly.
Qed.

Lemma mapExc_objects l :
  Forall (fun f => exists ffields, f = VObj ffields) l ->
  exists simplified, mapExc simplifyFeature l = Ok simplified.
Proof.
  induction 1 as [|f rest [ffields ->] _ [simplified IH]]; simpl; [eauto|].
  rewrite IH. simpl. eauto.
Qed.

(** For a payload whose features are objects the fingerprint is always
    produced, without an exception, and it is the decimal text of a signed
    32-bit integer. *)
Theorem fingerprint_of_feature_objects fields l :
  assoc "features" fields = VArr l ->
  Forall (fun f => exists ffields, f = VObj ffields) l ->
  exists z,
    generateGeometryHash (VObj fields) = Ok (Some (pretty z)) /\
    -2 ^ 31 <= z < 2 ^ 31.
Proof.
  intros Hfeat Hobj. unfold generateGeometryHash, member. simpl.
  rewrite Hfeat. simpl.
  destruct (mapExc_objects l Hobj) as [simplified ->]. simpl.
  eexists. split; [reflexivity|]. apply hashString_range.
Qed.

End HashFacts.

Lemma fingerprint_of_feature_objects_witness :
  exists z,
    generateGeometryHash (env := Mock.boxEnv) Examples.namedSquare = Ok (Some (pretty z)) /\
    -2 ^ 31 <= z < 2 ^ 31.
Proof.
  eapply (fingerprint_of_feature_objects (env := Mock.boxEnv)).
  - reflexivity.
  - repeat constructor. eauto.
Defined.

(** ** Progress reports never go backwards *)

Section ProgressFacts.
Context {env : JsEnv} {remote : Remote}.

Lemma within_nil lo hi : within lo hi [].
Proof. split; constructor. Qed.

Lemma within_one lo hi c : lo <= c <= hi -> within lo hi [c].
Proof. intros Hc. split; repeat constructor; lia. Qed.

Lemma within_weaken lo hi lo' hi' l :
  lo' <= lo -> hi <= hi' -> within lo hi l -> within lo' hi' l.
Proof.
  intros Hlo Hhi [Hs Hb]. split; [exact Hs|].
  eapply Forall_impl; [exact Hb|]. simpl. intros; lia.
Qed.

Lemma within_app a b c l1 l2 :
  a <= b -> b <= c -> within a b l1 -> within b c l2 -> within a c (l1 ++ l2).
Proof.
  intros Hab Hbc [Hs1 Hb1] [Hs2 Hb2]. split.
  - induction l1 as [|x l1 IH]; simpl; [exact Hs2|].
    inversion Hs1 as [|? ? Hs1' Hx]; subst. inversion Hb1 as [|? ? Hxb Hb1']; subst.
    constructor; [now apply IH|].
    apply Forall_app. split; [exact Hx|].
    eapply Forall_impl; [exact Hb2|]. simpl. intros; lia.
  - apply Forall_app. split; (eapply Forall_impl; [eassumption|]); simpl; intros; lia.
Qed.

Lemma progressOf_app l1 l2 : progressOf (l1 ++ l2) = progressOf l1 ++ progressOf l2.
Proof. unfold progressOf. apply omap_app. Qed.

Lemma emits_weaken {A} (c : M A) lo hi lo' hi' :
  lo' <= lo -> hi <= hi' -> emits c (within lo hi) -> emits c (within lo' hi').
Proof.
  intros Hlo Hhi Hc st. destruct (Hc st) as (events & Ht & Hw).
  exists events. split; [exact Ht|]. eapply within_weaken; eauto.
Qed.

Lemma emits_silent {A} (c : M A) lo hi :
  (forall st, exists events, trace (c st).2 = trace st ++ events /\ progressOf events = []) ->
  emits c (within lo hi).
Proof.
  intros Hc st. destruct (Hc st) as (events & Ht & Hp).
  exists events. split; [exact Ht|]. rewrite Hp. apply within_nil.
Qed.

Lemma emits_pure {A} (x : exc A) lo hi : emits (fun st => (x, st)) (within lo hi).
Proof.
  apply emits_silent. intros st. exists []. simpl. now rewrite app_nil_r.
Qed.

Lemma emits_bind {A B} (c : M A) (k : A -> M B) a b d :
  a <= b -> b <= d ->
  emits c (within a b) -> (forall x, emits (k x) (within b d)) ->
  emits (c ≫= k) (within a d).
Proof.
  intros Hab Hbd Hc Hk st. rewrite bind_unfold.
  destruct (Hc st) as (ev1 & Ht1 & Hw1).
  destruct (c st) as [[x|e] st1]; simpl in Ht1.
  - destruct (Hk x st1) as (ev2 & Ht2 & Hw2).
    exists (ev1 ++ ev2). rewrite Ht2, Ht1, app_assoc. split; [reflexivity|].
    rewrite progressOf_app. eapply within_app; eauto.
  - exists ev1. split; [exact Ht1|]. eapply within_weaken; [| |exact Hw1]; lia.
Qed.

Lemma emits_tryCatchM {A} (body : M A) (handler : exn -> M A) a b d :
  a <= b -> b <= d ->
  emits body (within a b) -> (forall e, emits (handler e) (within b d)) ->
  emits (tryCatchM body handler) (within a d).
Proof.
  intros Hab Hbd Hc Hk st. unfold tryCatchM.
  destruct (Hc st) as (ev1 & Ht1 & Hw1).
  destruct (body st) as [[x|e] st1]; simpl in Ht1.
  - exists ev1. split; [exact Ht1|]. eapply within_weaken; [| |exact Hw1]; lia.
  - destruct (Hk e st1) as (ev2 & Ht2 & Hw2).
    exists (ev1 ++ ev2). rewrite Ht2, Ht1, app_assoc. split; [reflexivity|].
    rewrite progressOf_app. eapply within_app; eauto.
Qed.

Lemma emits_report c total msg pct lo hi :
  lo <= c <= hi ->
  emits (report recordProgress (mkProgress c total msg pct)) (within lo hi).
Proof.
  intros Hc st. exists [EvProgress (mkProgress c total msg pct)].
  split; [reflexivity|]. simpl. now apply within_one.
Qed.

Lemma emits_query q retries lo hi : emits (executeSDQuery q retries) (within lo hi).
Proof.
  apply emits_silent. intros st. unfold executeSDQuery.
  destruct (retryLoop_bounded (mkRequest (trim q) "JSON") retries retries 0%nat
              ThrownUndefined st eq_refl) as (events & Ht & _ & _ & _ & Hp).
  exists events. split; [exact Ht|].
  clear Ht. induction Hp as [|ev events Hev _ IH]; [reflexivity|].
  destruct ev; simpl; [exact IH|exact IH|contradiction].
Qed.

Lemma scaled_mono n i j : 0 <= n -> i <= j -> scaled n i <= scaled n j.
Proof.
  intros Hn Hij. unfold scaled, Math_round. apply Qfloor_resp_le.
  apply Qplus_le_l, Qplus_le_r.
  apply Qmult_le_compat_r; [|discriminate].
  apply Qmult_le_compat_r; [now rewrite <- Zle_Qle|].
  apply Qinv_le_0_compat. now rewrite <- (Zle_Qle 0).
Qed.

Lemma scaled_zero n : scaled n 0 = 60.
Proof.
  unfold scaled, Math_round.
  assert (Hq : (inject_Z 60 + inject_Z 0 / inject_Z n * inject_Z 35 + (1 # 2)
                == 121 # 2)%Q).
  { unfold Qdiv. change (inject_Z 0) with 0%Q. rewrite Qmult_0_l, Qmult_0_l.
    reflexivity. }
  now rewrite Hq.
Qed.

Lemma scaled_full n : 0 < n -> scaled n n = 95.
Proof.
  intros Hn. unfold scaled, Math_round.
  assert (Hq : (inject_Z 60 + inject_Z n / inject_Z n * inject_Z 35 + (1 # 2)
                == 191 # 2)%Q).
  { assert (Hnz : ~ (inject_Z n == 0)%Q).
    { intros H0. unfold Qeq in H0. simpl in H0. lia. }
    assert (H1 : (inject_Z n / inject_Z n == 1)%Q) by (now field).
    rewrite H1. reflexivity. }
  now rewrite Hq.
Qed.

Lemma scaled_bounds n i : 0 <= i <= n -> 60 <= scaled n i <= 95.
Proof.
  intros [Hi Hn]. split.
  - rewrite <- (scaled_zero n). apply scaled_mono; lia.
  - destruct (Z.eq_dec n 0) as [->|Hne].
    + assert (i = 0) as -> by lia. rewrite scaled_zero. lia.
    + rewrite <- (scaled_full n) by lia. apply scaled_mono; lia.
Qed.
End ProgressFacts.

Section ProgressOfARun.
Context {env : JsEnv} {remote : Remote}.

Lemma query_adds_no_progress q retries st :
  exists events,
    trace (executeSDQuery q retries st).2 = trace st ++ events /\ progressOf events = [].
Proof.
  unfold executeSDQuery.
  destruct (retryLoop_bounded (mkRequest (trim q) "JSON") retries retries 0%nat
              ThrownUndefined st eq_refl) as (events & Ht & _ & _ & _ & Hp).
  exists events. split; [exact Ht|].
  clear Ht. induction Hp as [|ev events Hev _ IH]; [reflexivity|].
  destruct ev; simpl; [exact IH|exact IH|contradiction].
Qed.

Lemma processMukey_progress n g props results processed mukey st :
  exists events acc' st',
    processMukey n g props (Some (subProgressCallback recordProgress))
      (results, processed) mukey st = (Ok acc', st') /\
    trace st' = trace st ++ events /\
    progressOf events = [scaled (Z.of_nat n) processed] /\
    acc'.2 = processed + 1.
Proof.
  unfold processMukey, tryCatchM. rewrite bind_unfold.
  unfold report at 1, subProgressCallback at 1, report at 1, recordProgress, emit.
  cbn [current total progressMessage].
  fold (scaled (Z.of_nat n) processed).
  set (ev := EvProgress _).
  set (st1 := mkState (world st) (trace st ++ [ev])).
  rewrite bind_unfold.
  match goal with |- context [executeSDQuery ?q ?r st1] =>
    destruct (query_adds_no_progress q r st1) as (evq & Htq & Hpq);
    destruct (executeSDQuery q r st1) as [[polygonData|e] st2] end;
    simpl in Htq.
  - assert (Hdone : forall acc' : list SoilUnit.t * Z, acc'.2 = processed + 1 ->
              exists events (acc'' : list SoilUnit.t * Z) st',
                (Ok acc', st2) = (Ok acc'', st') /\
                trace st' = trace st ++ events /\
                progressOf events = [scaled (Z.of_nat n) processed] /\
                acc''.2 = processed + 1).
    { intros acc' Hacc. exists (ev :: evq), acc', st2. split; [reflexivity|].
      split; [rewrite Htq; subst st1; cbn [trace]; now rewrite <- app_assoc|].
      split; [|exact Hacc]. change (ev :: evq) with ([ev] ++ evq).
      rewrite progressOf_app, Hpq. reflexivity. }
    destruct (length polygonData =? 0)%nat; [now apply Hdone|].
    destruct (fold_left _ polygonData _) as [tot feats].
    destruct (Double.gtb tot Double.zero && lookedTruthy (PropertyTable.get props mukey));
      try (now apply Hdone).
  - exists (ev :: evq), (results, processed + 1), st2. split; [reflexivity|].
    split; [rewrite Htq; subst st1; cbn [trace]; now rewrite <- app_assoc|].
    split; [|reflexivity]. change (ev :: evq) with ([ev] ++ evq).
    rewrite progressOf_app, Hpq. reflexivity.
Qed.

Lemma forEachMukey_progress n g props mukeys :
  forall acc st,
    0 <= acc.2 ->
    exists events acc' st',
      forEachMukey (processMukey n g props (Some (subProgressCallback recordProgress)))
        mukeys acc st = (Ok acc', st') /\
      trace st' = trace st ++ events /\
      within (scaled (Z.of_nat n) acc.2)
        (scaled (Z.of_nat n) (acc.2 + Z.of_nat (length mukeys))) (progressOf events) /\
      acc'.2 = acc.2 + Z.of_nat (length mukeys).
Proof.
  induction mukeys as [|mukey rest IH]; intros [results processed] st Hp.
  - exists [], (results, processed), st. split; [reflexivity|].
    split; [now rewrite app_nil_r|]. split; [apply within_nil|simpl; lia].
  - cbn [forEachMukey]. rewrite bind_unfold.
    destruct (processMukey_progress n g props results processed mukey st)
      as (ev1 & acc1 & st1 & -> & Ht1 & Hp1 & Hacc1).
    cbn [snd] in Hp.
    destruct (IH acc1 st1) as (ev2 & acc2 & st2 & -> & Ht2 & Hw2 & Hacc2); [lia|].
    exists (ev1 ++ ev2), acc2, st2. split; [reflexivity|].
    split; [now rewrite Ht2, Ht1, app_assoc|]. cbn [snd length] in *.
    rewrite Hacc1 in *.
    replace (processed + Z.of_nat (S (length rest)))
      with (processed + 1 + Z.of_nat (length rest)) by lia.
    split; [|lia]. rewrite progressOf_app, Hp1.
    eapply (within_app _ (scaled (Z.of_nat n) (processed + 1))); [| | |exact Hw2].
    + apply scaled_mono; lia.
    + apply scaled_mono; lia.
    + apply within_one. split; [lia|apply scaled_mono; lia].
Qed.

Lemma calculateSoilIntersections_progress mukeys wkt g props :
  emits (calculateSoilIntersections mukeys wkt g props
           (Some (subProgressCallback recordProgress))) (within 60 95).
Proof.
  intros st. unfold calculateSoilIntersections. rewrite bind_unfold.
  destruct (forEachMukey_progress (length mukeys) g props mukeys ([], 0) st)
    as (ev1 & [results processed] & st1 & -> & Ht1 & Hw1 & Hacc); [simpl; lia|].
  cbn [snd] in *. rewrite Z.add_0_l in *. subst processed.
  rewrite bind_unfold.
  unfold report at 1, subProgressCallback at 1, report at 1, recordProgress, emit.
  cbn [current total progressMessage].
  fold (scaled (Z.of_nat (length mukeys)) (Z.of_nat (length mukeys))).
  set (ev := EvProgress _).
  exists (ev1 ++ [ev]). cbn [snd trace ret].
  split; [now rewrite Ht1, app_assoc|].
  rewrite progressOf_app.
  pose proof (scaled_bounds (Z.of_nat (length mukeys)) (Z.of_nat (length mukeys))
                ltac:(lia)) as Hfull.
  rewrite scaled_zero in Hw1.
  eapply (within_app 60 (scaled (Z.of_nat (length mukeys)) (Z.of_nat (length mukeys))) 95);
    [lia|lia|exact Hw1|].
  change (progressOf [ev])
    with [scaled (Z.of_nat (length mukeys)) (Z.of_nat (length mukeys))].
  apply within_one. lia.
Qed.

Lemma validateAndConvert_progress geojson :
  emits (validateAndConvert geojson recordProgress) (within 0 20).
Proof.
  unfold validateAndConvert.
  destruct (negb (truthy geojson)); [apply emits_pure|].
  destruct (negb (isObject geojson)); [apply emits_pure|].
  apply (emits_bind _ _ 0 0 20); [lia|lia|apply emits_pure|]. intros ty.
  destruct (negb (truthy ty)); [apply emits_pure|].
  apply (emits_bind _ _ 0 0 20); [lia|lia|apply emits_report; lia|]. intros _.
  apply (emits_bind _ _ 0 0 20); [lia|lia|apply emits_pure|]. intros [[g wkt]|];
    [|apply emits_pure].
  destruct (negb (truthy g) || String.eqb wkt ""); [apply emits_pure|].
  apply (emits_bind _ _ 0 20 20); [lia|lia|apply emits_report; lia|]. intros _.
  apply emits_pure.
Qed.

Lemma analyseMukeys_progress geojson g wkt limited :
  emits (analyseMukeys geojson g wkt limited recordProgress) (within 40 100).
Proof.
  unfold analyseMukeys.
  apply (emits_bind _ _ 40 40 100); [lia|lia|apply emits_report; lia|]. intros _.
  apply (emits_bind _ _ 40 40 100); [lia|lia| |].
  { unfold getSoilProperties. destruct (length limited =? 0)%nat; [apply emits_pure|].
    apply (emits_bind _ _ 40 40 40); [lia|lia|apply emits_query|]. intros rows.
    apply emits_pure. }
  intros props.
  apply (emits_bind _ _ 40 60 100); [lia|lia|apply emits_report; lia|]. intros _.
  apply (emits_bind _ _ 60 95 100); [lia|lia|apply calculateSoilIntersections_progress|].
  intros results.
  apply (emits_bind _ _ 95 100 100); [lia|lia|apply emits_report; lia|]. intros _.
  apply emits_pure.
Qed.

(** With a callback that records the reports, the progress values of a
    run never decrease and stay between 0 and 100, however the run ends. *)
Theorem progress_never_decreases geojson maxResults st :
  exists events,
    trace (getSoilPolygonsAndAreas geojson maxResults recordProgress st).2
    = trace st ++ events /\
    StronglySorted Z.le (progressOf events) /\
    Forall (fun c => 0 <= c <= 100) (progressOf events).
Proof.
  assert (Hrun : emits (getSoilPolygonsAndAreas geojson maxResults recordProgress)
                   (within 0 100)).
  { unfold getSoilPolygonsAndAreas.
    apply (emits_tryCatchM _ _ 0 100 100); [lia|lia| |].
    - apply (emits_bind _ _ 0 20 100); [lia|lia|apply validateAndConvert_progress|].
      intros [g wkt].
      apply (emits_bind _ _ 20 20 100); [lia|lia| |].
      { unfold getSoilMapUnitKeys.
        apply (emits_bind _ _ 20 20 20); [lia|lia|apply emits_query|]. intros rows.
        apply emits_pure. }
      intros mukeys. destruct (length mukeys =? 0)%nat; [apply emits_pure|].
      apply (emits_weaken _ 40 100); [lia|lia|apply analyseMukeys_progress].
    - intros e. unfold soilAnalysisFailed.
      apply (emits_bind _ _ 100 100 100); [lia|lia|apply emits_pure|]. intros msg.
      apply emits_pure. }
  destruct (Hrun st) as (events & Ht & Hs & Hb). eauto.
Qed.
End ProgressOfARun.
